(** * splat_viewer: the PLY loader, the splat shaders and the load handler

    A shallow embedding of
    - [loadPly] (services/plyLoader),
    - the GLSL [vertexShader] and [fragmentShader] of components/Viewer.tsx,
    - [handleLoad] of App.tsx,
    followed by the properties proved about them.

    JavaScript numbers are IEEE binary64 values ([spec_float] at precision 53),
    strings are lists of UTF-16 code units, an [ArrayBuffer] is a list of
    bytes, and a thrown exception is the [Throw] case of [result]. *)

From Stdlib Require Import ZArith NArith List String Ascii Bool Lia.
From Stdlib Require Import Strings.Byte.
From Stdlib Require Import Floats.SpecFloat.
From stdpp Require Import base option list gmap.

Local Open Scope Z_scope.

(* ===================================================================== *)
(** ** Exceptions *)
(* ===================================================================== *)

(** What a [throw] carries: [new Error(message)] raised by the program, or
    one of the two engine errors the loader can run into. *)
Inductive JsError :=
| Error (message : list N)
| TypeError
| RangeError.

(** An error the engine raises, as opposed to one the loader throws. *)
Definition engineError (e : JsError) : Prop := e = TypeError \/ e = RangeError.

Inductive result (A : Type) :=
| Ok (a : A)
| Throw (e : JsError).
Arguments Ok {A} a.
Arguments Throw {A} e.

Definition bind {A B} (r : result A) (k : A -> result B) : result B :=
  match r with
  | Ok a => k a
  | Throw e => Throw e
  end.

Notation "'let*' x ':=' r 'in' k" := (bind r (fun x => k))
  (at level 10, x name, r at level 100, k at level 200).
Notation "'let*' ' p ':=' r 'in' k" := (bind r (fun x => let 'p := x in k))
  (at level 10, p pattern, r at level 100, k at level 200).

(* ===================================================================== *)
(** ** JavaScript strings *)
(* ===================================================================== *)

Module JsString.

(** A string is its sequence of UTF-16 code units. *)
Definition jsstring := list N.

(** String literals of the source (all of them are ASCII). *)
Fixpoint str (s : string) : jsstring :=
  match s with
  | EmptyString => []
  | String a s' => N_of_ascii a :: str s'
  end.

Fixpoint startsWith (s p : jsstring) : bool :=
  match p, s with
  | [], _ => true
  | _ :: _, [] => false
  | a :: p', b :: s' => N.eqb a b && startsWith s' p'
  end.

(** [indexOf_from s p i]: [i] plus the first position of [p] in [s],
    or [-1]. *)
Fixpoint indexOf_from (s p : jsstring) (i : Z) : Z :=
  if startsWith s p then i
  else match s with
       | [] => -1
       | _ :: s' => indexOf_from s' p (i + 1)
       end.

Definition indexOf (s p : jsstring) : Z := indexOf_from s p 0.

(** [p] occurs somewhere in [s]. *)
Fixpoint occurs (s p : jsstring) : bool :=
  startsWith s p
  || match s with
     | [] => false
     | _ :: s' => occurs s' p
     end.

(** [s.substring(0, e)]. *)
Definition substring0 (s : jsstring) (e : Z) : jsstring :=
  take (Z.to_nat e) s.

(** [s.split(sep)] for a one-character separator. *)
Fixpoint split (sep : N) (s : jsstring) : list jsstring :=
  match s with
  | [] => [[]]
  | c :: s' =>
      if N.eqb c sep then [] :: split sep s'
      else match split sep s' with
           | l :: ls => (c :: l) :: ls
           | [] => [[c]]
           end
  end.

(** WhiteSpace and LineTerminator code units (what [trim] and [parseInt]
    strip). *)
Definition isWhiteSpace (c : N) : bool :=
  match c with
  | 9 | 10 | 11 | 12 | 13 | 32 | 160 | 5760 | 8232 | 8233 | 8239 | 8287
  | 12288 | 65279 => true
  | _ => N.leb 8192 c && N.leb c 8202
  end%N.

Fixpoint trimStart (s : jsstring) : jsstring :=
  match s with
  | c :: s' => if isWhiteSpace c then trimStart s' else s
  | [] => []
  end.

Definition trimEnd (s : jsstring) : jsstring := rev (trimStart (rev s)).

Definition trim (s : jsstring) : jsstring := trimEnd (trimStart s).

(** [parts.join(sep)]. *)
Fixpoint join (sep : jsstring) (parts : list jsstring) : jsstring :=
  match parts with
  | [] => []
  | [p] => p
  | p :: ps => p ++ sep ++ join sep ps
  end.

(** Value of a digit in radix 10 or 16. *)
Definition digitValue (radix : Z) (c : N) : option Z :=
  let c := Z.of_N c in
  if (48 <=? c) && (c <=? 57) then Some (c - 48)
  else if (radix =? 16) && (97 <=? c) && (c <=? 102) then Some (c - 87)
  else if (radix =? 16) && (65 <=? c) && (c <=? 70) then Some (c - 55)
  else None.

(** Longest prefix of digits, accumulated; [None] when there is none. *)
Fixpoint digits (radix : Z) (s : jsstring) (acc : option Z) : option Z :=
  match s with
  | [] => acc
  | c :: s' =>
      match digitValue radix c with
      | Some d => digits radix s' (Some (radix * default 0 acc + d))
      | None => acc
      end
  end.

(** [parseInt(s)] without a radix; [None] is NaN.  The result is the
    mathematical integer; the loader only uses it below 2^53, where it is
    the Number itself. *)
Definition parseInt (s : jsstring) : option Z :=
  let s := trimStart s in
  let '(sign, s) :=
    match s with
    | 45%N :: s' => (-1, s')
    | 43%N :: s' => (1, s')
    | _ => (1, s)
    end in
  let '(radix, s) :=
    match s with
    | 48%N :: 120%N :: s' => (16, s')
    | 48%N :: 88%N :: s' => (16, s')
    | _ => (10, s)
    end in
  (fun n => sign * n) <$> digits radix s None.

(** [parseInt(a[i])] where the element may be [undefined], which is first
    converted to the string "undefined". *)
Definition parseInt_opt (s : option jsstring) : option Z :=
  parseInt (default (str "undefined") s).

End JsString.
Import JsString.

(* ===================================================================== *)
(** ** [new TextDecoder().decode(bytes)] *)
(* ===================================================================== *)

Module TextDecoder.

(** State of the UTF-8 decoder between two bytes of a sequence. *)
Record state := {
  code_point : Z;
  bytes_seen : Z;
  bytes_needed : Z;
  lower : Z;
  upper : Z
}.

Definition initial : state :=
  {| code_point := 0; bytes_seen := 0; bytes_needed := 0;
     lower := 128; upper := 191 |}.

Definition replacement : Z := 65533.

(** A lead byte (or an ASCII byte) met when no sequence is open: the code
    points emitted and the next state. *)
Definition start (b : Z) : list Z * state :=
  if b <=? 127 then ([b], initial)
  else if (194 <=? b) && (b <=? 223) then
    ([], {| code_point := Z.land b 31; bytes_seen := 0; bytes_needed := 1;
            lower := 128; upper := 191 |})
  else if (224 <=? b) && (b <=? 239) then
    ([], {| code_point := Z.land b 15; bytes_seen := 0; bytes_needed := 2;
            lower := if b =? 224 then 160 else 128;
            upper := if b =? 237 then 159 else 191 |})
  else if (240 <=? b) && (b <=? 244) then
    ([], {| code_point := Z.land b 7; bytes_seen := 0; bytes_needed := 3;
            lower := if b =? 240 then 144 else 128;
            upper := if b =? 244 then 143 else 191 |})
  else ([replacement], initial).

(** One byte.  A byte that cannot continue the open sequence closes it
    with U+FFFD and is then read again as the start of a new one. *)
Definition step (st : state) (b : Z) : list Z * state :=
  if bytes_needed st =? 0 then start b
  else if (b <? lower st) || (upper st <? b) then
    let '(out, st') := start b in (replacement :: out, st')
  else
    let cp := Z.lor (Z.shiftl (code_point st) 6) (Z.land b 63) in
    if bytes_seen st + 1 =? bytes_needed st then ([cp], initial)
    else ([], {| code_point := cp; bytes_seen := bytes_seen st + 1;
                 bytes_needed := bytes_needed st;
                 lower := 128; upper := 191 |}).

Fixpoint run (st : state) (bs : list byte) : list Z :=
  match bs with
  | [] => if bytes_needed st =? 0 then [] else [replacement]
  | b :: bs' =>
      let '(out, st') := step st (Z.of_N (Byte.to_N b)) in
      out ++ run st' bs'
  end.

(** UTF-16 code units of a code point. *)
Definition utf16 (cp : Z) : list N :=
  if cp <? 65536 then [Z.to_N cp]
  else [Z.to_N (55296 + Z.shiftr (cp - 65536) 10);
        Z.to_N (56320 + Z.land (cp - 65536) 1023)].

(** A leading byte-order mark is dropped. *)
Definition stripBOM (cps : list Z) : list Z :=
  match cps with
  | 65279 :: cps' => cps'
  | _ => cps
  end.

Definition decode (bs : list byte) : jsstring :=
  flat_map utf16 (stripBOM (run initial bs)).

(** The code units decoded from state [st] on, before the byte-order mark
    is dropped. *)
Definition units (st : state) (bs : list byte) : jsstring :=
  flat_map utf16 (run st bs).

(** A state inside a multi-byte sequence: bytes are still needed, and the
    code point under construction cannot end below U+0080. *)
Definition openSequence (st : state) : Prop :=
  let r := bytes_needed st - bytes_seen st in
  bytes_needed st <> 0
  /\ 1 <= r
  /\ 0 <= code_point st
  /\ 128 <= lower st
  /\ upper st <= 191
  /\ (r = 1 -> 2 <= code_point st)
  /\ (2 <= r -> 1 <= code_point st \/ 144 <= lower st).

Definition nonAscii (us : jsstring) : Prop := Forall (fun u => (128 <= u)%N) us.

End TextDecoder.

(* ===================================================================== *)
(** ** Numbers: IEEE 754 binary64, and binary32 for [Float32Array] *)
(* ===================================================================== *)

Module Number.

(** A Number is a binary64 value in canonical form. *)
Definition number := spec_float.

Definition prec : Z := 53.
Definition emax : Z := 1024.

Definition add : number -> number -> number := SFadd prec emax.
Definition sub : number -> number -> number := SFsub prec emax.
Definition mul : number -> number -> number := SFmul prec emax.
Definition div : number -> number -> number := SFdiv prec emax.
Definition Math_sqrt : number -> number := SFsqrt prec emax.
Definition neg : number -> number := SFopp.

(** [a < b], [a <= b] and [a == b]; all false when a NaN is involved. *)
Definition ltb : number -> number -> bool := SFltb.
Definition leb : number -> number -> bool := SFleb.
Definition eqb : number -> number -> bool := SFeqb.

Definition of_Z (z : Z) : number := binary_normalize prec emax z 0 false.

Definition zero : number := S754_zero false.
Definition neg_zero : number := S754_zero true.
Definition Infinity : number := S754_infinity false.
Definition neg_Infinity : number := S754_infinity true.
Definition NaN : number := S754_nan.
Definition one : number := of_Z 1.
Definition half : number := div one (of_Z 2).

Definition isNaN (x : number) : bool :=
  match x with S754_nan => true | _ => false end.

(** Rounding a Number to binary32 (what a store into a [Float32Array]
    does) and reading a binary32 value back as a Number. *)
Definition to_float32 (x : number) : spec_float :=
  match x with
  | S754_finite s m e => binary_round 24 128 s m e
  | _ => x
  end.

Definition of_float32 (x : spec_float) : number :=
  match x with
  | S754_finite s m e => binary_round prec emax s m e
  | _ => x
  end.

Definition Math_fround (x : number) : number := of_float32 (to_float32 x).

(** A binary32 value: canonical mantissa and exponent in range. *)
Definition is_float32 (f : spec_float) : Prop := valid_binary 24 128 f = true.

(** The binary32 value of a 32-bit pattern. *)
Definition float32_of_bits (w : Z) : spec_float :=
  let s := Z.testbit w 31 in
  let e := Z.land (Z.shiftr w 23) 255 in
  let f := Z.land w 8388607 in
  if e =? 255 then (if f =? 0 then S754_infinity s else S754_nan)
  else if e =? 0 then
    match f with
    | Zpos m => S754_finite s m (-149)
    | _ => S754_zero s
    end
  else
    match f + 8388608 with
    | Zpos m => S754_finite s m (e - 150)
    | _ => S754_nan
    end.

(** [Math.min(a, b)] and [Math.max(a, b)]: NaN if either is NaN, and
    -0 below +0. *)
Definition Math_min (a b : number) : number :=
  if isNaN a || isNaN b then NaN
  else if ltb b a then b
  else if ltb a b then a
  else match b with S754_zero true => b | _ => a end.

Definition Math_max (a b : number) : number :=
  if isNaN a || isNaN b then NaN
  else if ltb a b then b
  else if ltb b a then a
  else match b with S754_zero false => b | _ => a end.

End Number.
Import Number.

(* ===================================================================== *)
(** ** three.js: [Vector3] and [Box3] *)
(* ===================================================================== *)

Module THREE.

Record Vector3 := { x : number; y : number; z : number }.

Record Box3 := { min : Vector3; max : Vector3 }.

(** [new THREE.Box3()]: the empty box. *)
Definition emptyBox : Box3 :=
  {| min := {| x := Infinity; y := Infinity; z := Infinity |};
     max := {| x := neg_Infinity; y := neg_Infinity; z := neg_Infinity |} |}.

(** [a.min(b)] and [a.max(b)], componentwise. *)
Definition vmin (a b : Vector3) : Vector3 :=
  {| x := Math_min (x a) (x b); y := Math_min (y a) (y b);
     z := Math_min (z a) (z b) |}.

Definition vmax (a b : Vector3) : Vector3 :=
  {| x := Math_max (x a) (x b); y := Math_max (y a) (y b);
     z := Math_max (z a) (z b) |}.

Definition expandByPoint (b : Box3) (p : Vector3) : Box3 :=
  {| min := vmin (min b) p; max := vmax (max b) p |}.

(** [v.getComponent(k)]: x, y, z for 0, 1, 2. *)
Definition getComponent (k : nat) (v : Vector3) : number :=
  match k with
  | O => x v
  | S O => y v
  | _ => z v
  end.

(** [new THREE.Euler(x, y, z)]. *)
Record Euler := { ex : number; ey : number; ez : number }.

End THREE.

(* ===================================================================== *)
(** ** [ArrayBuffer], [Uint8Array], [DataView], [Float32Array] *)
(* ===================================================================== *)

Module Buffer.

Definition byteLength (buffer : list byte) : Z := Z.of_nat (length buffer).

(** [new Uint8Array(buffer, 0, len)]: a RangeError when the buffer is
    shorter than [len]. *)
Definition newUint8Array (buffer : list byte) (len : Z) : result (list byte) :=
  if byteLength buffer <? len then Throw RangeError
  else Ok (take (Z.to_nat len) buffer).

(** [new DataView(buffer, byteOffset)]: a RangeError when the offset is
    past the end. *)
Definition newDataView (buffer : list byte) (byteOffset : Z) : result (list byte) :=
  if (byteOffset <? 0) || (byteLength buffer <? byteOffset) then Throw RangeError
  else Ok (drop (Z.to_nat byteOffset) buffer).

Definition byteZ (b : byte) : Z := Z.of_N (Byte.to_N b).

Definition getUint8 (view : list byte) (off : Z) : result number :=
  if (off <? 0) || (byteLength view <? off + 1) then Throw RangeError
  else match view !! Z.to_nat off with
       | Some b => Ok (of_Z (byteZ b))
       | None => Throw RangeError
       end.

(** [view.getFloat32(off, true)]: four bytes, little endian. *)
Definition getFloat32 (view : list byte) (off : Z) : result number :=
  if (off <? 0) || (byteLength view <? off + 4) then Throw RangeError
  else match take 4 (drop (Z.to_nat off) view) with
       | [b0; b1; b2; b3] =>
           Ok (of_float32 (float32_of_bits
                 (byteZ b0 + 256 * byteZ b1 + 65536 * byteZ b2
                  + 16777216 * byteZ b3)))
       | _ => Throw RangeError
       end.

(** [new Float32Array(len)], [len] being NaN ([None]) or an integer. *)
Definition newFloat32Array (len : option Z) : result (list number) :=
  match len with
  | None => Ok []
  | Some n =>
      if (n <? 0) || (9007199254740991 <? n) then Throw RangeError
      else Ok (replicate (Z.to_nat n) zero)
  end.

(** [a[i] = v] on a [Float32Array]: the value is rounded to binary32; a
    store past the end is ignored. *)
Definition store (a : list number) (i : Z) (v : number) : list number :=
  if i <? 0 then a else <[Z.to_nat i := Math_fround v]> a.

(** [a[i]] on a [Float32Array]; [undefined] past the end becomes NaN in
    arithmetic. *)
Definition load (a : list number) (i : Z) : number :=
  if i <? 0 then NaN else default NaN (a !! Z.to_nat i).

End Buffer.
Import Buffer.

(* ===================================================================== *)
(** ** services/plyLoader: [loadPly] *)
(* ===================================================================== *)

(** The parsed dataset (types.ts).  [pointCount] is the Number returned by
    [parseInt]: [None] is NaN. *)
Record PlyData := {
  positions : list number;
  colors : list number;
  elevations : list number;
  scales : option (list number);
  rotations : option (list number);
  boundingBox : THREE.Box3;
  pointCount : option Z
}.

(** A [File] as the loader sees it: the [FileReader] either delivers the
    bytes or reports an error.  The progress callback only observes the
    read and is left out. *)
Inductive File :=
| Readable (buffer : list byte)
| Unreadable.

Module Header.

(** An entry of [properties]; [type] is [undefined] on a line with no
    second word. *)
Record Property := {
  name : jsstring;
  type : option jsstring;
  offset : Z
}.

(** The variables the header loop updates. *)
Record t := {
  pointCount : option Z;
  isBinary : bool;
  properties : list Property;
  currentOffset : Z
}.

Definition init : t :=
  {| pointCount := Some 0; isBinary := false; properties := [];
     currentOffset := 0 |}.

Definition typeIs (ty : option jsstring) (lit : string) : bool :=
  bool_decide (ty = Some (str lit)).

Definition typeSize (ty : option jsstring) : Z :=
  if typeIs ty "float" || typeIs ty "int32" then 4
  else if typeIs ty "uchar" then 1
  else if typeIs ty "double" then 8
  else 4.

(** One iteration of [for (const line of headerLines)]. *)
Definition line (h : t) (l : jsstring) : result t :=
  if startsWith l (str "element vertex") then
    Ok {| pointCount := parseInt_opt (split 32 l !! 2%nat);
          isBinary := isBinary h; properties := properties h;
          currentOffset := currentOffset h |}
  else if startsWith l (str "property") then
    let parts := split 32 l in
    let ty := parts !! 1%nat in
    match parts !! 2%nat with
    | None => Throw TypeError
    | Some nm =>
        Ok {| pointCount := pointCount h; isBinary := isBinary h;
              properties := properties h ++
                [{| name := trim nm; type := ty; offset := currentOffset h |}];
              currentOffset := currentOffset h + typeSize ty |}
    end
  else if startsWith l (str "format binary_little_endian") then
    Ok {| pointCount := pointCount h; isBinary := true;
          properties := properties h; currentOffset := currentOffset h |}
  else Ok h.

Fixpoint lines (h : t) (ls : list jsstring) : result t :=
  match ls with
  | [] => Ok h
  | l :: ls' => let* h' := line h l in lines h' ls'
  end.

(** [new Map(properties.map(p => [p.name, p]))]: a later declaration of
    a name replaces an earlier one. *)
Definition propMap (ps : list Property) : gmap (list N) Property :=
  foldl (fun m p => <[name p := p]> m) ∅ ps.

(** [names.every(p => propMap.has(p))]. *)
Definition every_has (m : gmap (list N) Property) (names : list string) : bool :=
  forallb (fun n => bool_decide (is_Some (m !! str n))) names.

(** The four feature tests on the header's properties. *)
Definition hasPosition (h : t) : bool :=
  every_has (propMap (properties h)) ["x"; "y"; "z"]%string.

Definition hasClassicColor (h : t) : bool :=
  every_has (propMap (properties h)) ["red"; "green"; "blue"]%string.

Definition hasSHColor (h : t) : bool :=
  every_has (propMap (properties h)) ["f_dc_0"; "f_dc_1"; "f_dc_2"]%string.

Definition hasSplat (h : t) : bool :=
  every_has (propMap (properties h)) ["scale_0"; "scale_1"; "scale_2"]%string
  && every_has (propMap (properties h)) ["rot_0"; "rot_1"; "rot_2"; "rot_3"]%string.

(** [propMap.get(n)!.offset]. *)
Definition offsetOf (m : gmap (list N) Property) (n : string) : result Z :=
  match m !! str n with
  | Some p => Ok (offset p)
  | None => Throw TypeError
  end.

(** The lines on which the loop sets [isBinary], respectively
    [pointCount]. *)
Definition isFormatLine (l : jsstring) : bool :=
  startsWith l (str "format binary_little_endian").

Definition isVertexLine (l : jsstring) : bool :=
  startsWith l (str "element vertex").

(** The bytes the declared types take, as the loop adds them up. *)
Definition sizes (ps : list Property) : Z :=
  foldr (fun p n => typeSize (type p) + n) 0 ps.

(** Each property sits right after the ones declared before it, the first
    one at [start]. *)
Fixpoint packed (start : Z) (ps : list Property) : Prop :=
  match ps with
  | [] => True
  | p :: ps' => offset p = start /\ packed (start + typeSize (type p)) ps'
  end.

(** A property named [n] is declared. *)
Definition declared (ps : list Property) (n : jsstring) : Prop :=
  exists p, p ∈ ps /\ name p = n.

End Header.

Module PlyLoader.

Definition headerWindow : Z := 1024 * 10.

Definition msgReadFailure := str "Failed to read local file.".
Definition msgUnsupportedEncoding :=
  str "Only binary_little_endian PLY format is supported.".
Definition msgNoVertices := str "No vertices found in PLY file.".
Definition msgMissingPosition := str "PLY file must contain x, y, z properties.".
Definition msgMissingColor (ps : list Header.Property) :=
  str "PLY file must contain color properties. Found: "
    ++ join (str ", ") (map Header.name ps).

(** The error kinds the specification names, and the kind of an error the
    loader throws, told by its message.  No message of the loader stands for
    [HeaderTooLargeOrMissing]; the engine's own errors have no kind. *)
Inductive ErrorKind :=
| HeaderTooLargeOrMissing
| UnsupportedEncoding
| NoVertices
| MissingPosition
| MissingColor
| ReadFailure.

Definition kindOf (e : JsError) : option ErrorKind :=
  match e with
  | Error m =>
      if bool_decide (m = msgReadFailure) then Some ReadFailure
      else if bool_decide (m = msgUnsupportedEncoding) then Some UnsupportedEncoding
      else if bool_decide (m = msgNoVertices) then Some NoVertices
      else if bool_decide (m = msgMissingPosition) then Some MissingPosition
      else if startsWith m (str "PLY file must contain color properties. Found: ")
        then Some MissingColor
      else None
  | TypeError | RangeError => None
  end.

Definition marker : jsstring := str "end_header".

(** The first 10 KiB of the file hold no [end_header]. *)
Definition noMarker (buffer : list byte) : Prop :=
  occurs (map Byte.to_N (take (Z.to_nat headerWindow) buffer)) marker = false.

(** The header text and [headerEnd]. *)
Definition headerText (buffer : list byte) : result jsstring :=
  let* bytes := newUint8Array buffer headerWindow in
  Ok (TextDecoder.decode bytes).

Definition headerEndOf (text : jsstring) : Z :=
  indexOf text (str "end_header") + 10 + 1.

Definition headerLines (text : jsstring) : list jsstring :=
  split 10 (substring0 text (headerEndOf text)).

(** The arrays and running values the decoding loop updates. *)
Record Decoded := {
  d_positions : list number;
  d_colors : list number;
  d_elevations : list number;
  d_scales : option (list number);
  d_rotations : option (list number);
  d_boundingBox : THREE.Box3;
  minY : number;
  maxY : number
}.

Section WithExp.

(** [Math.exp], which the language leaves to the engine. *)
Variable Math_exp : number -> number.

Definition sigmoid (v : number) : number :=
  div one (add one (Math_exp (neg v))).

Section Record_.

Variable dataView : list byte.
Variable propMap : gmap (list N) Header.Property.
Variable stride : Z.
Variable useSHColor hasSplat : bool.

Definition readFloat (byteOffset : Z) (n : string) : result number :=
  let* o := Header.offsetOf propMap n in
  getFloat32 dataView (byteOffset + o).

Definition readByte (byteOffset : Z) (n : string) : result number :=
  let* o := Header.offsetOf propMap n in
  getUint8 dataView (byteOffset + o).

(** The [if (useSHColor) ... else ...] block. *)
Definition decodeColor (byteOffset posIdx : Z) (cs : list number)
  : result (list number) :=
  if useSHColor then
    let* r_sh := readFloat byteOffset "f_dc_0" in
    let* g_sh := readFloat byteOffset "f_dc_1" in
    let* b_sh := readFloat byteOffset "f_dc_2" in
    let cs := store cs posIdx (sigmoid r_sh) in
    let cs := store cs (posIdx + 1) (sigmoid g_sh) in
    Ok (store cs (posIdx + 2) (sigmoid b_sh))
  else
    let* r := readByte byteOffset "red" in
    let cs := store cs posIdx (div r (of_Z 255)) in
    let* g := readByte byteOffset "green" in
    let cs := store cs (posIdx + 1) (div g (of_Z 255)) in
    let* b := readByte byteOffset "blue" in
    Ok (store cs (posIdx + 2) (div b (of_Z 255))).

(** The [if (hasSplat) ...] block. *)
Definition decodeSplat (byteOffset i : Z)
    (ss rs : option (list number))
  : result (option (list number) * option (list number)) :=
  if hasSplat then
    let scaleIdx := i * 3 in
    let* s0 := readFloat byteOffset "scale_0" in
    let ss := (fun a => store a scaleIdx (Math_exp s0)) <$> ss in
    let* s1 := readFloat byteOffset "scale_1" in
    let ss := (fun a => store a (scaleIdx + 1) (Math_exp s1)) <$> ss in
    let* s2 := readFloat byteOffset "scale_2" in
    let ss := (fun a => store a (scaleIdx + 2) (Math_exp s2)) <$> ss in
    let rotIdx := i * 4 in
    let* qx := readFloat byteOffset "rot_0" in
    let* qy := readFloat byteOffset "rot_1" in
    let* qz := readFloat byteOffset "rot_2" in
    let* qw := readFloat byteOffset "rot_3" in
    let L := Math_sqrt (add (add (add (mul qx qx) (mul qy qy))
                                 (mul qz qz)) (mul qw qw)) in
    let rs := (fun a => store a rotIdx (div qw L)) <$> rs in
    let rs := (fun a => store a (rotIdx + 1) (div qx L)) <$> rs in
    let rs := (fun a => store a (rotIdx + 2) (div qy L)) <$> rs in
    let rs := (fun a => store a (rotIdx + 3) (div qz L)) <$> rs in
    Ok (ss, rs)
  else Ok (ss, rs).

(** The body of [for (let i = 0; i < pointCount; i++)]. *)
Definition decodePoint (i : Z) (d : Decoded) : result Decoded :=
  let byteOffset := i * stride in
  let* x := readFloat byteOffset "x" in
  let* y := readFloat byteOffset "y" in
  let* z := readFloat byteOffset "z" in
  let posIdx := i * 3 in
  let ps := store (d_positions d) posIdx x in
  let ps := store ps (posIdx + 1) y in
  let ps := store ps (posIdx + 2) z in
  let* cs := decodeColor byteOffset posIdx (d_colors d) in
  let* '(ss, rs) := decodeSplat byteOffset i (d_scales d) (d_rotations d) in
  Ok {| d_positions := ps;
        d_colors := cs;
        d_elevations := store (d_elevations d) i y;
        d_scales := ss;
        d_rotations := rs;
        d_boundingBox :=
          THREE.expandByPoint (d_boundingBox d)
            {| THREE.x := x; THREE.y := y; THREE.z := z |};
        minY := if ltb y (minY d) then y else minY d;
        maxY := if ltb (maxY d) y then y else maxY d |}.

(** [n] iterations from index [i]. *)
Fixpoint decodeLoop (n : nat) (i : Z) (d : Decoded) : result Decoded :=
  match n with
  | O => Ok d
  | S n' => let* d' := decodePoint i d in decodeLoop n' (i + 1) d'
  end.

(** *** The loop read as a function of the records

    [readPoint] performs the reads of one iteration, in the order of
    [decodePoint], and returns the values the iteration stores;
    [storePoint] performs its stores.  [decodeLoop_read_store] below shows
    that a loop iteration is the one followed by the other. *)

Record Point := {
  p_x : number;
  p_y : number;
  p_z : number;
  p_color : list number;
  p_scale : list number;
  p_rotation : list number
}.

Definition readColor (byteOffset : Z) : result (list number) :=
  if useSHColor then
    let* r_sh := readFloat byteOffset "f_dc_0" in
    let* g_sh := readFloat byteOffset "f_dc_1" in
    let* b_sh := readFloat byteOffset "f_dc_2" in
    Ok [sigmoid r_sh; sigmoid g_sh; sigmoid b_sh]
  else
    let* r := readByte byteOffset "red" in
    let* g := readByte byteOffset "green" in
    let* b := readByte byteOffset "blue" in
    Ok [div r (of_Z 255); div g (of_Z 255); div b (of_Z 255)].

(** The quaternion as stored: [qw / L] first. *)
Definition normalizedRotation (qx qy qz qw : number) : list number :=
  let L := Math_sqrt (add (add (add (mul qx qx) (mul qy qy))
                               (mul qz qz)) (mul qw qw)) in
  [div qw L; div qx L; div qy L; div qz L].

Definition readSplat (byteOffset : Z) : result (list number * list number) :=
  if hasSplat then
    let* s0 := readFloat byteOffset "scale_0" in
    let* s1 := readFloat byteOffset "scale_1" in
    let* s2 := readFloat byteOffset "scale_2" in
    let* qx := readFloat byteOffset "rot_0" in
    let* qy := readFloat byteOffset "rot_1" in
    let* qz := readFloat byteOffset "rot_2" in
    let* qw := readFloat byteOffset "rot_3" in
    Ok ([Math_exp s0; Math_exp s1; Math_exp s2],
        normalizedRotation qx qy qz qw)
  else Ok ([], []).

Definition readPoint (i : Z) : result Point :=
  let byteOffset := i * stride in
  let* x := readFloat byteOffset "x" in
  let* y := readFloat byteOffset "y" in
  let* z := readFloat byteOffset "z" in
  let* c := readColor byteOffset in
  let* '(s, r) := readSplat byteOffset in
  Ok {| p_x := x; p_y := y; p_z := z; p_color := c; p_scale := s;
        p_rotation := r |}.

Fixpoint readPoints (n : nat) (i : Z) : result (list Point) :=
  match n with
  | O => Ok []
  | S n' =>
      let* p := readPoint i in
      let* ps := readPoints n' (i + 1) in
      Ok (p :: ps)
  end.

End Record_.

(** [a[start + k] = v] for the values [vs] in turn, [k] counting up. *)
Fixpoint storeBlock (a : list number) (start k : Z) (vs : list number)
  : list number :=
  match vs with
  | [] => a
  | v :: vs' => storeBlock (store a (start + k) v) start (k + 1) vs'
  end.

Definition storePoint (i : Z) (p : Point) (d : Decoded) : Decoded :=
  {| d_positions := storeBlock (d_positions d) (i * 3) 0 [p_x p; p_y p; p_z p];
     d_colors := storeBlock (d_colors d) (i * 3) 0 (p_color p);
     d_elevations := store (d_elevations d) i (p_y p);
     d_scales := (fun a => storeBlock a (i * 3) 0 (p_scale p)) <$> d_scales d;
     d_rotations := (fun a => storeBlock a (i * 4) 0 (p_rotation p)) <$> d_rotations d;
     d_boundingBox :=
       THREE.expandByPoint (d_boundingBox d)
         {| THREE.x := p_x p; THREE.y := p_y p; THREE.z := p_z p |};
     minY := if ltb (p_y p) (minY d) then p_y p else minY d;
     maxY := if ltb (maxY d) (p_y p) then p_y p else maxY d |}.

Fixpoint storePoints (i : Z) (ps : list Point) (d : Decoded) : Decoded :=
  match ps with
  | [] => d
  | p :: ps' => storePoints (i + 1) ps' (storePoint i p d)
  end.

(** The values a list of points writes to one array: [vals] of each point,
    each rounded to binary32. *)
Definition written (vals : Point -> list number) (ps : list Point)
  : list number :=
  flat_map (fun p => map Math_fround (vals p)) ps.

Definition p_position (p : Point) : list number := [p_x p; p_y p; p_z p].

Definition p_vector (p : Point) : THREE.Vector3 :=
  {| THREE.x := p_x p; THREE.y := p_y p; THREE.z := p_z p |}.

(** Coordinate [k] of each of the [n] points of a [positions] array. *)
Definition axis (k : nat) (positions : list number) (n : nat) : list number :=
  map (fun i => default NaN (positions !! (3 * i + k)%nat)) (seq 0 n).

(** [lo] and [hi] are the least and the greatest of [cs]. *)
Definition isExtent (lo hi : number) (cs : list number) : Prop :=
  lo ∈ cs /\ hi ∈ cs
  /\ forall c, c ∈ cs -> leb lo c = true /\ leb c hi = true.

(** The box after expanding the empty box by each point in turn. *)
Definition boxOf (ps : list Point) : THREE.Box3 :=
  fold_left (fun b p => THREE.expandByPoint b (p_vector p)) ps THREE.emptyBox.

(** [minY] and [maxY] after the loop has seen [ys], from [m]. *)
Definition runningMin (ys : list number) (m : number) : number :=
  fold_left (fun m y => if ltb y m then y else m) ys m.

Definition runningMax (ys : list number) (m : number) : number :=
  fold_left (fun m y => if ltb m y then y else m) ys m.

Definition epsilon : number := div one (of_Z 1000000).

(** The second pass as a function of the raw elevations [ys]. *)
Definition normalizedElevations (ys : list number) : list number :=
  let lo := runningMin ys Infinity in
  let hi := runningMax ys neg_Infinity in
  let yRange := sub hi lo in
  if ltb epsilon yRange then
    map (fun y => Math_fround (div (sub y lo) yRange)) ys
  else map (fun _ => half) ys.

(** The second pass over [elevations], [n] iterations from index [i]. *)
Fixpoint normalizeLoop (minY yRange : number) (n : nat) (i : Z)
    (es : list number) : list number :=
  match n with
  | O => es
  | S n' =>
      normalizeLoop minY yRange n' (i + 1)
        (store es i (div (sub (load es i) minY) yRange))
  end.

(** [elevations.fill(0.5)]. *)
Definition fill (es : list number) (v : number) : list number :=
  map (fun _ => Math_fround v) es.

(** The number of iterations of [for (i = 0; i < pointCount; i++)]. *)
Definition iterations (pointCount : option Z) : nat :=
  match pointCount with
  | Some n => Z.to_nat n
  | None => O
  end.

Definition normalizeElevations (pointCount : option Z) (d : Decoded)
  : list number :=
  let yRange := sub (maxY d) (minY d) in
  if ltb epsilon yRange then
    normalizeLoop (minY d) yRange (iterations pointCount) 0 (d_elevations d)
  else fill (d_elevations d) half.

Definition times (k : Z) (pointCount : option Z) : option Z :=
  (fun n => n * k) <$> pointCount.

(** Everything after the header checks. *)
Definition decodeBody (buffer : list byte) (headerEnd : Z) (h : Header.t)
    (useSHColor hasSplat : bool) : result PlyData :=
  let pointCount := Header.pointCount h in
  let stride := Header.currentOffset h in
  let propMap := Header.propMap (Header.properties h) in
  let* positions := newFloat32Array (times 3 pointCount) in
  let* colors := newFloat32Array (times 3 pointCount) in
  let* elevations := newFloat32Array pointCount in
  let* scales :=
    if hasSplat then
      let* a := newFloat32Array (times 3 pointCount) in Ok (Some a)
    else Ok None in
  let* rotations :=
    if hasSplat then
      let* a := newFloat32Array (times 4 pointCount) in Ok (Some a)
    else Ok None in
  let boundingBox := THREE.emptyBox in
  let* dataView := newDataView buffer headerEnd in
  let* d := decodeLoop dataView propMap stride useSHColor hasSplat
              (iterations pointCount) 0
              {| d_positions := positions; d_colors := colors;
                 d_elevations := elevations; d_scales := scales;
                 d_rotations := rotations; d_boundingBox := boundingBox;
                 minY := Infinity; maxY := neg_Infinity |} in
  Ok {| positions := d_positions d;
        colors := d_colors d;
        elevations := normalizeElevations pointCount d;
        scales := d_scales d;
        rotations := d_rotations d;
        boundingBox := d_boundingBox d;
        pointCount := pointCount |}.

(** The header as the loop over its lines leaves it. *)
Definition headerOf (buffer : list byte) : result Header.t :=
  let* text := headerText buffer in
  Header.lines Header.init (headerLines text).

(** The parser on the bytes of the file. *)
Definition parsePly (buffer : list byte) : result PlyData :=
  let* text := headerText buffer in
  let headerEnd := headerEndOf text in
  let* h := Header.lines Header.init (headerLines text) in
  if negb (Header.isBinary h) then Throw (Error msgUnsupportedEncoding)
  else if bool_decide (Header.pointCount h = Some 0) then
    Throw (Error msgNoVertices)
  else
    let hasPosition := Header.hasPosition h in
    let hasClassicColor := Header.hasClassicColor h in
    let hasSHColor := Header.hasSHColor h in
    let hasSplat := Header.hasSplat h in
    if negb hasPosition then Throw (Error msgMissingPosition)
    else if negb hasClassicColor && negb hasSHColor then
      Throw (Error (msgMissingColor (Header.properties h)))
    else
      let useSHColor := hasSHColor in
      decodeBody buffer headerEnd h useSHColor hasSplat.

Definition loadPly (source : File) : result PlyData :=
  match source with
  | Unreadable => Throw (Error msgReadFailure)
  | Readable buffer => parsePly buffer
  end.

End WithExp.

(** The binary32 value of property [name] in record [i] of the file, as the
    loop reads it. *)
Definition rawFloat (buffer : list byte) (i : Z) (name : string) : result number :=
  let* text := headerText buffer in
  let* h := Header.lines Header.init (headerLines text) in
  readFloat (drop (Z.to_nat (headerEndOf text)) buffer)
    (Header.propMap (Header.properties h)) (i * Header.currentOffset h) name.

(** The byte of property [name] in record [i] of the file, as the loop
    reads it with [getUint8]. *)
Definition rawByte (buffer : list byte) (i : Z) (name : string) : result number :=
  let* text := headerText buffer in
  let* h := Header.lines Header.init (headerLines text) in
  readByte (drop (Z.to_nat (headerEndOf text)) buffer)
    (Header.propMap (Header.properties h)) (i * Header.currentOffset h) name.

End PlyLoader.

(* ===================================================================== *)
(** ** components/Viewer.tsx: the GLSL shaders *)
(* ===================================================================== *)

Module GLSL.

(** A [highp float] is taken to be an IEEE binary32 value, with correctly
    rounded operations. *)
Definition float := spec_float.

Definition fprec : Z := 24.
Definition femax : Z := 128.

Definition fadd : float -> float -> float := SFadd fprec femax.
Definition fsub : float -> float -> float := SFsub fprec femax.
Definition fmul : float -> float -> float := SFmul fprec femax.
Definition fdiv : float -> float -> float := SFdiv fprec femax.
Definition fneg : float -> float := SFopp.
Definition sqrt : float -> float := SFsqrt fprec femax.
Definition flt : float -> float -> bool := SFltb.
Definition fle : float -> float -> bool := SFleb.
Definition fgt (a b : float) : bool := SFltb b a.

Definition lit (z : Z) : float := binary_normalize fprec femax z 0 false.

(** The literal [n / 10^6], for the constants written with six decimals. *)
Definition micro (n : Z) : float := fdiv (lit n) (lit 1000000).

(** [max(x, y)]: [y] if [x < y], otherwise [x]. *)
Definition max (a b : float) : float := if flt a b then b else a.

Record vec2 := { x2 : float; y2 : float }.
Record vec3 := { x : float; y : float; z : float }.
Record vec4 := { x4 : float; y4 : float; z4 : float; w4 : float }.

(** Matrices are stored by columns, as the constructors fill them:
    [m[i]] is the column [ci]. *)
Record mat2 := { m2c0 : vec2; m2c1 : vec2 }.
Record mat3 := { c0 : vec3; c1 : vec3; c2 : vec3 }.
Record mat4 := { k0 : vec4; k1 : vec4; k2 : vec4; k3 : vec4 }.

Definition mkmat3 (a b c d e f g h i : float) : mat3 :=
  {| c0 := {| x := a; y := b; z := c |};
     c1 := {| x := d; y := e; z := f |};
     c2 := {| x := g; y := h; z := i |} |}.

Definition transpose (m : mat3) : mat3 :=
  mkmat3 (x (c0 m)) (x (c1 m)) (x (c2 m))
         (y (c0 m)) (y (c1 m)) (y (c2 m))
         (z (c0 m)) (z (c1 m)) (z (c2 m)).

(** [m * v]. *)
Definition mulv3 (m : mat3) (v : vec3) : vec3 :=
  {| x := fadd (fadd (fmul (x (c0 m)) (x v)) (fmul (x (c1 m)) (y v)))
               (fmul (x (c2 m)) (z v));
     y := fadd (fadd (fmul (y (c0 m)) (x v)) (fmul (y (c1 m)) (y v)))
               (fmul (y (c2 m)) (z v));
     z := fadd (fadd (fmul (z (c0 m)) (x v)) (fmul (z (c1 m)) (y v)))
               (fmul (z (c2 m)) (z v)) |}.

(** [a * b]. *)
Definition mulm3 (a b : mat3) : mat3 :=
  {| c0 := mulv3 a (c0 b); c1 := mulv3 a (c1 b); c2 := mulv3 a (c2 b) |}.

Definition mulv4 (m : mat4) (v : vec4) : vec4 :=
  let row (f : vec4 -> float) :=
    fadd (fadd (fadd (fmul (f (k0 m)) (x4 v)) (fmul (f (k1 m)) (y4 v)))
               (fmul (f (k2 m)) (z4 v)))
         (fmul (f (k3 m)) (w4 v)) in
  {| x4 := row x4; y4 := row y4; z4 := row z4; w4 := row w4 |}.

(** [mat3(m)] of a [mat4]: its upper-left block. *)
Definition mat3_of (m : mat4) : mat3 :=
  let cut (v : vec4) := {| x := x4 v; y := y4 v; z := z4 v |} in
  {| c0 := cut (k0 m); c1 := cut (k1 m); c2 := cut (k2 m) |}.

Definition dot2 (a b : vec2) : float :=
  fadd (fmul (x2 a) (x2 b)) (fmul (y2 a) (y2 b)).

Definition dot4 (a b : vec4) : float :=
  fadd (fadd (fadd (fmul (x4 a) (x4 b)) (fmul (y4 a) (y4 b)))
             (fmul (z4 a) (z4 b)))
       (fmul (w4 a) (w4 b)).

(** [normalize(v)] is [v / length(v)]. *)
Definition normalize (v : vec4) : vec4 :=
  let l := sqrt (dot4 v v) in
  {| x4 := fdiv (x4 v) l; y4 := fdiv (y4 v) l; z4 := fdiv (z4 v) l;
     w4 := fdiv (w4 v) l |}.

Definition mulv2 (m : mat2) (v : vec2) : vec2 :=
  {| x2 := fadd (fmul (x2 (m2c0 m)) (x2 v)) (fmul (x2 (m2c1 m)) (y2 v));
     y2 := fadd (fmul (y2 (m2c0 m)) (x2 v)) (fmul (y2 (m2c1 m)) (y2 v)) |}.

Definition divm2 (m : mat2) (d : float) : mat2 :=
  {| m2c0 := {| x2 := fdiv (x2 (m2c0 m)) d; y2 := fdiv (y2 (m2c0 m)) d |};
     m2c1 := {| x2 := fdiv (x2 (m2c1 m)) d; y2 := fdiv (y2 (m2c1 m)) d |} |}.

End GLSL.

Module Shader.
Import GLSL.

Record Attributes := {
  position : vec3;
  color : vec3;
  elevation : float;
  a_scale : vec3;
  a_rotation : vec4
}.

Record Uniforms := {
  u_point_size : float;
  u_scale : float;
  u_splat_scale : float;
  u_crop_min : vec3;
  u_crop_max : vec3;
  u_crop_enabled : bool;
  u_render_mode : Z;
  u_focal : vec2;
  u_opacity : float;
  modelViewMatrix : mat4;
  projectionMatrix : mat4
}.

(** What the vertex shader hands to the rasterizer.  A varying the shader
    does not write keeps whatever value it had. *)
Record Varyings := {
  v_color : vec3;
  v_discard : float;
  v_cov_a : vec3;
  v_cov_b : vec3;
  v_radius : float;
  gl_PointSize : float;
  gl_Position : vec4
}.

Definition viridis (t : float) : vec3 :=
  let c := {| x := t; y := t; z := t |} in
  {| x := fadd (fadd (fadd (fmul (fmul (fmul (fneg (micro 3916112)) (x c)) (x c)) (x c))
                           (fmul (fmul (micro 5646949) (x c)) (x c)))
                     (fmul (fneg (micro 1385481)) (x c)))
               (micro 222733);
     y := fadd (fadd (fadd (fmul (fmul (fmul (fneg (micro 2253683)) (y c)) (y c)) (y c))
                           (fmul (fmul (micro 3093823) (y c)) (y c)))
                     (fmul (micro 117286) (y c)))
               (micro 24924);
     z := fadd (fadd (fadd (fmul (fmul (fmul (micro 2875323) (z c)) (z c)) (z c))
                           (fmul (fmul (fneg (micro 3489865)) (z c)) (z c)))
                     (fmul (micro 1297495) (z c)))
               (micro 203291) |}.

(** The [// Cropping] block: the value of [v_discard] after it. *)
Definition cropDiscard (u : Uniforms) (position : vec3) : float :=
  let v_discard := lit 0 in
  if u_crop_enabled u then
    if flt (x position) (x (u_crop_min u)) || fgt (x position) (x (u_crop_max u))
       || flt (y position) (y (u_crop_min u)) || fgt (y position) (y (u_crop_max u))
       || flt (z position) (z (u_crop_min u)) || fgt (z position) (z (u_crop_max u))
    then lit 1
    else v_discard
  else v_discard.

(** The comparison of the crop block: outside on at least one axis. *)
Definition outsideCrop (u : Uniforms) (p : vec3) : Prop :=
  flt (x p) (x (u_crop_min u)) = true \/ fgt (x p) (x (u_crop_max u)) = true
  \/ flt (y p) (y (u_crop_min u)) = true \/ fgt (y p) (y (u_crop_max u)) = true
  \/ flt (z p) (z (u_crop_min u)) = true \/ fgt (z p) (z (u_crop_max u)) = true.

(** The projected covariance [cov] of the splat branch. *)
Definition projectedCovariance (u : Uniforms) (a : Attributes) (cam_pos : vec4)
  : mat3 :=
  let r := a_rotation a in
  let q := normalize {| x4 := y4 r; y4 := z4 r; z4 := w4 r; w4 := x4 r |} in
  let two := lit 2 in
  let one := lit 1 in
  let R := mkmat3
    (fsub one (fmul two (fadd (fmul (y4 q) (y4 q)) (fmul (z4 q) (z4 q)))))
    (fmul two (fsub (fmul (x4 q) (y4 q)) (fmul (z4 q) (w4 q))))
    (fmul two (fadd (fmul (x4 q) (z4 q)) (fmul (y4 q) (w4 q))))
    (fmul two (fadd (fmul (x4 q) (y4 q)) (fmul (z4 q) (w4 q))))
    (fsub one (fmul two (fadd (fmul (x4 q) (x4 q)) (fmul (z4 q) (z4 q)))))
    (fmul two (fsub (fmul (y4 q) (z4 q)) (fmul (x4 q) (w4 q))))
    (fmul two (fsub (fmul (x4 q) (z4 q)) (fmul (y4 q) (w4 q))))
    (fmul two (fadd (fmul (y4 q) (z4 q)) (fmul (x4 q) (w4 q))))
    (fsub one (fmul two (fadd (fmul (x4 q) (x4 q)) (fmul (y4 q) (y4 q))))) in
  let S := mkmat3 (x (a_scale a)) (lit 0) (lit 0)
                  (lit 0) (y (a_scale a)) (lit 0)
                  (lit 0) (lit 0) (z (a_scale a)) in
  let V := mulm3 (mulm3 (mulm3 R S) (transpose S)) (transpose R) in
  let J := mkmat3 (fdiv (x2 (u_focal u)) (z4 cam_pos)) (lit 0) (lit 0)
                  (lit 0) (fdiv (y2 (u_focal u)) (z4 cam_pos)) (lit 0)
                  (lit 0) (lit 0) (lit 0) in
  let W := transpose (mat3_of (modelViewMatrix u)) in
  transpose (mulm3 (mulm3 (mulm3 (mulm3 J W) V) (transpose W)) (transpose J)).

(** [cov[0][0] * cov[1][1] - cov[0][1] * cov[0][1]]. *)
Definition determinant (cov : mat3) : float :=
  fsub (fmul (x (c0 cov)) (y (c1 cov))) (fmul (y (c0 cov)) (y (c0 cov))).

(** [modelViewMatrix * vec4(position, 1.0)]. *)
Definition camPos (u : Uniforms) (a : Attributes) : vec4 :=
  let p := position a in
  mulv4 (modelViewMatrix u) {| x4 := x p; y4 := y p; z4 := z p; w4 := lit 1 |}.

(** [main] of the vertex shader; [old] holds the varyings before it runs.
    The locals [P] and [T], which nothing reads, are left out. *)
Definition vertexMain (u : Uniforms) (a : Attributes) (old : Varyings) : Varyings :=
  let v_discard := cropDiscard u (position a) in
  let v_color :=
    if (u_render_mode u =? 0) || (u_render_mode u =? 2) then color a
    else viridis (elevation a) in
  let cam_pos := camPos u a in
  let pos_hom := mulv4 (projectionMatrix u) cam_pos in
  if u_render_mode u =? 2 then
    let cov := projectedCovariance u a cam_pos in
    let d := determinant cov in
    let v_discard := if fle d (lit 0) then lit 1 else v_discard in
    let mid := fmul (micro 500000) (fadd (x (c0 cov)) (y (c1 cov))) in
    let lambda1 := fadd mid (sqrt (max (micro 10000) (fsub (fmul mid mid) d))) in
    let lambda2 := fsub mid (sqrt (max (micro 10000) (fsub (fmul mid mid) d))) in
    let radius := fmul (lit 3) (sqrt (max lambda1 lambda2)) in
    let v_radius := fmul radius (u_splat_scale u) in
    {| v_color := v_color;
       v_discard := v_discard;
       v_cov_a := {| x := x (c0 cov); y := y (c0 cov); z := y (c1 cov) |};
       v_cov_b := {| x := z4 cam_pos; y := d; z := lit 0 |};
       v_radius := v_radius;
       gl_PointSize := v_radius;
       gl_Position := pos_hom |}
  else
    {| v_color := v_color;
       v_discard := v_discard;
       v_cov_a := v_cov_a old;
       v_cov_b := v_cov_b old;
       v_radius := v_radius old;
       gl_PointSize :=
         fmul (u_point_size u) (fdiv (lit 200) (fneg (z4 cam_pos)));
       gl_Position := pos_hom |}.

(** What a fragment shader invocation ends with. *)
Inductive Fragment :=
| Discarded
| FragColor (rgba : vec4).

Section WithExp.

(** GLSL's [exp], left to the implementation. *)
Variable exp : float -> float.

(** [main] of the fragment shader. *)
Definition fragmentMain (u : Uniforms) (v : Varyings) (gl_PointCoord : vec2)
  : Fragment :=
  if fgt (v_discard v) (micro 500000) then Discarded
  else
    let cxy := {| x2 := fsub (fmul (lit 2) (x2 gl_PointCoord)) (lit 1);
                  y2 := fsub (fmul (lit 2) (y2 gl_PointCoord)) (lit 1) |} in
    if u_render_mode u =? 2 then
      let k := fdiv (v_radius v) (lit 2) in
      let scaled_cxy := {| x2 := fmul (x2 cxy) k; y2 := fmul (y2 cxy) k |} in
      let det := y (v_cov_b v) in
      if fle det (lit 0) then Discarded
      else
        let inv_cov :=
          divm2 {| m2c0 := {| x2 := z (v_cov_a v); y2 := fneg (y (v_cov_a v)) |};
                   m2c1 := {| x2 := fneg (y (v_cov_a v)); y2 := x (v_cov_a v) |} |}
                det in
        let D := dot2 scaled_cxy (mulv2 inv_cov scaled_cxy) in
        if fgt D (lit 4) then Discarded
        else
          let alpha := fmul (u_opacity u) (exp (fmul (fneg (micro 500000)) D)) in
          FragColor {| x4 := x (v_color v); y4 := y (v_color v);
                       z4 := z (v_color v); w4 := alpha |}
    else
      let r_squared := dot2 cxy cxy in
      if fgt r_squared (lit 1) then Discarded
      else
        let alpha := fmul (u_opacity u) (exp (fmul (fneg (lit 4)) r_squared)) in
        FragColor {| x4 := x (v_color v); y4 := y (v_color v);
                     z4 := z (v_color v); w4 := alpha |}.

(** A point's fragment: the vertex shader, then the fragment shader at
    one coordinate of the point sprite. *)
Definition shadePoint (u : Uniforms) (a : Attributes) (old : Varyings)
    (gl_PointCoord : vec2) : Fragment :=
  fragmentMain u (vertexMain u a old) gl_PointCoord.

End WithExp.

End Shader.

(* ===================================================================== *)
(** ** types.ts and App.tsx: the application state and [handleLoad] *)
(* ===================================================================== *)

Module Types.

Inductive RenderMode := ORIGINAL | COLORMAP | SPLAT.

(** The numeric value of the enum, as passed to [u_render_mode]. *)
Definition modeValue (m : RenderMode) : Z :=
  match m with ORIGINAL => 0 | COLORMAP => 1 | SPLAT => 2 end.

Record Transformations := {
  position : THREE.Vector3;
  rotation : THREE.Euler;
  scale : number
}.

Record CropSettings := {
  min : THREE.Vector3;
  max : THREE.Vector3;
  enabled : bool
}.

Record AppearanceSettings := {
  pointSize : number;
  opacity : number;
  backgroundColor : jsstring;
  splatScale : number
}.

Record HelperSettings := { showAxes : bool; showGrid : bool }.

Record PerformanceStats := { fps : number; pointCount : option Z }.

End Types.

Module App.

(** The [useState] cells of the component. *)
Record State := {
  plyData : option PlyData;
  isLoading : bool;
  loadingProgress : number;
  error : option jsstring;
  splatDataAvailable : bool;
  transformations : Types.Transformations;
  crop : Types.CropSettings;
  appearance : Types.AppearanceSettings;
  helpers : Types.HelperSettings;
  renderMode : Types.RenderMode;
  stats : Types.PerformanceStats
}.

Definition setPlyData (v : option PlyData) (s : State) : State :=
  {| plyData := v; isLoading := isLoading s;
     loadingProgress := loadingProgress s; error := error s;
     splatDataAvailable := splatDataAvailable s;
     transformations := transformations s; crop := crop s;
     appearance := appearance s; helpers := helpers s;
     renderMode := renderMode s; stats := stats s |}.

Definition setIsLoading (v : bool) (s : State) : State :=
  {| plyData := plyData s; isLoading := v;
     loadingProgress := loadingProgress s; error := error s;
     splatDataAvailable := splatDataAvailable s;
     transformations := transformations s; crop := crop s;
     appearance := appearance s; helpers := helpers s;
     renderMode := renderMode s; stats := stats s |}.

Definition setLoadingProgress (v : number) (s : State) : State :=
  {| plyData := plyData s; isLoading := isLoading s;
     loadingProgress := v; error := error s;
     splatDataAvailable := splatDataAvailable s;
     transformations := transformations s; crop := crop s;
     appearance := appearance s; helpers := helpers s;
     renderMode := renderMode s; stats := stats s |}.

Definition setError (v : option jsstring) (s : State) : State :=
  {| plyData := plyData s; isLoading := isLoading s;
     loadingProgress := loadingProgress s; error := v;
     splatDataAvailable := splatDataAvailable s;
     transformations := transformations s; crop := crop s;
     appearance := appearance s; helpers := helpers s;
     renderMode := renderMode s; stats := stats s |}.

Definition setSplatDataAvailable (v : bool) (s : State) : State :=
  {| plyData := plyData s; isLoading := isLoading s;
     loadingProgress := loadingProgress s; error := error s;
     splatDataAvailable := v;
     transformations := transformations s; crop := crop s;
     appearance := appearance s; helpers := helpers s;
     renderMode := renderMode s; stats := stats s |}.

Definition setTransformations (v : Types.Transformations) (s : State) : State :=
  {| plyData := plyData s; isLoading := isLoading s;
     loadingProgress := loadingProgress s; error := error s;
     splatDataAvailable := splatDataAvailable s;
     transformations := v; crop := crop s;
     appearance := appearance s; helpers := helpers s;
     renderMode := renderMode s; stats := stats s |}.

Definition setCrop (v : Types.CropSettings) (s : State) : State :=
  {| plyData := plyData s; isLoading := isLoading s;
     loadingProgress := loadingProgress s; error := error s;
     splatDataAvailable := splatDataAvailable s;
     transformations := transformations s; crop := v;
     appearance := appearance s; helpers := helpers s;
     renderMode := renderMode s; stats := stats s |}.

Definition setRenderMode (v : Types.RenderMode) (s : State) : State :=
  {| plyData := plyData s; isLoading := isLoading s;
     loadingProgress := loadingProgress s; error := error s;
     splatDataAvailable := splatDataAvailable s;
     transformations := transformations s; crop := crop s;
     appearance := appearance s; helpers := helpers s;
     renderMode := v; stats := stats s |}.

(** [setStats(s => ({ ...s, pointCount: n }))]. *)
Definition setStatsPointCount (n : option Z) (s : State) : State :=
  {| plyData := plyData s; isLoading := isLoading s;
     loadingProgress := loadingProgress s; error := error s;
     splatDataAvailable := splatDataAvailable s;
     transformations := transformations s; crop := crop s;
     appearance := appearance s; helpers := helpers s;
     renderMode := renderMode s;
     stats := {| Types.fps := Types.fps (stats s); Types.pointCount := n |} |}.

Definition defaultTransformations : Types.Transformations :=
  {| Types.position := {| THREE.x := zero; THREE.y := zero; THREE.z := zero |};
     Types.rotation := {| THREE.ex := zero; THREE.ey := zero; THREE.ez := zero |};
     Types.scale := one |}.

(** The state of the first render. *)
Definition initialState : State :=
  {| plyData := None; isLoading := false; loadingProgress := zero;
     error := None; splatDataAvailable := false;
     transformations := defaultTransformations;
     crop := {| Types.min := {| THREE.x := zero; THREE.y := zero; THREE.z := zero |};
                Types.max := {| THREE.x := zero; THREE.y := zero; THREE.z := zero |};
                Types.enabled := false |};
     appearance := {| Types.pointSize := of_Z 5; Types.opacity := one;
                      Types.backgroundColor := str "#1a202c";
                      Types.splatScale := one |};
     helpers := {| Types.showAxes := true; Types.showGrid := true |};
     renderMode := Types.ORIGINAL;
     stats := {| Types.fps := zero; Types.pointCount := Some 0 |} |}.

Definition msgUnknown :=
  str "An unknown error occurred while loading the model.".

Section WithEngine.

Variable Math_exp : number -> number.

(** The messages the engine gives its own TypeError and RangeError. *)
Variable typeErrorMessage rangeErrorMessage : jsstring.

Definition message (e : JsError) : jsstring :=
  match e with
  | Error m => m
  | TypeError => typeErrorMessage
  | RangeError => rangeErrorMessage
  end.

(** [e.message || '...']: the empty string is falsy. *)
Definition messageOrUnknown (e : JsError) : jsstring :=
  match message e with
  | [] => msgUnknown
  | m => m
  end.

(** The statements before [try]. *)
Definition beginLoad (s : State) : State :=
  setRenderMode Types.ORIGINAL
    (setSplatDataAvailable false
       (setLoadingProgress zero (setError None (setIsLoading true s)))).

(** The [try] block once [loadPly] has resolved with [data]. *)
Definition loaded (data : PlyData) (s : State) : State :=
  let s := setPlyData (Some data) s in
  let s := setStatsPointCount (pointCount data) s in
  let hasSplatData :=
    match scales data, rotations data with
    | Some _, Some _ => true
    | _, _ => false
    end in
  let s := setSplatDataAvailable hasSplatData s in
  let s := if hasSplatData then setRenderMode Types.SPLAT s
           else setRenderMode Types.ORIGINAL s in
  let s := setCrop {| Types.min := THREE.min (boundingBox data);
                      Types.max := THREE.max (boundingBox data);
                      Types.enabled := false |} s in
  setTransformations defaultTransformations s.

(** The [catch] block. *)
Definition failed (e : JsError) (s : State) : State :=
  let s := setError (Some (messageOrUnknown e)) s in
  let s := setPlyData None s in
  setStatsPointCount (Some 0) s.

(** The [finally] block. *)
Definition endLoad (s : State) : State :=
  setLoadingProgress zero (setIsLoading false s).

(** [handleLoad]: the state once the load has settled. *)
Definition handleLoad (s : State) (source : File) : State :=
  let s := beginLoad s in
  let s := match PlyLoader.loadPly Math_exp source with
           | Ok data => loaded data s
           | Throw e => failed e s
           end in
  endLoad s.

End WithEngine.

(** [setStats(s => ({ ...s, fps }))]. *)
Definition handleFpsUpdate (fps : Z) (s : State) : State :=
  {| plyData := plyData s; isLoading := isLoading s;
     loadingProgress := loadingProgress s; error := error s;
     splatDataAvailable := splatDataAvailable s;
     transformations := transformations s; crop := crop s;
     appearance := appearance s; helpers := helpers s;
     renderMode := renderMode s;
     stats := {| Types.fps := of_Z fps;
                 Types.pointCount := Types.pointCount (stats s) |} |}.

(** [resetControls], with the [plyData] of the render it was made in. *)
Definition resetControls (s : State) : State :=
  let s' := setTransformations defaultTransformations s in
  match plyData s with
  | Some data =>
      setCrop {| Types.min := THREE.min (boundingBox data);
                 Types.max := THREE.max (boundingBox data);
                 Types.enabled := false |} s'
  | None => s'
  end.

End App.

Module Viewer.

(** The [// Handle new PLY data] effect, which runs when [plyData]
    changes.  [pointsRef] is described by the dataset whose geometry the
    scene shows: with no dataset the effect returns at once and leaves the
    scene as it is; otherwise the old points are removed and new ones
    built. *)
Definition onPlyData (pointsRef : option PlyData) (plyData : option PlyData)
  : option PlyData :=
  match plyData with
  | None => pointsRef
  | Some d => Some d
  end.

(** A Number handed to WebGL as a float, be it a uniform or an entry of
    the [Float32Array] behind an attribute, is rounded to binary32. *)
Definition glFloat (v : number) : GLSL.float := to_float32 v.

Definition glVec3 (v : THREE.Vector3) : GLSL.vec3 :=
  {| GLSL.x := glFloat (THREE.x v); GLSL.y := glFloat (THREE.y v);
     GLSL.z := glFloat (THREE.z v) |}.

(** The [position] attribute of vertex [i], from
    [new THREE.BufferAttribute(plyData.positions, 3)]. *)
Definition positionOf (positions : list number) (i : nat) : GLSL.vec3 :=
  {| GLSL.x := glFloat (default NaN (positions !! (3 * i)%nat));
     GLSL.y := glFloat (default NaN (positions !! (3 * i + 1)%nat));
     GLSL.z := glFloat (default NaN (positions !! (3 * i + 2)%nat)) |}.

(** The [a_rotation] attribute of vertex [i], from
    [new THREE.BufferAttribute(plyData.rotations, 4)]. *)
Definition rotationOf (rotations : list number) (i : nat) : GLSL.vec4 :=
  {| GLSL.x4 := glFloat (default NaN (rotations !! (4 * i)%nat));
     GLSL.y4 := glFloat (default NaN (rotations !! (4 * i + 1)%nat));
     GLSL.z4 := glFloat (default NaN (rotations !! (4 * i + 2)%nat));
     GLSL.w4 := glFloat (default NaN (rotations !! (4 * i + 3)%nat)) |}.

(** The [// Update shader uniforms] effect on the uniforms of the
    material; the uniforms it does not set keep their values. *)
Definition updateUniforms (appearance : Types.AppearanceSettings)
    (renderMode : Types.RenderMode) (crop : Types.CropSettings)
    (u : Shader.Uniforms) : Shader.Uniforms :=
  {| Shader.u_point_size := glFloat (Types.pointSize appearance);
     Shader.u_scale := Shader.u_scale u;
     Shader.u_splat_scale := glFloat (Types.splatScale appearance);
     Shader.u_crop_min := glVec3 (Types.min crop);
     Shader.u_crop_max := glVec3 (Types.max crop);
     Shader.u_crop_enabled := Types.enabled crop;
     Shader.u_render_mode := Types.modeValue renderMode;
     Shader.u_focal := Shader.u_focal u;
     Shader.u_opacity := glFloat (Types.opacity appearance);
     Shader.modelViewMatrix := Shader.modelViewMatrix u;
     Shader.projectionMatrix := Shader.projectionMatrix u |}.

End Viewer.

(* ===================================================================== *)
(** ** components/Controls.tsx: the handlers of the crop section *)
(* ===================================================================== *)

Module Controls.

(** [setCrop(c => ({...c, enabled: !c.enabled}))]. *)
Definition toggleCrop (c : Types.CropSettings) : Types.CropSettings :=
  {| Types.min := Types.min c; Types.max := Types.max c;
     Types.enabled := negb (Types.enabled c) |}.

End Controls.

(* ===================================================================== *)
(** ** hooks/useFps and the frame counter of [animate] *)
(* ===================================================================== *)

Module Fps.

(** The refs and the state of the hook.  The counts are integers far below
    2^53, where the arithmetic of Numbers is exact; the times are Numbers. *)
Record Counter := {
  frameCount : Z;
  lastTime : number;
  fps : Z
}.

(** [now - lastTime.current >= 1000]. *)
Definition due (now : number) (c : Counter) : bool :=
  leb (of_Z 1000) (sub now (lastTime c)).

(** One run of [loop], [performance.now()] returning [now]. *)
Definition loop (now : number) (c : Counter) : Counter :=
  let frameCount := frameCount c + 1 in
  if leb (of_Z 1000) (sub now (lastTime c)) then
    {| frameCount := 0; lastTime := now; fps := frameCount |}
  else
    {| frameCount := frameCount; lastTime := lastTime c; fps := fps c |}.

(** The frames of an animation, one [now] each. *)
Definition frames (nows : list number) (c : Counter) : Counter :=
  fold_left (fun c now => loop now c) nows c.

(** The counting part of [animate] in the viewer: the same loop, reporting
    through [onFpsUpdate], which the application binds to
    [handleFpsUpdate]. *)
Definition animate (now : number) (cs : Counter * App.State)
  : Counter * App.State :=
  let '(c, s) := cs in
  let frameCount := frameCount c + 1 in
  if leb (of_Z 1000) (sub now (lastTime c)) then
    ({| frameCount := 0; lastTime := now; fps := fps c |},
     App.handleFpsUpdate frameCount s)
  else
    ({| frameCount := frameCount; lastTime := lastTime c; fps := fps c |}, s).

Definition animation (nows : list number) (cs : Counter * App.State)
  : Counter * App.State :=
  fold_left (fun cs now => animate now cs) nows cs.

End Fps.

(* ===================================================================== *)
(** ** Sample files *)
(* ===================================================================== *)

Module Samples.

(** Header lines, each closed by a line feed. *)
Definition text (ls : list string) : list byte :=
  flat_map (fun l => list_byte_of_string l ++ [x0a]) ls.

(** Zero bytes up to the 10 KiB the loader decodes as header text. *)
Definition pad (bs : list byte) : list byte :=
  bs ++ replicate (Z.to_nat 10240 - length bs) x00.

(** The little-endian bytes of a binary32 whose two low bytes are zero. *)
Definition f32 (b3 b2 : byte) : list byte := [x00; x00; b2; b3].

Definition f0 := f32 x00 x00.
Definition f1 := f32 x3f x80.
Definition f2 := f32 x40 x00.
Definition f3 := f32 x40 x40.
Definition f4 := f32 x40 x80.
Definition f6 := f32 x40 xc0.
Definition f7 := f32 x40 xe0.

Definition xyz : list string :=
  ["property float x"; "property float y"; "property float z"]%string.
Definition rgb : list string :=
  ["property uchar red"; "property uchar green"; "property uchar blue"]%string.
Definition f_dc : list string :=
  ["property float f_dc_0"; "property float f_dc_1";
   "property float f_dc_2"]%string.
Definition splat : list string :=
  ["property float scale_0"; "property float scale_1";
   "property float scale_2"; "property float rot_0"; "property float rot_1";
   "property float rot_2"; "property float rot_3"]%string.

Definition header (count : string) (props : list string) : list byte :=
  text (["ply"%string; "format binary_little_endian 1.0"%string;
         String.append "element vertex " count]
        ++ props ++ ["end_header"%string]).

(** Three points with y = 2, 4, 6 and classic colours. *)
Definition file246 : list byte :=
  pad (header "3" (xyz ++ rgb)
       ++ (f1 ++ f2 ++ f0 ++ [xff; x00; x80])
       ++ (f2 ++ f4 ++ f1 ++ [x00; x00; x00])
       ++ (f3 ++ f6 ++ f3 ++ [x01; x02; x03])).

(** Three points, all with y = 7. *)
Definition file777 : list byte :=
  pad (header "3" (xyz ++ rgb)
       ++ (f1 ++ f7 ++ f0 ++ [xff; x00; x80])
       ++ (f2 ++ f7 ++ f1 ++ [x00; x00; x00])
       ++ (f3 ++ f7 ++ f3 ++ [x01; x02; x03])).

(** One splat with log-scales 0 and raw quaternion (3, 0, 0, 4). *)
Definition fileQuat : list byte :=
  pad (header "1" (xyz ++ rgb ++ splat)
       ++ (f1 ++ f2 ++ f3 ++ [x10; x20; x30])
       ++ (f0 ++ f0 ++ f0)
       ++ (f3 ++ f0 ++ f0 ++ f4)).

(** One point whose header declares both colour schemes; the f_dc
    values are 0. *)
Definition fileBoth (r g b : byte) : list byte :=
  pad (header "1" (xyz ++ rgb ++ f_dc)
       ++ (f1 ++ f2 ++ f3 ++ [r; g; b])
       ++ (f0 ++ f0 ++ f0)).

(** One point with positions only. *)
Definition fileNoColor : list byte :=
  pad (header "1" xyz ++ (f1 ++ f2 ++ f3)).

(** Ten KiB of zero bytes: no [end_header] anywhere. *)
Definition fileZeros : list byte := pad [].

(** A well-formed file of one point that is shorter than 10 KiB. *)
Definition fileSmall : list byte :=
  header "1" (xyz ++ rgb) ++ (f1 ++ f2 ++ f3 ++ [xff; x00; x80]).

(** The point count is not a number, respectively is negative. *)
Definition fileNaNCount : list byte := pad (header "many" (xyz ++ rgb)).

Definition fileNegative : list byte := pad (header "-1" (xyz ++ rgb)).

(** An ASCII file, and a binary file with no [element vertex] line. *)
Definition fileAscii : list byte :=
  pad (text (["ply"%string; "format ascii 1.0"%string;
              "element vertex 1"%string] ++ xyz ++ rgb ++ ["end_header"%string])
       ++ list_byte_of_string "1 2 3 255 0 128").


(** Two points whose y values are 0 and 2^-20, a range just under 1e-6,
    and two whose y values are 0 and 2^-19, a range just over it. *)
Definition fileBelow : list byte :=
  pad (header "2" (xyz ++ rgb)
       ++ (f1 ++ f0 ++ f0 ++ [xff; x00; x80])
       ++ (f2 ++ f32 x35 x80 ++ f1 ++ [x00; x00; x00])).

Definition fileAbove : list byte :=
  pad (header "2" (xyz ++ rgb)
       ++ (f1 ++ f0 ++ f0 ++ [xff; x00; x80])
       ++ (f2 ++ f32 x36 x00 ++ f1 ++ [x00; x00; x00])).


(** Three points with x = 1, NaN and -1. *)
Definition fileNaNx : list byte :=
  pad (header "3" (xyz ++ rgb)
       ++ (f1 ++ f2 ++ f0 ++ [xff; x00; x80])
       ++ (f32 x7f xc0 ++ f4 ++ f1 ++ [x00; x00; x00])
       ++ (f32 xbf x80 ++ f6 ++ f3 ++ [x01; x02; x03])).

(** A file of exactly 10240 bytes that ends with [end_header]; its point
    count is not a number. *)
Definition fileEndsAtMarker : list byte :=
  let head :=
    text (["ply"%string; "format binary_little_endian 1.0"%string;
           "element vertex many"%string] ++ xyz ++ rgb)
    ++ list_byte_of_string "comment " in
  head ++ replicate (Z.to_nat 10240 - length head - 11) x78 ++ [x0a]
  ++ list_byte_of_string "end_header".

(** The header text of a file, empty when the file is too short. *)
Definition textOf (buffer : list byte) : jsstring :=
  match PlyLoader.headerText buffer with
  | Ok t => t
  | Throw _ => []
  end.

(** An [exp] that is right where the samples ask: [exp(0) = 1],
    [exp(-0) = 1], and the limits the language fixes. *)
Definition exp0 (v : number) : number :=
  match v with
  | S754_nan => NaN
  | S754_infinity false => Infinity
  | S754_infinity true => zero
  | _ => one
  end.

Definition noData : PlyData :=
  {| positions := []; colors := []; elevations := []; scales := None;
     rotations := None; boundingBox := THREE.emptyBox; pointCount := None |}.

Definition parsed (buffer : list byte) : PlyData :=
  match PlyLoader.parsePly exp0 buffer with
  | Ok d => d
  | Throw _ => noData
  end.

Definition headerOf (buffer : list byte) : Header.t :=
  match PlyLoader.headerOf buffer with
  | Ok h => h
  | Throw _ => Header.init
  end.

Definition headerNoColor : Header.t := Eval vm_compute in headerOf fileNoColor.
Definition headerBoth : Header.t :=
  Eval vm_compute in headerOf (fileBoth x01 x02 x03).
Definition dataBoth : PlyData := Eval vm_compute in parsed (fileBoth x01 x02 x03).

Definition data246 : PlyData := Eval vm_compute in parsed file246.
Definition dataNaNx : PlyData := Eval vm_compute in parsed fileNaNx.
Definition dataQuat : PlyData := Eval vm_compute in parsed fileQuat.

End Samples.

Module ShaderSamples.
Import GLSL Shader.

Definition v3 (a b c : Z) : vec3 := {| x := lit a; y := lit b; z := lit c |}.

Definition identity4 : mat4 :=
  {| k0 := {| x4 := lit 1; y4 := lit 0; z4 := lit 0; w4 := lit 0 |};
     k1 := {| x4 := lit 0; y4 := lit 1; z4 := lit 0; w4 := lit 0 |};
     k2 := {| x4 := lit 0; y4 := lit 0; z4 := lit 1; w4 := lit 0 |};
     k3 := {| x4 := lit 0; y4 := lit 0; z4 := lit 0; w4 := lit 1 |} |}.

(** Uniforms with the given mode and crop box, an identity camera and
    unit sizes. *)
Definition uniforms (mode : Z) (enabled : bool) (cmin cmax : vec3) : Uniforms :=
  {| u_point_size := lit 5; u_scale := lit 1; u_splat_scale := lit 1;
     u_crop_min := cmin; u_crop_max := cmax; u_crop_enabled := enabled;
     u_render_mode := mode; u_focal := {| x2 := lit 500; y2 := lit 500 |};
     u_opacity := lit 1;
     modelViewMatrix := identity4; projectionMatrix := identity4 |}.

(** A point at [p] with the given scales and the identity rotation. *)
Definition point (p s : vec3) : Attributes :=
  {| position := p; color := v3 1 1 1; elevation := lit 0; a_scale := s;
     a_rotation := {| x4 := lit 1; y4 := lit 0; z4 := lit 0; w4 := lit 0 |} |}.

Definition blank : Varyings :=
  {| v_color := v3 0 0 0; v_discard := lit 0; v_cov_a := v3 0 0 0;
     v_cov_b := v3 0 0 0; v_radius := lit 0; gl_PointSize := lit 0;
     gl_Position := {| x4 := lit 0; y4 := lit 0; z4 := lit 0; w4 := lit 0 |} |}.

Definition centre : vec2 := {| x2 := micro 500000; y2 := micro 500000 |}.

Definition exp1 (v : float) : float := lit 1.

End ShaderSamples.

(* ===================================================================== *)
(** * Properties *)
(* ===================================================================== *)

(** ** The load handler *)

Section HandleLoad.

Variable Math_exp : number -> number.
Variable typeErrorMessage rangeErrorMessage : jsstring.

Let handleLoad := App.handleLoad Math_exp typeErrorMessage rangeErrorMessage.

Lemma renderMode_endLoad s : App.renderMode (App.endLoad s) = App.renderMode s.
Proof. reflexivity. Qed.

Lemma plyData_endLoad s : App.plyData (App.endLoad s) = App.plyData s.
Proof. reflexivity. Qed.

(** C1 (as amended): a load that fails leaves the application state with
    no dataset at all: [plyData] is null, the point count shown is 0, the
    error message is set, the render mode is back to Original.  The
    viewer's effect then sees a null dataset and leaves the points already
    in the scene where they are. *)
Theorem handleLoad_failure_clears_dataset s source e :
  PlyLoader.loadPly Math_exp source = Throw e ->
  App.plyData (handleLoad s source) = None
  /\ Types.pointCount (App.stats (handleLoad s source)) = Some 0
  /\ App.error (handleLoad s source)
     = Some (App.messageOrUnknown typeErrorMessage rangeErrorMessage e)
  /\ App.renderMode (handleLoad s source) = Types.ORIGINAL
  /\ App.splatDataAvailable (handleLoad s source) = false
  /\ App.isLoading (handleLoad s source) = false
  /\ forall pointsRef,
       Viewer.onPlyData pointsRef (App.plyData (handleLoad s source)) = pointsRef.
Proof.
  intros Hfail. subst handleLoad. unfold App.handleLoad. rewrite Hfail.
  repeat split.
Qed.

(** C10: after a load that succeeds the render mode is Splat exactly when
    the dataset has both [scales] and [rotations], and Original otherwise,
    whatever it was before. *)
Theorem handleLoad_success_renderMode s source data :
  PlyLoader.loadPly Math_exp source = Ok data ->
  App.renderMode (handleLoad s source)
  = match scales data, rotations data with
    | Some _, Some _ => Types.SPLAT
    | _, _ => Types.ORIGINAL
    end.
Proof.
  intros Hok. subst handleLoad. unfold App.handleLoad. rewrite Hok.
  rewrite renderMode_endLoad. unfold App.loaded.
  destruct (scales data), (rotations data); reflexivity.
Qed.

End HandleLoad.

(** C1, as stated, fails: with a dataset loaded, a load of ten KiB of zero
    bytes fails and the state holds no dataset afterwards. *)
Lemma failed_load_drops_prior_dataset :
  App.plyData (App.setPlyData (Some Samples.data246) App.initialState)
  = Some Samples.data246
  /\ (exists e, PlyLoader.loadPly Samples.exp0 (Readable Samples.fileZeros) = Throw e)
  /\ App.plyData
       (App.handleLoad Samples.exp0 [] []
          (App.setPlyData (Some Samples.data246) App.initialState)
          (Readable Samples.fileZeros))
     = None.
Proof.
  split; [reflexivity|]. split.
  - eexists. vm_compute. reflexivity.
  - vm_compute. reflexivity.
Qed.

Lemma handleLoad_failure_witness :
  PlyLoader.loadPly Samples.exp0 (Readable Samples.fileZeros)
  = Throw (Error PlyLoader.msgUnsupportedEncoding)
  /\ App.plyData
       (App.handleLoad Samples.exp0 [] []
          (App.setPlyData (Some Samples.data246) App.initialState)
          (Readable Samples.fileZeros))
     = None.
Proof.
  split.
  - vm_compute. reflexivity.
  - apply (handleLoad_failure_clears_dataset Samples.exp0 [] []
             (App.setPlyData (Some Samples.data246) App.initialState)
             (Readable Samples.fileZeros)
             (Error PlyLoader.msgUnsupportedEncoding)).
    vm_compute. reflexivity.
Defined.

Lemma handleLoad_success_witness :
  PlyLoader.loadPly Samples.exp0 (Readable Samples.fileQuat) = Ok Samples.dataQuat
  /\ App.renderMode
       (App.handleLoad Samples.exp0 [] []
          (App.setRenderMode Types.COLORMAP App.initialState)
          (Readable Samples.fileQuat))
     = Types.SPLAT.
Proof.
  split.
  - vm_compute. reflexivity.
  - apply (handleLoad_success_renderMode Samples.exp0 [] []
             (App.setRenderMode Types.COLORMAP App.initialState)
             (Readable Samples.fileQuat) Samples.dataQuat).
    vm_compute. reflexivity.
Defined.

(** ** Order on floating-point values *)

Section FloatOrder.

Lemma SFcompare_swap a b :
  SFcompare b a = CompOpp <$> SFcompare a b.
Proof.
  destruct a as [sa|sa| |sa ma ea], b as [sb|sb| |sb mb eb]; simpl;
    try destruct sa; try destruct sb; try reflexivity;
    rewrite (Z.compare_antisym ea eb);
    destruct (ea ?= eb); simpl; try reflexivity;
    rewrite (Pos.compare_cont_antisym ma mb Eq); simpl;
    try rewrite CompOpp_involutive; reflexivity.
Qed.

Lemma SFltb_irrefl a : SFltb a a = false.
Proof.
  unfold SFltb. destruct a as [s|s| |s m e]; simpl; try destruct s;
    try reflexivity; rewrite Z.compare_refl, Pos.compare_cont_refl;
    reflexivity.
Qed.

Lemma SFleb_not_gt a b : SFleb a b = true -> SFltb b a = false.
Proof.
  unfold SFleb, SFltb. rewrite (SFcompare_swap a b).
  destruct (SFcompare a b) as [[]|]; simpl; congruence.
Qed.

Lemma SFltb_leb a b : SFltb a b = true -> SFleb a b = true.
Proof.
  unfold SFleb, SFltb. destruct (SFcompare a b) as [[]|]; congruence.
Qed.

Lemma SFcompare_None a b :
  SFcompare a b = None -> a = S754_nan \/ b = S754_nan.
Proof.
  destruct a, b; simpl; intros H; try discriminate H; auto.
Qed.

Lemma SFltb_false_leb a b :
  a <> S754_nan -> b <> S754_nan -> SFltb a b = false -> SFleb b a = true.
Proof.
  unfold SFleb, SFltb. rewrite (SFcompare_swap a b).
  intros Ha Hb. destruct (SFcompare a b) as [[]|] eqn:E; simpl;
    try congruence.
  destruct (SFcompare_None _ _ E); contradiction.
Qed.

Lemma SFleb_refl a : a <> S754_nan -> SFleb a a = true.
Proof.
  intros Ha. apply SFltb_false_leb; try assumption. apply SFltb_irrefl.
Qed.

Lemma SFleb_trans a b c :
  SFleb a b = true -> SFleb b c = true -> SFleb a c = true.
Proof.
  unfold SFleb.
  destruct a as [sa|sa| |sa ma ea], b as [sb|sb| |sb mb eb],
           c as [sc|sc| |sc mc ec]; simpl;
    try destruct sa; try destruct sb; try destruct sc; simpl;
    try congruence;
    destruct (Z.compare_spec ea eb), (Z.compare_spec eb ec),
             (Z.compare_spec ea ec); simpl; try congruence; try lia;
    subst; rewrite !Pos.compare_cont_spec; simpl;
    destruct (Pos.compare_spec ma mb), (Pos.compare_spec mb mc),
             (Pos.compare_spec ma mc); simpl; try congruence; try lia.
Qed.

End FloatOrder.

(** ** The shaders *)

Section Shaders.
Import GLSL Shader.

Lemma lit_1_not_0 : lit 1 <> lit 0.
Proof. discriminate. Qed.

Lemma one_gt_half : fgt (lit 1) (micro 500000) = true.
Proof. reflexivity. Qed.

Lemma cropDiscard_outside u p :
  cropDiscard u p = lit 1 <-> u_crop_enabled u = true /\ Shader.outsideCrop u p.
Proof.
  unfold cropDiscard, Shader.outsideCrop, flt, fgt.
  destruct (u_crop_enabled u).
  - repeat match goal with
           | |- context [SFltb ?a ?b] => destruct (SFltb a b)
           end; simpl; split; intros H;
      solve [ discriminate H | intuition discriminate | intuition auto ].
  - split; [intros H; discriminate H | intros [H _]; discriminate H].
Qed.

Lemma cropDiscard_values u p : cropDiscard u p = lit 1 \/ cropDiscard u p = lit 0.
Proof.
  unfold cropDiscard. destruct (u_crop_enabled u); auto.
  destruct (_ || _); auto.
Qed.

(** One axis: a coordinate equal to one end of [lo, hi], with [lo <= hi],
    is neither below [lo] nor above [hi]. *)
Lemma boundary_inside c lo hi :
  fle lo hi = true -> c = lo \/ c = hi ->
  flt c lo = false /\ fgt c hi = false.
Proof.
  unfold fle, flt, fgt. intros Hle [-> | ->]; split;
    auto using SFltb_irrefl, SFleb_not_gt.
Qed.

(** C8 (as amended): with cropping enabled the crop block flags a point
    exactly when it is below [min] or above [max] on some axis; with
    cropping disabled it flags none.  The comparisons are strict, so for a
    box whose [min] does not exceed its [max] on any axis a point at [min]
    or [max] on every axis is not flagged.  Outside the splat mode the
    flag the vertex shader passes on is the one of the crop block. *)
Theorem crop_test_inclusive u p :
  (cropDiscard u p = lit 1 <-> u_crop_enabled u = true /\ Shader.outsideCrop u p)
  /\ (u_crop_enabled u = false -> cropDiscard u p = lit 0)
  /\ (fle (x (u_crop_min u)) (x (u_crop_max u)) = true ->
      fle (y (u_crop_min u)) (y (u_crop_max u)) = true ->
      fle (z (u_crop_min u)) (z (u_crop_max u)) = true ->
      (x p = x (u_crop_min u) \/ x p = x (u_crop_max u)) ->
      (y p = y (u_crop_min u) \/ y p = y (u_crop_max u)) ->
      (z p = z (u_crop_min u) \/ z p = z (u_crop_max u)) ->
      cropDiscard u p = lit 0)
  /\ (forall a old, position a = p -> u_render_mode u <> 2 ->
      v_discard (vertexMain u a old) = cropDiscard u p).
Proof.
  split; [apply cropDiscard_outside|]. split; [|split].
  - intros H. unfold cropDiscard. rewrite H. reflexivity.
  - intros Hx Hy Hz Px Py Pz.
    destruct (boundary_inside _ _ _ Hx Px) as [X1 X2].
    destruct (boundary_inside _ _ _ Hy Py) as [Y1 Y2].
    destruct (boundary_inside _ _ _ Hz Pz) as [Z1 Z2].
    unfold cropDiscard. rewrite X1, X2, Y1, Y2, Z1, Z2.
    destruct (u_crop_enabled u); reflexivity.
  - intros a old <- Hmode. unfold vertexMain.
    destruct (Z.eqb_spec (u_render_mode u) 2); [contradiction | reflexivity].
Qed.

(** C7: in splat mode a point whose projected covariance has
    [det <= 0] is flagged by the vertex shader, and every fragment of its
    sprite is discarded. *)
Theorem nonpositive_determinant_discards exp u a old gl_PointCoord :
  u_render_mode u = 2 ->
  fle (determinant (projectedCovariance u a (camPos u a))) (lit 0) = true ->
  v_discard (vertexMain u a old) = lit 1
  /\ shadePoint exp u a old gl_PointCoord = Discarded.
Proof.
  intros Hmode Hdet.
  assert (Hv : v_discard (vertexMain u a old) = lit 1).
  { unfold vertexMain. rewrite Hmode.
    change (2 =? 2) with true. cbv iota zeta. cbn [v_discard].
    rewrite Hdet. reflexivity. }
  split; [exact Hv|].
  unfold shadePoint, fragmentMain. rewrite Hv, one_gt_half. reflexivity.
Qed.

End Shaders.

(** C8, as stated for every crop box, fails on a box whose [min] lies above
    its [max]: the point at [min] is above [max] and is flagged. *)
Lemma crop_inverted_box_discards_corner :
  Shader.cropDiscard
    (ShaderSamples.uniforms 0 true (ShaderSamples.v3 1 0 0) (ShaderSamples.v3 0 0 0))
    (ShaderSamples.v3 1 0 0)
  = GLSL.lit 1.
Proof. reflexivity. Qed.

Lemma crop_test_witness :
  Shader.cropDiscard
    (ShaderSamples.uniforms 0 true (ShaderSamples.v3 0 0 0) (ShaderSamples.v3 1 2 3))
    (ShaderSamples.v3 0 2 3)
  = GLSL.lit 0.
Proof.
  apply (crop_test_inclusive
           (ShaderSamples.uniforms 0 true (ShaderSamples.v3 0 0 0)
              (ShaderSamples.v3 1 2 3))
           (ShaderSamples.v3 0 2 3));
    solve [reflexivity | left; reflexivity | right; reflexivity].
Defined.

Lemma nonpositive_determinant_witness :
  Shader.shadePoint ShaderSamples.exp1
    (ShaderSamples.uniforms 2 false (ShaderSamples.v3 0 0 0) (ShaderSamples.v3 0 0 0))
    (ShaderSamples.point (ShaderSamples.v3 0 0 (-5)) (ShaderSamples.v3 1 0 1))
    ShaderSamples.blank ShaderSamples.centre
  = Shader.Discarded.
Proof.
  apply (nonpositive_determinant_discards ShaderSamples.exp1
           (ShaderSamples.uniforms 2 false (ShaderSamples.v3 0 0 0)
              (ShaderSamples.v3 0 0 0))
           (ShaderSamples.point (ShaderSamples.v3 0 0 (-5)) (ShaderSamples.v3 1 0 1))
           ShaderSamples.blank ShaderSamples.centre).
  - reflexivity.
  - vm_compute. reflexivity.
Defined.

(** ** Binary32 values inside binary64 *)

Section Float32.

Lemma digits2_iter_xO m k :
  digits2_pos (Pos.iter xO m k) = (digits2_pos m + k)%positive.
Proof.
  induction k as [|k IH] using Pos.peano_ind.
  - simpl. lia.
  - rewrite Pos.iter_succ. simpl. rewrite IH. lia.
Qed.

Lemma iter_pos_iter {A} (f : A -> A) p x : SpecFloat.iter_pos f p x = Pos.iter f x p.
Proof.
  revert x. induction p as [p IH|p IH|]; intros x; simpl.
  - rewrite !IH. rewrite <- !Pos.iter_swap. reflexivity.
  - rewrite !IH. reflexivity.
  - reflexivity.
Qed.

Lemma shr_iter_xO m k :
  Pos.iter shr_1
    {| shr_m := Zpos (Pos.iter xO m k); shr_r := false; shr_s := false |} k
  = {| shr_m := Zpos m; shr_r := false; shr_s := false |}.
Proof.
  induction k as [|k IH] using Pos.peano_ind.
  - reflexivity.
  - rewrite !Pos.iter_succ, <- Pos.iter_swap. simpl. exact IH.
Qed.

Lemma of_float32_finite s m e :
  is_float32 (S754_finite s m e) ->
  of_float32 (S754_finite s m e)
  = S754_finite s (Pos.iter xO m (Z.to_pos (53 - Zpos (digits2_pos m))))
      (Zpos (digits2_pos m) + e - 53)
    /\ 0 < 53 - Zpos (digits2_pos m)
    /\ fexp 24 128 (Zpos (digits2_pos m) + e) = e
    /\ e <= 104.
Proof.
  unfold is_float32, valid_binary, bounded, canonical_mantissa.
  intros H. apply andb_true_iff in H as [Hc Hb].
  apply Z.eqb_eq in Hc. apply Z.leb_le in Hb.
  assert (Hd : Zpos (digits2_pos m) <= 24 /\ -149 <= e).
  { unfold fexp, emin in Hc. lia. }
  destruct Hd as [Hd He].
  split; [|repeat split; try lia; exact Hc].
  unfold of_float32, binary_round, Number.prec, Number.emax.
  replace (fexp 53 1024 (Zpos (digits2_pos m) + e))
    with (Zpos (digits2_pos m) + e - 53) by (unfold fexp, emin; lia).
  unfold shl_align.
  destruct (Zpos (digits2_pos m) + e - 53 - e) as [|k|k] eqn:Hk; try lia.
  replace (Z.to_pos (53 - Zpos (digits2_pos m))) with k by lia.
  unfold binary_round_aux, shr_fexp. simpl Zdigits2.
  rewrite digits2_iter_xO.
  replace (fexp 53 1024 (Zpos (digits2_pos m + k) + (Zpos (digits2_pos m) + e - 53))
           - (Zpos (digits2_pos m) + e - 53)) with 0
    by (unfold fexp, emin; lia).
  simpl. rewrite digits2_iter_xO.
  replace (fexp 53 1024 (Zpos (digits2_pos m + k) + (Zpos (digits2_pos m) + e - 53))
           - (Zpos (digits2_pos m) + e - 53)) with 0
    by (unfold fexp, emin; lia).
  simpl.
  destruct (Z.leb_spec (Zpos (digits2_pos m) + e - 53) (1024 - 53)); [reflexivity | lia].
Qed.

Lemma float32_roundtrip f : is_float32 f -> to_float32 (of_float32 f) = f.
Proof.
  destruct f as [s|s| |s m e]; try reflexivity.
  intros Hf. destruct (of_float32_finite s m e Hf) as (-> & Hk & Hc & Hb).
  set (d := Zpos (digits2_pos m)) in *.
  destruct (53 - d) as [|k|k] eqn:Ek; try lia.
  simpl Z.to_pos.
  unfold to_float32, binary_round.
  rewrite digits2_iter_xO.
  replace (Zpos (digits2_pos m + k) + (d + e - 53)) with (d + e) by lia.
  rewrite Hc. unfold shl_align.
  destruct (e - (d + e - 53)) as [|j|j] eqn:Ej; try lia.
  unfold binary_round_aux, shr_fexp. simpl Zdigits2.
  rewrite digits2_iter_xO.
  replace (Zpos (digits2_pos m + k) + (d + e - 53)) with (d + e) by lia.
  rewrite Hc, Ej. unfold shr, shr_record_of_loc.
  replace j with k by lia.
  rewrite iter_pos_iter, shr_iter_xO.
  cbn [shr_m loc_of_shr_record round_nearest_even Zdigits2].
  fold d. replace (d + e - 53 + Zpos k) with e by lia.
  rewrite Hc, Z.sub_diag. cbn [shr_m].
  destruct (Z.leb_spec e (128 - 24)); [reflexivity | lia].
Qed.

Lemma digits2_pos_bounds p :
  2 ^ (Zpos (digits2_pos p) - 1) <= Zpos p < 2 ^ Zpos (digits2_pos p).
Proof.
  assert (Hstep : forall d, 0 < d ->
            2 ^ (Z.succ d - 1) = 2 * 2 ^ (d - 1) /\ 2 ^ Z.succ d = 2 * 2 ^ d).
  { intros d Hd. split.
    - replace (Z.succ d - 1) with (Z.succ (d - 1)) by lia.
      apply Z.pow_succ_r. lia.
    - apply Z.pow_succ_r. lia. }
  induction p as [p IH|p IH|].
  - change (digits2_pos p~1) with (Pos.succ (digits2_pos p)).
    rewrite Pos2Z.inj_succ, (Pos2Z.inj_xI p).
    destruct (Hstep (Zpos (digits2_pos p)) ltac:(lia)) as [E1 E2]. lia.
  - change (digits2_pos p~0) with (Pos.succ (digits2_pos p)).
    rewrite Pos2Z.inj_succ, (Pos2Z.inj_xO p).
    destruct (Hstep (Zpos (digits2_pos p)) ltac:(lia)) as [E1 E2]. lia.
  - simpl. lia.
Qed.

Lemma digits2_pos_le p n : 0 <= n -> Zpos p < 2 ^ n -> Zpos (digits2_pos p) <= n.
Proof.
  intros Hn Hp. destruct (Z.le_gt_cases (Zpos (digits2_pos p)) n) as [|Hgt]; [assumption|].
  pose proof (digits2_pos_bounds p) as [Hlo _].
  assert (2 ^ n <= 2 ^ (Zpos (digits2_pos p) - 1)) by (apply Z.pow_le_mono_r; lia).
  lia.
Qed.

Lemma digits2_pos_eq p n :
  0 < n -> 2 ^ (n - 1) <= Zpos p < 2 ^ n -> Zpos (digits2_pos p) = n.
Proof.
  intros Hn [Hlo Hhi].
  pose proof (digits2_pos_le p n ltac:(lia) Hhi).
  destruct (Z.eq_dec (Zpos (digits2_pos p)) n) as [|Hne]; [assumption|].
  pose proof (digits2_pos_bounds p) as [_ Hup].
  assert (2 ^ Zpos (digits2_pos p) <= 2 ^ (n - 1)) by (apply Z.pow_le_mono_r; lia).
  lia.
Qed.

Lemma float32_of_bits_valid w : is_float32 (float32_of_bits w).
Proof.
  unfold float32_of_bits, is_float32.
  assert (Hf : 0 <= Z.land w 8388607 < 8388608).
  { change 8388607 with (Z.ones 23). rewrite Z.land_ones by lia.
    apply Z.mod_pos_bound. lia. }
  assert (He : 0 <= Z.land (Z.shiftr w 23) 255 < 256).
  { change 255 with (Z.ones 8). rewrite Z.land_ones by lia.
    apply Z.mod_pos_bound. lia. }
  set (f := Z.land w 8388607) in *. set (e := Z.land (Z.shiftr w 23) 255) in *.
  clearbody f e.
  destruct (Z.eqb_spec e 255); [destruct (f =? 0); reflexivity|].
  destruct (Z.eqb_spec e 0).
  - destruct f as [|m|m] eqn:Ef; try reflexivity.
    unfold valid_binary, bounded, canonical_mantissa.
    pose proof (digits2_pos_le m 23 ltac:(lia)
                  ltac:(change (2 ^ 23) with 8388608; lia)).
    apply andb_true_iff.
    split; [apply Z.eqb_eq; unfold fexp, emin; lia | reflexivity].
  - destruct (f + 8388608) as [|m|m] eqn:Ef; try reflexivity.
    unfold valid_binary, bounded, canonical_mantissa.
    assert (Zpos (digits2_pos m) = 24).
    { apply digits2_pos_eq; [lia|]. change (2 ^ (24 - 1)) with 8388608.
      change (2 ^ 24) with 16777216. lia. }
    apply andb_true_iff.
    split; [apply Z.eqb_eq; unfold fexp, emin; lia | apply Z.leb_le; lia].
Qed.

End Float32.

(** ** Results *)

Lemma Ok_inj {A} (a b : A) : Ok a = Ok b -> a = b.
Proof. intros H. injection H. auto. Qed.

Lemma Throw_inj {A} (e e' : JsError) : @Throw A e = Throw e' -> e = e'.
Proof. intros H. injection H. auto. Qed.

Lemma Throw_not_Ok {A} e (a : A) : Throw e = Ok a -> False.
Proof. intros H. inversion H. Qed.

Lemma Ok_not_Throw {A} e (a : A) : Ok a = Throw e -> False.
Proof. intros H. inversion H. Qed.

Lemma bind_Ok {A B} (r : result A) (k : A -> result B) b :
  bind r k = Ok b -> exists a, r = Ok a /\ k a = Ok b.
Proof.
  destruct r as [a|e]; simpl; intros H.
  - exists a. split; [reflexivity | exact H].
  - destruct (Throw_not_Ok _ _ H).
Qed.

(** Storing a value read by [getFloat32] into a [Float32Array] keeps it. *)
Lemma Math_fround_getFloat32 view off v :
  getFloat32 view off = Ok v -> Math_fround v = v.
Proof.
  unfold getFloat32.
  destruct ((off <? 0) || (byteLength view <? off + 4)).
  { intros H. destruct (Throw_not_Ok _ _ H). }
  destruct (take 4 (drop (Z.to_nat off) view)) as [|b0 [|b1 [|b2 [|b3 [|]]]]];
    intros H; try (destruct (Throw_not_Ok _ _ H)).
  apply Ok_inj in H. subst v. unfold Math_fround.
  rewrite float32_roundtrip by apply float32_of_bits_valid. reflexivity.
Qed.


(** ** The decoding loop as reads followed by stores *)

Section Loop.

Variable Math_exp : number -> number.
Variable dataView : list byte.
Variable propMap : gmap (list N) Header.Property.
Variable stride : Z.
Variable useSHColor hasSplat : bool.

Local Abbreviation decodeColor := (PlyLoader.decodeColor Math_exp dataView propMap useSHColor).
Local Abbreviation decodeSplat := (PlyLoader.decodeSplat Math_exp dataView propMap hasSplat).
Local Abbreviation decodePoint := (PlyLoader.decodePoint Math_exp dataView propMap stride useSHColor hasSplat).
Local Abbreviation decodeLoop := (PlyLoader.decodeLoop Math_exp dataView propMap stride useSHColor hasSplat).
Local Abbreviation readColor := (PlyLoader.readColor Math_exp dataView propMap useSHColor).
Local Abbreviation readSplat := (PlyLoader.readSplat Math_exp dataView propMap hasSplat).
Local Abbreviation readPoint := (PlyLoader.readPoint Math_exp dataView propMap stride useSHColor hasSplat).
Local Abbreviation readPoints := (PlyLoader.readPoints Math_exp dataView propMap stride useSHColor hasSplat).

Lemma storeBlock_3 a s v0 v1 v2 :
  PlyLoader.storeBlock a s 0 [v0; v1; v2]
  = store (store (store a s v0) (s + 1) v1) (s + 2) v2.
Proof. cbn [PlyLoader.storeBlock]. rewrite Z.add_0_r. reflexivity. Qed.

Lemma storeBlock_4 a s v0 v1 v2 v3 :
  PlyLoader.storeBlock a s 0 [v0; v1; v2; v3]
  = store (store (store (store a s v0) (s + 1) v1) (s + 2) v2) (s + 3) v3.
Proof. cbn [PlyLoader.storeBlock]. rewrite Z.add_0_r. reflexivity. Qed.

Lemma decodeColor_read byteOffset posIdx cs :
  decodeColor byteOffset posIdx cs
  = let* c := readColor byteOffset in Ok (PlyLoader.storeBlock cs posIdx 0 c).
Proof.
  unfold PlyLoader.decodeColor, PlyLoader.readColor.
  destruct useSHColor.
  - destruct (PlyLoader.readFloat _ _ _ "f_dc_0") as [r|e]; [|reflexivity].
    destruct (PlyLoader.readFloat _ _ _ "f_dc_1") as [g|e]; [|reflexivity].
    destruct (PlyLoader.readFloat _ _ _ "f_dc_2") as [b|e]; [|reflexivity].
    cbn [bind]. rewrite storeBlock_3. reflexivity.
  - destruct (PlyLoader.readByte _ _ _ "red") as [r|e]; [|reflexivity].
    destruct (PlyLoader.readByte _ _ _ "green") as [g|e]; [|reflexivity].
    destruct (PlyLoader.readByte _ _ _ "blue") as [b|e]; [|reflexivity].
    cbn [bind]. rewrite storeBlock_3. reflexivity.
Qed.

Lemma decodeSplat_read byteOffset i ss rs :
  decodeSplat byteOffset i ss rs
  = let* '(s, r) := readSplat byteOffset in
    Ok ((fun a => PlyLoader.storeBlock a (i * 3) 0 s) <$> ss,
        (fun a => PlyLoader.storeBlock a (i * 4) 0 r) <$> rs).
Proof.
  unfold PlyLoader.decodeSplat, PlyLoader.readSplat.
  destruct hasSplat.
  - destruct (PlyLoader.readFloat _ _ _ "scale_0") as [s0|e]; [|reflexivity].
    destruct (PlyLoader.readFloat _ _ _ "scale_1") as [s1|e]; [|reflexivity].
    destruct (PlyLoader.readFloat _ _ _ "scale_2") as [s2|e]; [|reflexivity].
    destruct (PlyLoader.readFloat _ _ _ "rot_0") as [qx|e]; [|reflexivity].
    destruct (PlyLoader.readFloat _ _ _ "rot_1") as [qy|e]; [|reflexivity].
    destruct (PlyLoader.readFloat _ _ _ "rot_2") as [qz|e]; [|reflexivity].
    destruct (PlyLoader.readFloat _ _ _ "rot_3") as [qw|e]; [|reflexivity].
    cbn [bind]. unfold PlyLoader.normalizedRotation.
    destruct ss, rs; cbn [fmap option_fmap option_map];
      rewrite ?storeBlock_3, ?storeBlock_4; reflexivity.
  - cbn [bind]. destruct ss, rs; reflexivity.
Qed.

Lemma decodePoint_read_store i d :
  decodePoint i d = let* p := readPoint i in Ok (PlyLoader.storePoint i p d).
Proof.
  unfold PlyLoader.decodePoint, PlyLoader.readPoint.
  destruct (PlyLoader.readFloat _ _ _ "x") as [x|e]; [|reflexivity].
  destruct (PlyLoader.readFloat _ _ _ "y") as [y|e]; [|reflexivity].
  destruct (PlyLoader.readFloat _ _ _ "z") as [z|e]; [|reflexivity].
  cbn [bind].
  rewrite decodeColor_read, decodeSplat_read.
  destruct (readColor (i * stride)) as [c|e]; [|reflexivity].
  cbn [bind].
  destruct (readSplat (i * stride)) as [[s r]|e]; [|reflexivity].
  cbn [bind]. unfold PlyLoader.storePoint. cbn [PlyLoader.p_x PlyLoader.p_y PlyLoader.p_z PlyLoader.p_color PlyLoader.p_scale PlyLoader.p_rotation].
  rewrite storeBlock_3. reflexivity.
Qed.

Lemma decodeLoop_read_store n i d :
  decodeLoop n i d
  = let* ps := readPoints n i in Ok (PlyLoader.storePoints i ps d).
Proof.
  revert i d.
  induction n as [|n IH]; intros i d; [reflexivity|].
  cbn [PlyLoader.decodeLoop PlyLoader.readPoints].
  rewrite decodePoint_read_store.
  destruct (readPoint i) as [p|e]; [|reflexivity].
  cbn [bind]. rewrite IH.
  destruct (PlyLoader.readPoints _ _ _ _ _ _ n (i + 1)) as [ps|e]; reflexivity.
Qed.

End Loop.

(** ** What the stores leave in the arrays *)

Section Arrays.

Lemma store_middle P o post v :
  store (P ++ o :: post) (Z.of_nat (length P)) v = P ++ Math_fround v :: post.
Proof.
  unfold store.
  destruct (Z.ltb_spec (Z.of_nat (length P)) 0); [lia|].
  rewrite Nat2Z.id.
  replace (length P) with (length P + 0)%nat at 1 by lia.
  rewrite insert_app_r. reflexivity.
Qed.

Lemma store_nil i v : store [] i v = [].
Proof. unfold store. destruct (i <? 0); reflexivity. Qed.

Lemma storeBlock_nil start k vs : PlyLoader.storeBlock [] start k vs = [].
Proof.
  revert k. induction vs as [|v vs IH]; intros k; [reflexivity|].
  cbn [PlyLoader.storeBlock]. rewrite store_nil. apply IH.
Qed.

Lemma storeBlock_fill vs : forall P old post start k,
  Z.of_nat (length P) = start + k ->
  length old = length vs ->
  PlyLoader.storeBlock (P ++ old ++ post) start k vs
  = P ++ map Math_fround vs ++ post.
Proof.
  induction vs as [|v vs IH]; intros P old post start k HP Hold.
  - destruct old; [reflexivity | discriminate Hold].
  - destruct old as [|o old]; [discriminate Hold|].
    cbn [PlyLoader.storeBlock map].
    replace (start + k) with (Z.of_nat (length P)) by lia.
    change ((o :: old) ++ post) with (o :: (old ++ post)).
    rewrite store_middle.
    replace (P ++ Math_fround v :: old ++ post)
      with ((P ++ [Math_fround v]) ++ old ++ post)
      by (rewrite <- app_assoc; reflexivity).
    rewrite (IH (P ++ [Math_fround v]) old post start (k + 1)).
    + rewrite <- app_assoc. reflexivity.
    + rewrite length_app. simpl. lia.
    + simpl in Hold. lia.
Qed.

Lemma storePoints_array
    (proj : PlyLoader.Decoded -> list number)
    (vals : PlyLoader.Point -> list number) (w : nat)
    (Hstep : forall i p d,
       proj (PlyLoader.storePoint i p d)
       = PlyLoader.storeBlock (proj d) (i * Z.of_nat w) 0 (vals p)) :
  forall ps i d P old post,
    Forall (fun p => length (vals p) = w) ps ->
    Z.of_nat (length P) = i * Z.of_nat w ->
    length old = (w * length ps)%nat ->
    proj d = P ++ old ++ post ->
    proj (PlyLoader.storePoints i ps d) = P ++ PlyLoader.written vals ps ++ post.
Proof.
  induction ps as [|p ps IH]; intros i d P old post Hall HP Hold Hd.
  - rewrite Nat.mul_0_r in Hold. destruct old; [exact Hd | discriminate Hold].
  - apply Forall_cons in Hall as [Hp Hall].
    cbn [PlyLoader.storePoints PlyLoader.written flat_map].
    rewrite (IH (i + 1) (PlyLoader.storePoint i p d)
               (P ++ map Math_fround (vals p)) (drop w old) post Hall).
    + rewrite <- !app_assoc. reflexivity.
    + rewrite length_app, length_map, Hp. lia.
    + rewrite length_drop. simpl in Hold. lia.
    + rewrite Hstep, Hd. rewrite <- (take_drop w old) at 1.
      rewrite <- (app_assoc (take w old)).
      rewrite (storeBlock_fill (vals p) P (take w old) (drop w old ++ post)).
      * rewrite <- app_assoc. reflexivity.
      * lia.
      * rewrite length_take. simpl in Hold. lia.
Qed.

End Arrays.

(** ** The records that were read *)

Section LoopFacts.

Variable Math_exp : number -> number.
Variable dataView : list byte.
Variable propMap : gmap (list N) Header.Property.
Variable stride : Z.
Variable useSHColor hasSplat : bool.

Local Abbreviation readColor := (PlyLoader.readColor Math_exp dataView propMap useSHColor).
Local Abbreviation readSplat := (PlyLoader.readSplat Math_exp dataView propMap hasSplat).
Local Abbreviation readPoint := (PlyLoader.readPoint Math_exp dataView propMap stride useSHColor hasSplat).
Local Abbreviation readPoints := (PlyLoader.readPoints Math_exp dataView propMap stride useSHColor hasSplat).
Local Abbreviation readFloat := (PlyLoader.readFloat dataView propMap).

Lemma readPoints_length n : forall i ps, readPoints n i = Ok ps -> length ps = n.
Proof.
  induction n as [|n IH]; intros i ps H.
  - apply Ok_inj in H. subst ps. reflexivity.
  - cbn [PlyLoader.readPoints] in H.
    apply bind_Ok in H as (p & _ & H). apply bind_Ok in H as (ps' & Hps & H).
    apply Ok_inj in H. subst ps. simpl. f_equal. eapply IH, Hps.
Qed.

Lemma readPoints_lookup n : forall i ps t p,
  readPoints n i = Ok ps -> ps !! t = Some p -> readPoint (i + Z.of_nat t) = Ok p.
Proof.
  induction n as [|n IH]; intros i ps t p H Ht.
  - apply Ok_inj in H. subst ps. destruct t; discriminate Ht.
  - cbn [PlyLoader.readPoints] in H.
    apply bind_Ok in H as (p0 & Hp0 & H). apply bind_Ok in H as (ps' & Hps & H).
    apply Ok_inj in H. subst ps. destruct t as [|t].
    + apply Some_inj in Ht. subst p0. rewrite Z.add_0_r. exact Hp0.
    + replace (i + Z.of_nat (S t)) with (i + 1 + Z.of_nat t) by lia.
      eapply IH; [exact Hps | exact Ht].
Qed.

Lemma readPoints_Forall (Q : PlyLoader.Point -> Prop) :
  (forall i p, readPoint i = Ok p -> Q p) ->
  forall n i ps, readPoints n i = Ok ps -> Forall Q ps.
Proof.
  intros HQ n i ps H. apply Forall_lookup. intros t p Ht.
  eapply HQ, readPoints_lookup; eauto.
Qed.

(** What a point that was read looks like. *)
Lemma readPoint_inv i p :
  readPoint i = Ok p ->
  readFloat (i * stride) "x" = Ok (PlyLoader.p_x p)
  /\ readFloat (i * stride) "y" = Ok (PlyLoader.p_y p)
  /\ readFloat (i * stride) "z" = Ok (PlyLoader.p_z p)
  /\ readColor (i * stride) = Ok (PlyLoader.p_color p)
  /\ readSplat (i * stride) = Ok (PlyLoader.p_scale p, PlyLoader.p_rotation p).
Proof.
  unfold PlyLoader.readPoint.
  intros H.
  apply bind_Ok in H as (x & Hx & H). apply bind_Ok in H as (y & Hy & H).
  apply bind_Ok in H as (z & Hz & H). apply bind_Ok in H as (c & Hc & H).
  apply bind_Ok in H as ([s r] & Hs & H). apply Ok_inj in H. subst p.
  cbn [PlyLoader.p_x PlyLoader.p_y PlyLoader.p_z PlyLoader.p_color
       PlyLoader.p_scale PlyLoader.p_rotation].
  auto.
Qed.

Lemma readFloat_fround off n v : readFloat off n = Ok v -> Math_fround v = v.
Proof.
  unfold PlyLoader.readFloat. intros H.
  apply bind_Ok in H as (o & _ & H). eapply Math_fround_getFloat32, H.
Qed.

Lemma readColor_length off c : readColor off = Ok c -> length c = 3%nat.
Proof.
  unfold PlyLoader.readColor. intros H.
  destruct useSHColor;
    apply bind_Ok in H as (r & _ & H); apply bind_Ok in H as (g & _ & H);
    apply bind_Ok in H as (b & _ & H); apply Ok_inj in H; subst c; reflexivity.
Qed.

Lemma readSplat_length off s r :
  readSplat off = Ok (s, r) ->
  length s = (if hasSplat then 3 else 0)%nat
  /\ length r = (if hasSplat then 4 else 0)%nat.
Proof.
  unfold PlyLoader.readSplat. intros H.
  destruct hasSplat.
  - apply bind_Ok in H as (s0 & _ & H). apply bind_Ok in H as (s1 & _ & H).
    apply bind_Ok in H as (s2 & _ & H). apply bind_Ok in H as (qx & _ & H).
    apply bind_Ok in H as (qy & _ & H). apply bind_Ok in H as (qz & _ & H).
    apply bind_Ok in H as (qw & _ & H). apply Ok_inj in H.
    injection H as <- <-. split; reflexivity.
  - apply Ok_inj in H. injection H as <- <-. split; reflexivity.
Qed.

End LoopFacts.

(** ** The running values, the allocations and the second pass *)

Section Accumulators.

Lemma storePoints_boundingBox ps : forall i d,
  PlyLoader.d_boundingBox (PlyLoader.storePoints i ps d)
  = fold_left (fun b p => THREE.expandByPoint b (PlyLoader.p_vector p)) ps
      (PlyLoader.d_boundingBox d).
Proof.
  induction ps as [|p ps IH]; intros i d; [reflexivity|].
  cbn [PlyLoader.storePoints fold_left]. rewrite IH. reflexivity.
Qed.

Lemma storePoints_minY ps : forall i d,
  PlyLoader.minY (PlyLoader.storePoints i ps d)
  = PlyLoader.runningMin (map PlyLoader.p_y ps) (PlyLoader.minY d).
Proof.
  induction ps as [|p ps IH]; intros i d; [reflexivity|].
  cbn [PlyLoader.storePoints map]. rewrite IH. reflexivity.
Qed.

Lemma storePoints_maxY ps : forall i d,
  PlyLoader.maxY (PlyLoader.storePoints i ps d)
  = PlyLoader.runningMax (map PlyLoader.p_y ps) (PlyLoader.maxY d).
Proof.
  induction ps as [|p ps IH]; intros i d; [reflexivity|].
  cbn [PlyLoader.storePoints map]. rewrite IH. reflexivity.
Qed.

Lemma storePoints_scales_None ps : forall i d,
  PlyLoader.d_scales d = None ->
  PlyLoader.d_scales (PlyLoader.storePoints i ps d) = None.
Proof.
  induction ps as [|p ps IH]; intros i d H; [exact H|].
  cbn [PlyLoader.storePoints]. apply IH.
  cbn [PlyLoader.storePoint PlyLoader.d_scales]. rewrite H. reflexivity.
Qed.

Lemma storePoints_rotations_None ps : forall i d,
  PlyLoader.d_rotations d = None ->
  PlyLoader.d_rotations (PlyLoader.storePoints i ps d) = None.
Proof.
  induction ps as [|p ps IH]; intros i d H; [exact H|].
  cbn [PlyLoader.storePoints]. apply IH.
  cbn [PlyLoader.storePoint PlyLoader.d_rotations]. rewrite H. reflexivity.
Qed.

Lemma storePoints_scales_Some ps : forall i d a,
  PlyLoader.d_scales d = Some a ->
  PlyLoader.d_scales (PlyLoader.storePoints i ps d)
  = Some (default [] (PlyLoader.d_scales (PlyLoader.storePoints i ps d))).
Proof.
  induction ps as [|p ps IH]; intros i d a H.
  - cbn [PlyLoader.storePoints]. rewrite H. reflexivity.
  - cbn [PlyLoader.storePoints]. eapply IH.
    cbn [PlyLoader.storePoint PlyLoader.d_scales]. rewrite H. reflexivity.
Qed.

Lemma storePoints_rotations_Some ps : forall i d a,
  PlyLoader.d_rotations d = Some a ->
  PlyLoader.d_rotations (PlyLoader.storePoints i ps d)
  = Some (default [] (PlyLoader.d_rotations (PlyLoader.storePoints i ps d))).
Proof.
  induction ps as [|p ps IH]; intros i d a H.
  - cbn [PlyLoader.storePoints]. rewrite H. reflexivity.
  - cbn [PlyLoader.storePoints]. eapply IH.
    cbn [PlyLoader.storePoint PlyLoader.d_rotations]. rewrite H. reflexivity.
Qed.

(** Filling a fresh array: the stores of [ps] from index 0 into zeros. *)
Lemma storePoints_fresh proj vals (w : nat)
    (Hstep : forall i p d,
       proj (PlyLoader.storePoint i p d)
       = PlyLoader.storeBlock (proj d) (i * Z.of_nat w) 0 (vals p)) ps d :
  Forall (fun p => length (vals p) = w) ps ->
  proj d = replicate (w * length ps) zero ->
  proj (PlyLoader.storePoints 0 ps d) = PlyLoader.written vals ps.
Proof.
  intros Hall Hd.
  rewrite (storePoints_array proj vals w Hstep ps 0 d []
             (replicate (w * length ps) zero) [] Hall).
  - rewrite app_nil_r. reflexivity.
  - reflexivity.
  - apply length_replicate.
  - rewrite app_nil_r. exact Hd.
Qed.

Lemma newFloat32Array_count pc a :
  newFloat32Array pc = Ok a -> a = replicate (PlyLoader.iterations pc) zero.
Proof.
  unfold newFloat32Array, PlyLoader.iterations. destruct pc as [n|].
  - destruct ((n <? 0) || (9007199254740991 <? n)); intros H;
      [destruct (Throw_not_Ok _ _ H) | apply Ok_inj in H; auto].
  - intros H. apply Ok_inj in H. auto.
Qed.

Lemma newFloat32Array_times k pc a :
  0 < k ->
  newFloat32Array (PlyLoader.times k pc) = Ok a ->
  a = replicate (Z.to_nat k * PlyLoader.iterations pc) zero.
Proof.
  unfold newFloat32Array, PlyLoader.iterations, PlyLoader.times.
  intros Hk. destruct pc as [n|]; cbn [fmap option_fmap option_map].
  - destruct (Z.ltb_spec (n * k) 0) as [Hn|Hn]; cbn [orb]; intros H;
      [destruct (Throw_not_Ok _ _ H)|].
    destruct (9007199254740991 <? n * k); [destruct (Throw_not_Ok _ _ H)|].
    apply Ok_inj in H. subst a. f_equal. nia.
  - intros H. apply Ok_inj in H. subst a. rewrite Nat.mul_0_r. reflexivity.
Qed.

Lemma load_middle P e post : load (P ++ e :: post) (Z.of_nat (length P)) = e.
Proof.
  unfold load. destruct (Z.ltb_spec (Z.of_nat (length P)) 0); [lia|].
  rewrite Nat2Z.id, list_lookup_middle by reflexivity. reflexivity.
Qed.

Lemma normalizeLoop_map lo yRange es : forall P i,
  Z.of_nat (length P) = i ->
  PlyLoader.normalizeLoop lo yRange (length es) i (P ++ es)
  = P ++ map (fun e => Math_fround (div (sub e lo) yRange)) es.
Proof.
  induction es as [|e es IH]; intros P i HP; [reflexivity|].
  cbn [length PlyLoader.normalizeLoop map]. subst i.
  rewrite load_middle, store_middle.
  replace (P ++ Math_fround (div (sub e lo) yRange) :: es)
    with ((P ++ [Math_fround (div (sub e lo) yRange)]) ++ es)
    by (rewrite <- app_assoc; reflexivity).
  rewrite IH by (rewrite length_app; simpl; lia).
  rewrite <- app_assoc. reflexivity.
Qed.

End Accumulators.

(** ** The decoding pass in terms of the records read *)

Section Body.

Variable Math_exp : number -> number.

Lemma written_elevations ps :
  Forall (fun p => Math_fround (PlyLoader.p_y p) = PlyLoader.p_y p) ps ->
  PlyLoader.written (fun p => [PlyLoader.p_y p]) ps = map PlyLoader.p_y ps.
Proof.
  induction 1 as [|p ps Hp _ IH]; [reflexivity|].
  cbn [PlyLoader.written flat_map map app]. rewrite Hp. f_equal. exact IH.
Qed.

Lemma Math_fround_half : Math_fround half = half.
Proof. reflexivity. Qed.

(** A dataset returned by the decoding pass, in terms of the records read. *)
Lemma decodeBody_Ok buffer headerEnd h useSHColor hasSplat data :
  PlyLoader.decodeBody Math_exp buffer headerEnd h useSHColor hasSplat = Ok data ->
  exists ps,
    PlyLoader.readPoints Math_exp (drop (Z.to_nat headerEnd) buffer)
      (Header.propMap (Header.properties h)) (Header.currentOffset h)
      useSHColor hasSplat (PlyLoader.iterations (Header.pointCount h)) 0 = Ok ps
    /\ length ps = PlyLoader.iterations (Header.pointCount h)
    /\ pointCount data = Header.pointCount h
    /\ positions data = PlyLoader.written PlyLoader.p_position ps
    /\ colors data = PlyLoader.written PlyLoader.p_color ps
    /\ elevations data = PlyLoader.normalizedElevations (map PlyLoader.p_y ps)
    /\ scales data
       = (if hasSplat then Some (PlyLoader.written PlyLoader.p_scale ps) else None)
    /\ rotations data
       = (if hasSplat then Some (PlyLoader.written PlyLoader.p_rotation ps) else None)
    /\ boundingBox data = PlyLoader.boxOf ps.
Proof.
  unfold PlyLoader.decodeBody. intros H.
  apply bind_Ok in H as (positions0 & Hpos & H).
  apply bind_Ok in H as (colors0 & Hcol & H).
  apply bind_Ok in H as (elevations0 & Hele & H).
  apply bind_Ok in H as (scales0 & Hsc & H).
  apply bind_Ok in H as (rotations0 & Hrot & H).
  apply bind_Ok in H as (dataView & Hview & H).
  apply bind_Ok in H as (d & Hloop & H).
  apply Ok_inj in H. symmetry in H.
  apply newFloat32Array_times in Hpos; [|lia].
  apply newFloat32Array_times in Hcol; [|lia].
  apply newFloat32Array_count in Hele.
  assert (Hdv : dataView = drop (Z.to_nat headerEnd) buffer).
  { unfold newDataView in Hview.
    destruct ((headerEnd <? 0) || (byteLength buffer <? headerEnd));
      [destruct (Throw_not_Ok _ _ Hview) | apply Ok_inj in Hview; auto]. }
  subst dataView.
  rewrite decodeLoop_read_store in Hloop.
  apply bind_Ok in Hloop as (ps & Hps & Hd). apply Ok_inj in Hd. symmetry in Hd.
  exists ps. split; [exact Hps|].
  assert (Hlen : length ps = PlyLoader.iterations (Header.pointCount h))
    by (eapply readPoints_length, Hps).
  split; [exact Hlen|].
  assert (Hshape : Forall
            (fun p => (Math_fround (PlyLoader.p_y p) = PlyLoader.p_y p)
                      /\ length (PlyLoader.p_color p) = 3%nat
                      /\ length (PlyLoader.p_scale p) = (if hasSplat then 3 else 0)%nat
                      /\ length (PlyLoader.p_rotation p) = (if hasSplat then 4 else 0)%nat)
            ps).
  { eapply readPoints_Forall; [|exact Hps].
    intros i p Hp. apply readPoint_inv in Hp as (_ & Hy & _ & Hc & Hs).
    split; [eapply readFloat_fround; exact Hy|].
    split; [eapply readColor_length; exact Hc|].
    eapply readSplat_length; exact Hs. }
  subst data d.
  cbn [pointCount positions colors elevations scales rotations boundingBox].
  split; [reflexivity|].
  split.
  { apply (storePoints_fresh PlyLoader.d_positions PlyLoader.p_position 3).
    - reflexivity.
    - apply Forall_forall. reflexivity.
    - rewrite Hlen. exact Hpos. }
  split.
  { apply (storePoints_fresh PlyLoader.d_colors PlyLoader.p_color 3).
    - reflexivity.
    - eapply Forall_impl; [exact Hshape|]. cbn beta. tauto.
    - rewrite Hlen. exact Hcol. }
  split.
  { unfold PlyLoader.normalizeElevations, PlyLoader.normalizedElevations.
    rewrite storePoints_minY, storePoints_maxY.
    cbn [PlyLoader.minY PlyLoader.maxY].
    rewrite (storePoints_fresh PlyLoader.d_elevations
               (fun p => [PlyLoader.p_y p]) 1).
    - rewrite written_elevations
        by (eapply Forall_impl; [exact Hshape|]; cbn beta; tauto).
      destruct (ltb PlyLoader.epsilon _).
      + rewrite <- Hlen, <- (length_map PlyLoader.p_y ps).
        apply (normalizeLoop_map _ _ (map PlyLoader.p_y ps) [] 0). reflexivity.
      + unfold PlyLoader.fill. rewrite Math_fround_half. reflexivity.
    - intros i p d0.
      cbn [PlyLoader.storePoint PlyLoader.d_elevations PlyLoader.storeBlock].
      f_equal. lia.
    - apply Forall_forall. reflexivity.
    - cbn [PlyLoader.d_elevations]. rewrite Hele, Hlen. f_equal. lia. }
  split.
  { destruct hasSplat.
    - apply bind_Ok in Hsc as (a & Ha & Hsc). apply Ok_inj in Hsc. subst scales0.
      apply newFloat32Array_times in Ha; [|lia].
      rewrite (storePoints_scales_Some ps 0 _ a) by reflexivity. f_equal.
      apply (storePoints_fresh (fun d => default [] (PlyLoader.d_scales d))
               PlyLoader.p_scale 3).
      + intros i p d0. cbn [PlyLoader.storePoint PlyLoader.d_scales].
        destruct (PlyLoader.d_scales d0); cbn [fmap option_fmap option_map default];
          [reflexivity | rewrite storeBlock_nil; reflexivity].
      + eapply Forall_impl; [exact Hshape|]. cbn beta. tauto.
      + rewrite Hlen. exact Ha.
    - apply Ok_inj in Hsc. subst scales0.
      apply storePoints_scales_None. reflexivity. }
  split.
  { destruct hasSplat.
    - apply bind_Ok in Hrot as (a & Ha & Hrot). apply Ok_inj in Hrot. subst rotations0.
      apply newFloat32Array_times in Ha; [|lia].
      rewrite (storePoints_rotations_Some ps 0 _ a) by reflexivity. f_equal.
      apply (storePoints_fresh (fun d => default [] (PlyLoader.d_rotations d))
               PlyLoader.p_rotation 4).
      + intros i p d0. cbn [PlyLoader.storePoint PlyLoader.d_rotations].
        destruct (PlyLoader.d_rotations d0); cbn [fmap option_fmap option_map default];
          [reflexivity | rewrite storeBlock_nil; reflexivity].
      + eapply Forall_impl; [exact Hshape|]. cbn beta. tauto.
      + rewrite Hlen. exact Ha.
    - apply Ok_inj in Hrot. subst rotations0.
      apply storePoints_rotations_None. reflexivity. }
  rewrite storePoints_boundingBox. reflexivity.
Qed.

End Body.

(** ** A parsed dataset in terms of the file *)

Section Parse.

Variable Math_exp : number -> number.

(** A dataset returned by the parser: the header passed every check and the
    decoding pass returned it. *)
Lemma parsePly_Ok buffer data :
  PlyLoader.parsePly Math_exp buffer = Ok data ->
  exists text h,
    PlyLoader.headerText buffer = Ok text
    /\ Header.lines Header.init (PlyLoader.headerLines text) = Ok h
    /\ Header.isBinary h = true
    /\ Header.pointCount h <> Some 0
    /\ Header.hasPosition h = true
    /\ (Header.hasClassicColor h = true \/ Header.hasSHColor h = true)
    /\ PlyLoader.decodeBody Math_exp buffer (PlyLoader.headerEndOf text) h
         (Header.hasSHColor h) (Header.hasSplat h) = Ok data.
Proof.
  unfold PlyLoader.parsePly. intros H.
  apply bind_Ok in H as (text & Htext & H). apply bind_Ok in H as (h & Hh & H).
  exists text, h. split; [exact Htext|]. split; [exact Hh|].
  destruct (Header.isBinary h); cbn [negb] in H; [|destruct (Throw_not_Ok _ _ H)].
  split; [reflexivity|].
  destruct (bool_decide_reflect (Header.pointCount h = Some 0)) as [|Hpc];
    [destruct (Throw_not_Ok _ _ H)|].
  split; [exact Hpc|].
  destruct (Header.hasPosition h); cbn [negb] in H; [|destruct (Throw_not_Ok _ _ H)].
  split; [reflexivity|].
  destruct (Header.hasClassicColor h), (Header.hasSHColor h); cbn [negb andb] in H;
    try (destruct (Throw_not_Ok _ _ H)); auto.
Qed.

Lemma written_length vals (w : nat) ps :
  Forall (fun p => length (vals p) = w) ps ->
  length (PlyLoader.written vals ps) = (w * length ps)%nat.
Proof.
  induction 1 as [|p ps Hp _ IH]; [simpl; lia|].
  cbn [PlyLoader.written flat_map length]. rewrite length_app, length_map, Hp.
  unfold PlyLoader.written in IH. rewrite IH. simpl. lia.
Qed.

Lemma written_lookup vals (w : nat) ps :
  Forall (fun p => length (vals p) = w) ps ->
  forall t p j, ps !! t = Some p -> (j < w)%nat ->
  PlyLoader.written vals ps !! (w * t + j)%nat = Math_fround <$> (vals p !! j).
Proof.
  induction 1 as [|p0 ps Hp _ IH]; intros t p j Ht Hj; [destruct t; discriminate Ht|].
  cbn [PlyLoader.written flat_map]. destruct t as [|t].
  - apply Some_inj in Ht. subst p0. rewrite Nat.mul_0_r, Nat.add_0_l.
    rewrite lookup_app_l by (rewrite length_map; lia).
    apply list_lookup_fmap.
  - rewrite lookup_app_r by (rewrite length_map; lia).
    rewrite length_map, Hp.
    replace (w * S t + j - w)%nat with (w * t + j)%nat by lia.
    apply IH; assumption.
Qed.

Lemma rawFloat_read buffer text h i n :
  PlyLoader.headerText buffer = Ok text ->
  Header.lines Header.init (PlyLoader.headerLines text) = Ok h ->
  PlyLoader.rawFloat buffer i n
  = PlyLoader.readFloat (drop (Z.to_nat (PlyLoader.headerEndOf text)) buffer)
      (Header.propMap (Header.properties h)) (i * Header.currentOffset h) n.
Proof.
  intros Htext Hh. unfold PlyLoader.rawFloat. rewrite Htext. cbn [bind].
  rewrite Hh. reflexivity.
Qed.

(** The records behind a parsed dataset. *)
Lemma parsePly_points buffer data :
  PlyLoader.parsePly Math_exp buffer = Ok data ->
  exists text h ps,
    PlyLoader.headerText buffer = Ok text
    /\ Header.lines Header.init (PlyLoader.headerLines text) = Ok h
    /\ (Header.hasClassicColor h = true \/ Header.hasSHColor h = true)
    /\ length ps = PlyLoader.iterations (pointCount data)
    /\ (forall t p, ps !! t = Some p ->
          PlyLoader.readPoint Math_exp
            (drop (Z.to_nat (PlyLoader.headerEndOf text)) buffer)
            (Header.propMap (Header.properties h)) (Header.currentOffset h)
            (Header.hasSHColor h) (Header.hasSplat h) (Z.of_nat t) = Ok p)
    /\ positions data = PlyLoader.written PlyLoader.p_position ps
    /\ colors data = PlyLoader.written PlyLoader.p_color ps
    /\ elevations data = PlyLoader.normalizedElevations (map PlyLoader.p_y ps)
    /\ scales data
       = (if Header.hasSplat h then Some (PlyLoader.written PlyLoader.p_scale ps)
          else None)
    /\ rotations data
       = (if Header.hasSplat h then Some (PlyLoader.written PlyLoader.p_rotation ps)
          else None)
    /\ boundingBox data = PlyLoader.boxOf ps.
Proof.
  intros H. apply parsePly_Ok in H as (text & h & Htext & Hh & _ & _ & _ & Hcol & H).
  apply decodeBody_Ok in H as (ps & Hps & Hlen & Hpc & Hrest).
  exists text, h, ps. rewrite Hpc.
  split; [exact Htext|]. split; [exact Hh|]. split; [exact Hcol|].
  split; [exact Hlen|]. split; [|exact Hrest].
  intros t p Ht.
  pose proof (readPoints_lookup _ _ _ _ _ _ _ _ _ _ _ Hps Ht) as Hp.
  exact Hp.
Qed.

End Parse.

(** ** Rotations and colours *)

Section Rotations.

Variable Math_exp : number -> number.

Lemma readSplat_true dataView propMap off s r :
  PlyLoader.readSplat Math_exp dataView propMap true off = Ok (s, r) ->
  exists s0 s1 s2 qx qy qz qw,
    PlyLoader.readFloat dataView propMap off "scale_0" = Ok s0
    /\ PlyLoader.readFloat dataView propMap off "scale_1" = Ok s1
    /\ PlyLoader.readFloat dataView propMap off "scale_2" = Ok s2
    /\ PlyLoader.readFloat dataView propMap off "rot_0" = Ok qx
    /\ PlyLoader.readFloat dataView propMap off "rot_1" = Ok qy
    /\ PlyLoader.readFloat dataView propMap off "rot_2" = Ok qz
    /\ PlyLoader.readFloat dataView propMap off "rot_3" = Ok qw
    /\ s = [Math_exp s0; Math_exp s1; Math_exp s2]
    /\ r = PlyLoader.normalizedRotation qx qy qz qw.
Proof.
  unfold PlyLoader.readSplat. intros H.
  apply bind_Ok in H as (s0 & H0 & H). apply bind_Ok in H as (s1 & H1 & H).
  apply bind_Ok in H as (s2 & H2 & H). apply bind_Ok in H as (qx & Hx & H).
  apply bind_Ok in H as (qy & Hy & H). apply bind_Ok in H as (qz & Hz & H).
  apply bind_Ok in H as (qw & Hw & H). apply Ok_inj in H.
  injection H as <- <-. exists s0, s1, s2, qx, qy, qz, qw. auto 10.
Qed.


(** C4 (as amended): with the splat extension, the four entries of
    [rotations] for point [i] are the raw components [rot_0 .. rot_3] of its
    record, each divided by the L2 norm of the four and rounded to binary32,
    stored with [rot_3] first: [(rot_3, rot_0, rot_1, rot_2) / L].  The raw
    quaternion (3, 0, 0, 4) is stored as (0.8, 0.6, 0, 0). *)
Theorem rotations_normalized_rot3_first :
  (forall buffer data rs (i : nat),
     PlyLoader.parsePly Math_exp buffer = Ok data ->
     rotations data = Some rs ->
     (i < PlyLoader.iterations (pointCount data))%nat ->
     exists q0 q1 q2 q3,
       PlyLoader.rawFloat buffer (Z.of_nat i) "rot_0" = Ok q0
       /\ PlyLoader.rawFloat buffer (Z.of_nat i) "rot_1" = Ok q1
       /\ PlyLoader.rawFloat buffer (Z.of_nat i) "rot_2" = Ok q2
       /\ PlyLoader.rawFloat buffer (Z.of_nat i) "rot_3" = Ok q3
       /\ let L := Math_sqrt (add (add (add (mul q0 q0) (mul q1 q1)) (mul q2 q2))
                                 (mul q3 q3)) in
          rs !! (4 * i)%nat = Some (Math_fround (div q3 L))
          /\ rs !! (4 * i + 1)%nat = Some (Math_fround (div q0 L))
          /\ rs !! (4 * i + 2)%nat = Some (Math_fround (div q1 L))
          /\ rs !! (4 * i + 3)%nat = Some (Math_fround (div q2 L)))
  /\ PlyLoader.rawFloat Samples.fileQuat 0 "rot_0" = Ok (of_Z 3)
  /\ PlyLoader.rawFloat Samples.fileQuat 0 "rot_1" = Ok zero
  /\ PlyLoader.rawFloat Samples.fileQuat 0 "rot_2" = Ok zero
  /\ PlyLoader.rawFloat Samples.fileQuat 0 "rot_3" = Ok (of_Z 4)
  /\ rotations (Samples.parsed Samples.fileQuat)
     = Some [Math_fround (div (of_Z 4) (of_Z 5));
             Math_fround (div (of_Z 3) (of_Z 5)); zero; zero].
Proof.
  split; [|repeat split; vm_compute; reflexivity].
  intros buffer data rs i Hparse Hrs Hi.
  apply parsePly_points in Hparse
    as (text & h & ps & Htext & Hh & _ & Hlen & Hread & _ & _ & _ & _ & Hrot & _).
  rewrite Hrs in Hrot. destruct (Header.hasSplat h) eqn:Hsplat; [|discriminate Hrot].
  apply Some_inj in Hrot. subst rs.
  rewrite <- Hlen in Hi. destruct (lookup_lt_is_Some_2 ps i Hi) as [p Hp].
  assert (Hall : Forall (fun p => length (PlyLoader.p_rotation p) = 4%nat) ps).
  { apply Forall_lookup. intros t p' Ht. apply Hread in Ht.
    apply readPoint_inv in Ht as (_ & _ & _ & _ & Hs).
    apply readSplat_length in Hs as [_ Hs]. exact Hs. }
  pose proof (Hread _ _ Hp) as Hpt.
  apply readPoint_inv in Hpt as (_ & _ & _ & _ & Hs).
  apply readSplat_true in Hs
    as (s0 & s1 & s2 & qx & qy & qz & qw & _ & _ & _ & Hx & Hy & Hz & Hw & _ & Hr).
  exists qx, qy, qz, qw.
  rewrite !(rawFloat_read buffer text h) by assumption.
  split; [exact Hx|]. split; [exact Hy|]. split; [exact Hz|]. split; [exact Hw|].
  cbv zeta.
  pose proof (written_lookup PlyLoader.p_rotation 4 ps Hall i p) as Hl.
  rewrite Hr in Hl. unfold PlyLoader.normalizedRotation in Hl.
  repeat split.
  - rewrite <- (Nat.add_0_r (4 * i)). rewrite (Hl 0%nat Hp) by lia. reflexivity.
  - rewrite (Hl 1%nat Hp) by lia. reflexivity.
  - rewrite (Hl 2%nat Hp) by lia. reflexivity.
  - rewrite (Hl 3%nat Hp) by lia. reflexivity.
Qed.

End Rotations.

Section Colours.

Variable Math_exp : number -> number.


Lemma headerOf_eq buffer text h :
  PlyLoader.headerText buffer = Ok text ->
  Header.lines Header.init (PlyLoader.headerLines text) = Ok h ->
  PlyLoader.headerOf buffer = Ok h.
Proof.
  intros Ht Hh. unfold PlyLoader.headerOf. rewrite Ht. exact Hh.
Qed.



End Colours.

(** ** Elevations *)

Section RunningExtrema.

Lemma SFltb_not_nan a b : SFltb a b = true -> a <> S754_nan /\ b <> S754_nan.
Proof.
  unfold SFltb. destruct a, b; simpl; intros H; split; congruence.
Qed.

Lemma SFleb_not_nan a b : SFleb a b = true -> a <> S754_nan /\ b <> S754_nan.
Proof.
  unfold SFleb. destruct a, b; simpl; intros H; split; congruence.
Qed.

Lemma SFleb_Infinity c : SFleb Infinity c = true -> c = Infinity.
Proof.
  unfold SFleb, Infinity. destruct c as [s|s| |s m e]; simpl;
    try destruct s; intros H; congruence.
Qed.

Lemma SFleb_neg_Infinity c : SFleb c neg_Infinity = true -> c = neg_Infinity.
Proof.
  unfold SFleb, neg_Infinity. destruct c as [s|s| |s m e]; simpl;
    try destruct s; intros H; congruence.
Qed.

Lemma runningMin_spec ys : forall m,
  m <> S754_nan ->
  PlyLoader.runningMin ys m <> S754_nan
  /\ leb (PlyLoader.runningMin ys m) m = true
  /\ (forall y, y ∈ ys -> y <> S754_nan -> leb (PlyLoader.runningMin ys m) y = true)
  /\ (PlyLoader.runningMin ys m = m \/ PlyLoader.runningMin ys m ∈ ys).
Proof.
  unfold leb, ltb.
  induction ys as [|y ys IH]; intros m Hm.
  - cbn [PlyLoader.runningMin fold_left].
    split; [exact Hm|]. split; [apply SFleb_refl, Hm|].
    split; [intros y Hy; inversion Hy | left; reflexivity].
  - unfold PlyLoader.runningMin. cbn [fold_left].
    fold (PlyLoader.runningMin ys (if ltb y m then y else m)).
    unfold ltb. destruct (SFltb y m) eqn:Hlt.
    + destruct (SFltb_not_nan _ _ Hlt) as [Hy _].
      destruct (IH y Hy) as (Hr & Hle & Hall & Hin).
      split; [exact Hr|].
      split; [eapply SFleb_trans; [exact Hle | apply SFltb_leb, Hlt]|].
      split.
      * intros y' Hy' Hn. apply elem_of_cons in Hy' as [->|Hy']; auto.
      * right. destruct Hin as [->|Hin]; [left | right; exact Hin].
    + destruct (IH m Hm) as (Hr & Hle & Hall & Hin).
      split; [exact Hr|]. split; [exact Hle|]. split.
      * intros y' Hy' Hn. apply elem_of_cons in Hy' as [->|Hy']; auto.
        eapply SFleb_trans; [exact Hle|]. apply SFltb_false_leb; assumption.
      * destruct Hin as [Hin|Hin]; [left; exact Hin | right; right; exact Hin].
Qed.

Lemma runningMax_spec ys : forall m,
  m <> S754_nan ->
  PlyLoader.runningMax ys m <> S754_nan
  /\ leb m (PlyLoader.runningMax ys m) = true
  /\ (forall y, y ∈ ys -> y <> S754_nan -> leb y (PlyLoader.runningMax ys m) = true)
  /\ (PlyLoader.runningMax ys m = m \/ PlyLoader.runningMax ys m ∈ ys).
Proof.
  unfold leb, ltb.
  induction ys as [|y ys IH]; intros m Hm.
  - cbn [PlyLoader.runningMax fold_left].
    split; [exact Hm|]. split; [apply SFleb_refl, Hm|].
    split; [intros y Hy; inversion Hy | left; reflexivity].
  - unfold PlyLoader.runningMax. cbn [fold_left].
    fold (PlyLoader.runningMax ys (if ltb m y then y else m)).
    unfold ltb. destruct (SFltb m y) eqn:Hlt.
    + destruct (SFltb_not_nan _ _ Hlt) as [_ Hy].
      destruct (IH y Hy) as (Hr & Hle & Hall & Hin).
      split; [exact Hr|].
      split; [eapply SFleb_trans; [apply SFltb_leb, Hlt | exact Hle]|].
      split.
      * intros y' Hy' Hn. apply elem_of_cons in Hy' as [->|Hy']; auto.
      * right. destruct Hin as [->|Hin]; [left | right; exact Hin].
    + destruct (IH m Hm) as (Hr & Hle & Hall & Hin).
      split; [exact Hr|]. split; [exact Hle|]. split.
      * intros y' Hy' Hn. apply elem_of_cons in Hy' as [->|Hy']; auto.
        eapply SFleb_trans; [|exact Hle]. apply SFltb_false_leb; assumption.
      * destruct Hin as [Hin|Hin]; [left; exact Hin | right; right; exact Hin].
Qed.

End RunningExtrema.

Section Elevations.

Variable Math_exp : number -> number.

(** C5: the elevations of a parsed dataset.  With [ys] the y values of the
    records, [lo] and [hi] the running minimum and maximum the loop keeps
    (a lower and an upper bound of the y values, attained by one of them):
    if [hi - lo > 1e-6] every elevation is [(y - lo) / (hi - lo)], computed
    in binary64 and rounded to binary32; otherwise every elevation is 0.5.
    The threshold is the binary64 value nearest to 10^-6, which is
    4722366482869645 * 2^-72.  The y values 2, 4, 6 give 0, 0.5, 1 and the y
    values 7, 7, 7 give 0.5 three times; a range of 2^-20, just under the
    threshold, gives 0.5 twice, and a range of 2^-19, just over it, gives 0
    and 1. *)
Theorem elevations_normalized :
  (2 ^ 52 <= 4722366482869645 < 2 ^ 53
   /\ Z.abs (4722366482869645 * 10 ^ 6 - 2 ^ 72) * 2 <= 10 ^ 6)
  /\ (forall buffer data,
     PlyLoader.parsePly Math_exp buffer = Ok data ->
     exists ys,
       length ys = PlyLoader.iterations (pointCount data)
       /\ (forall (i : nat) y, ys !! i = Some y ->
             PlyLoader.rawFloat buffer (Z.of_nat i) "y" = Ok y)
       /\ let lo := PlyLoader.runningMin ys Infinity in
          let hi := PlyLoader.runningMax ys neg_Infinity in
          (forall y, y ∈ ys -> y <> NaN -> leb lo y = true /\ leb y hi = true)
          /\ (forall y, y ∈ ys -> y <> NaN -> lo ∈ ys /\ hi ∈ ys)
          /\ (ltb (S754_finite false 4722366482869645 (-72)) (sub hi lo) = true ->
              forall (i : nat) y, ys !! i = Some y ->
                elevations data !! i
                = Some (Math_fround (div (sub y lo) (sub hi lo))))
          /\ (ltb (S754_finite false 4722366482869645 (-72)) (sub hi lo) = false ->
              forall (i : nat), (i < length ys)%nat ->
                elevations data !! i = Some half))
  /\ elevations (Samples.parsed Samples.file246) = [zero; half; one]
  /\ elevations (Samples.parsed Samples.file777) = [half; half; half]
  /\ elevations (Samples.parsed Samples.fileBelow) = [half; half]
  /\ elevations (Samples.parsed Samples.fileAbove) = [zero; one].
Proof.
  split; [split; [lia | vm_compute; discriminate]|].
  split; [|repeat split; vm_compute; reflexivity].
  assert (He : PlyLoader.epsilon = S754_finite false 4722366482869645 (-72)) by (vm_compute; reflexivity).
  intros buffer data Hparse.
  apply parsePly_points in Hparse
    as (text & h & ps & Htext & Hh & _ & Hlen & Hread & _ & _ & Hele & _).
  exists (map PlyLoader.p_y ps).
  split; [rewrite length_map; exact Hlen|].
  split.
  { intros i y Hy. rewrite list_lookup_fmap in Hy.
    destruct (ps !! i) as [p|] eqn:Hp; [|discriminate Hy].
    apply Some_inj in Hy. subst y. apply Hread in Hp.
    apply readPoint_inv in Hp as (_ & Hy & _).
    rewrite (rawFloat_read buffer text h) by assumption. exact Hy. }
  cbv zeta. set (ys := map PlyLoader.p_y ps) in *.
  destruct (runningMin_spec ys Infinity) as (_ & _ & Hlo & Hlo_in);
    [unfold Infinity; congruence|].
  destruct (runningMax_spec ys neg_Infinity) as (_ & _ & Hhi & Hhi_in);
    [unfold neg_Infinity; congruence|].
  split; [intros y Hy Hn; split; [apply Hlo | apply Hhi]; assumption|].
  split.
  { intros y Hy Hn. split.
    - destruct Hlo_in as [Heq|Hin]; [|exact Hin].
      pose proof (Hlo y Hy Hn) as Hle. rewrite Heq in Hle.
      apply SFleb_Infinity in Hle. rewrite Heq, <- Hle. exact Hy.
    - destruct Hhi_in as [Heq|Hin]; [|exact Hin].
      pose proof (Hhi y Hy Hn) as Hle. rewrite Heq in Hle.
      apply SFleb_neg_Infinity in Hle. rewrite Heq, <- Hle. exact Hy. }
  unfold PlyLoader.normalizedElevations in Hele. fold ys in Hele.
  rewrite He in Hele.
  split.
  - intros Hgt i y Hy. rewrite Hele, Hgt, list_lookup_fmap, Hy. reflexivity.
  - intros Hle i Hi. rewrite Hele, Hle, list_lookup_fmap.
    destruct (lookup_lt_is_Some_2 ys i Hi) as [y ->]. reflexivity.
Qed.

End Elevations.

(** ** The bounding box *)

Section MinMax.

Lemma Math_min_spec a b :
  a <> S754_nan -> b <> S754_nan ->
  Math_min a b <> S754_nan
  /\ (Math_min a b = a \/ Math_min a b = b)
  /\ leb (Math_min a b) a = true /\ leb (Math_min a b) b = true.
Proof.
  intros Ha Hb. unfold Math_min, leb, ltb.
  replace (isNaN a || isNaN b) with false
    by (destruct a, b; try reflexivity; congruence).
  destruct (SFltb b a) eqn:Hba.
  - split; [exact Hb|]. split; [right; reflexivity|].
    split; [apply SFltb_leb, Hba | apply SFleb_refl, Hb].
  - destruct (SFltb a b) eqn:Hab.
    + split; [exact Ha|]. split; [left; reflexivity|].
      split; [apply SFleb_refl, Ha | apply SFltb_leb, Hab].
    + pose proof (SFltb_false_leb _ _ Ha Hb Hab) as Hle1.
      pose proof (SFltb_false_leb _ _ Hb Ha Hba) as Hle2.
      destruct b as [[|]| | |]; try (split; [exact Ha|]; split; [left; reflexivity|];
        split; [apply SFleb_refl, Ha | exact Hle2]).
      split; [congruence|]. split; [right; reflexivity|].
      split; [exact Hle1 | reflexivity].
Qed.

Lemma Math_max_spec a b :
  a <> S754_nan -> b <> S754_nan ->
  Math_max a b <> S754_nan
  /\ (Math_max a b = a \/ Math_max a b = b)
  /\ leb a (Math_max a b) = true /\ leb b (Math_max a b) = true.
Proof.
  intros Ha Hb. unfold Math_max, leb, ltb.
  replace (isNaN a || isNaN b) with false
    by (destruct a, b; try reflexivity; congruence).
  destruct (SFltb a b) eqn:Hab.
  - split; [exact Hb|]. split; [right; reflexivity|].
    split; [apply SFltb_leb, Hab | apply SFleb_refl, Hb].
  - destruct (SFltb b a) eqn:Hba.
    + split; [exact Ha|]. split; [left; reflexivity|].
      split; [apply SFleb_refl, Ha | apply SFltb_leb, Hba].
    + pose proof (SFltb_false_leb _ _ Ha Hb Hab) as Hle1.
      pose proof (SFltb_false_leb _ _ Hb Ha Hba) as Hle2.
      destruct b as [[|]| | |]; try (split; [exact Ha|]; split; [left; reflexivity|];
        split; [apply SFleb_refl, Ha | exact Hle1]).
      split; [congruence|]. split; [right; reflexivity|].
      split; [exact Hle2 | reflexivity].
Qed.

Lemma Math_min_nan_l b : Math_min NaN b = NaN.
Proof. reflexivity. Qed.

Lemma Math_min_nan_r a : Math_min a NaN = NaN.
Proof. unfold Math_min. destruct a; reflexivity. Qed.

Lemma Math_max_nan_l b : Math_max NaN b = NaN.
Proof. reflexivity. Qed.

Lemma Math_max_nan_r a : Math_max a NaN = NaN.
Proof. unfold Math_max. destruct a; reflexivity. Qed.

Lemma fold_min_spec cs : forall m,
  m <> S754_nan -> Forall (fun c => c <> S754_nan) cs ->
  fold_left Math_min cs m <> S754_nan
  /\ leb (fold_left Math_min cs m) m = true
  /\ (forall c, c ∈ cs -> leb (fold_left Math_min cs m) c = true)
  /\ (fold_left Math_min cs m = m \/ fold_left Math_min cs m ∈ cs).
Proof.
  unfold leb. induction cs as [|c cs IH]; intros m Hm Hall.
  - cbn [fold_left]. split; [exact Hm|]. split; [apply SFleb_refl, Hm|].
    split; [intros c Hc; inversion Hc | left; reflexivity].
  - apply Forall_cons in Hall as [Hc Hall]. cbn [fold_left].
    destruct (Math_min_spec m c Hm Hc) as (Hn & Hor & Hle1 & Hle2).
    destruct (IH (Math_min m c) Hn Hall) as (Hr & Hle & Hfor & Hin).
    unfold leb in *.
    split; [exact Hr|].
    split; [eapply SFleb_trans; [exact Hle | exact Hle1]|].
    split.
    + intros c' Hc'. apply elem_of_cons in Hc' as [->|Hc']; auto.
      eapply SFleb_trans; [exact Hle | exact Hle2].
    + destruct Hin as [Hin|Hin]; [|right; right; exact Hin].
      rewrite Hin. destruct Hor as [->| ->]; [left; reflexivity | right; left].
Qed.

Lemma fold_max_spec cs : forall m,
  m <> S754_nan -> Forall (fun c => c <> S754_nan) cs ->
  fold_left Math_max cs m <> S754_nan
  /\ leb m (fold_left Math_max cs m) = true
  /\ (forall c, c ∈ cs -> leb c (fold_left Math_max cs m) = true)
  /\ (fold_left Math_max cs m = m \/ fold_left Math_max cs m ∈ cs).
Proof.
  unfold leb. induction cs as [|c cs IH]; intros m Hm Hall.
  - cbn [fold_left]. split; [exact Hm|]. split; [apply SFleb_refl, Hm|].
    split; [intros c Hc; inversion Hc | left; reflexivity].
  - apply Forall_cons in Hall as [Hc Hall]. cbn [fold_left].
    destruct (Math_max_spec m c Hm Hc) as (Hn & Hor & Hle1 & Hle2).
    destruct (IH (Math_max m c) Hn Hall) as (Hr & Hle & Hfor & Hin).
    unfold leb in *.
    split; [exact Hr|].
    split; [eapply SFleb_trans; [exact Hle1 | exact Hle]|].
    split.
    + intros c' Hc'. apply elem_of_cons in Hc' as [->|Hc']; auto.
      eapply SFleb_trans; [exact Hle2 | exact Hle].
    + destruct Hin as [Hin|Hin]; [|right; right; exact Hin].
      rewrite Hin. destruct Hor as [->| ->]; [left; reflexivity | right; left].
Qed.

Lemma fold_min_nan cs : fold_left Math_min cs NaN = NaN.
Proof. induction cs as [|c cs IH]; [reflexivity|]. cbn [fold_left]. exact IH. Qed.

Lemma fold_max_nan cs : fold_left Math_max cs NaN = NaN.
Proof. induction cs as [|c cs IH]; [reflexivity|]. cbn [fold_left]. exact IH. Qed.

Lemma fold_min_Exists_nan cs : forall m,
  Exists (fun c => c = NaN) cs -> fold_left Math_min cs m = NaN.
Proof.
  induction cs as [|c cs IH]; intros m H; [inversion H|].
  cbn [fold_left]. apply Exists_cons in H as [->|H].
  - rewrite Math_min_nan_r. apply fold_min_nan.
  - apply IH, H.
Qed.

Lemma fold_max_Exists_nan cs : forall m,
  Exists (fun c => c = NaN) cs -> fold_left Math_max cs m = NaN.
Proof.
  induction cs as [|c cs IH]; intros m H; [inversion H|].
  cbn [fold_left]. apply Exists_cons in H as [->|H].
  - rewrite Math_max_nan_r. apply fold_max_nan.
  - apply IH, H.
Qed.

End MinMax.

Section BoundingBox.

Variable Math_exp : number -> number.

Lemma boxOf_min k ps : forall b,
  THREE.getComponent k
    (THREE.min (fold_left (fun b p => THREE.expandByPoint b (PlyLoader.p_vector p)) ps b))
  = fold_left Math_min
      (map (fun p => THREE.getComponent k (PlyLoader.p_vector p)) ps)
      (THREE.getComponent k (THREE.min b)).
Proof.
  induction ps as [|p ps IH]; intros b; [reflexivity|].
  cbn [fold_left map]. rewrite IH. f_equal.
  destruct k as [|[|k]]; reflexivity.
Qed.

Lemma boxOf_max k ps : forall b,
  THREE.getComponent k
    (THREE.max (fold_left (fun b p => THREE.expandByPoint b (PlyLoader.p_vector p)) ps b))
  = fold_left Math_max
      (map (fun p => THREE.getComponent k (PlyLoader.p_vector p)) ps)
      (THREE.getComponent k (THREE.max b)).
Proof.
  induction ps as [|p ps IH]; intros b; [reflexivity|].
  cbn [fold_left map]. rewrite IH. f_equal.
  destruct k as [|[|k]]; reflexivity.
Qed.

Lemma axis_written k ps :
  (k < 3)%nat ->
  Forall (fun p => Math_fround (PlyLoader.p_x p) = PlyLoader.p_x p
                   /\ Math_fround (PlyLoader.p_y p) = PlyLoader.p_y p
                   /\ Math_fround (PlyLoader.p_z p) = PlyLoader.p_z p) ps ->
  PlyLoader.axis k (PlyLoader.written PlyLoader.p_position ps) (length ps)
  = map (fun p => THREE.getComponent k (PlyLoader.p_vector p)) ps.
Proof.
  intros Hk Hall. unfold PlyLoader.axis.
  apply list_eq. intros i. rewrite !list_lookup_fmap.
  destruct (ps !! i) as [p|] eqn:Hp.
  - rewrite lookup_seq_lt by (eapply lookup_lt_Some, Hp).
    cbn [fmap option_fmap option_map]. f_equal.
    rewrite (written_lookup PlyLoader.p_position 3 ps) with (p := p);
      [|apply Forall_forall; reflexivity | exact Hp | exact Hk].
    rewrite Forall_lookup in Hall. destruct (Hall _ _ Hp) as (Hx & Hy & Hz).
    unfold PlyLoader.p_position.
    destruct k as [|[|[|k]]]; [| | |lia]; cbn -[Math_fround]; assumption.
  - rewrite lookup_seq_ge by (eapply lookup_ge_None, Hp). reflexivity.
Qed.

(** C6 (as amended): for a parsed dataset with at least one point, on each
    axis whose coordinates hold no NaN the box's [min] and [max] are the
    least and the greatest of that coordinate over the points of
    [positions] (each is one of the coordinates, below, respectively above,
    all of them).  When a coordinate on the axis is NaN, [min] and [max] on
    that axis are NaN. *)
Theorem boundingBox_is_extent buffer data n (k : nat) :
  PlyLoader.parsePly Math_exp buffer = Ok data ->
  pointCount data = Some n ->
  0 < n ->
  (k < 3)%nat ->
  (Forall (fun c => c <> NaN) (PlyLoader.axis k (positions data) (Z.to_nat n)) ->
   PlyLoader.isExtent
     (THREE.getComponent k (THREE.min (boundingBox data)))
     (THREE.getComponent k (THREE.max (boundingBox data)))
     (PlyLoader.axis k (positions data) (Z.to_nat n)))
  /\ (Exists (fun c => c = NaN) (PlyLoader.axis k (positions data) (Z.to_nat n)) ->
      THREE.getComponent k (THREE.min (boundingBox data)) = NaN
      /\ THREE.getComponent k (THREE.max (boundingBox data)) = NaN).
Proof.
  intros Hparse Hn Hpos Hk.
  apply parsePly_points in Hparse
    as (text & h & ps & Htext & Hh & _ & Hlen & Hread & Hp & _ & _ & _ & _ & Hbox).
  rewrite Hn in Hlen. cbn [PlyLoader.iterations] in Hlen.
  assert (Hall : Forall (fun p => Math_fround (PlyLoader.p_x p) = PlyLoader.p_x p
                   /\ Math_fround (PlyLoader.p_y p) = PlyLoader.p_y p
                   /\ Math_fround (PlyLoader.p_z p) = PlyLoader.p_z p) ps).
  { apply Forall_lookup. intros t p Ht. apply Hread in Ht.
    apply readPoint_inv in Ht as (Hx & Hy & Hz & _).
    split; [eapply readFloat_fround; exact Hx|].
    split; [eapply readFloat_fround; exact Hy | eapply readFloat_fround; exact Hz]. }
  rewrite Hp, <- Hlen, (axis_written k ps Hk Hall).
  rewrite Hbox. unfold PlyLoader.boxOf. rewrite boxOf_min, boxOf_max.
  set (cs := map (fun p => THREE.getComponent k (PlyLoader.p_vector p)) ps).
  replace (THREE.getComponent k (THREE.min THREE.emptyBox)) with Infinity
    by (destruct k as [|[|k]]; reflexivity).
  replace (THREE.getComponent k (THREE.max THREE.emptyBox)) with neg_Infinity
    by (destruct k as [|[|k]]; reflexivity).
  assert (Hne : exists c0, c0 ∈ cs).
  { destruct ps as [|p ps]; [simpl in Hlen; lia|].
    eexists. subst cs. cbn [map]. left. }
  split.
  - intros Hnn. destruct Hne as [c0 Hc0].
    destruct (fold_min_spec cs Infinity) as (_ & _ & Hlo & Hlo_in);
      [unfold Infinity; congruence | exact Hnn |].
    destruct (fold_max_spec cs neg_Infinity) as (_ & _ & Hhi & Hhi_in);
      [unfold neg_Infinity; congruence | exact Hnn |].
    unfold PlyLoader.isExtent. split; [|split].
    + destruct Hlo_in as [Heq|Hin]; [|exact Hin].
      pose proof (Hlo c0 Hc0) as Hle. rewrite Heq in Hle.
      apply SFleb_Infinity in Hle. rewrite Heq, <- Hle. exact Hc0.
    + destruct Hhi_in as [Heq|Hin]; [|exact Hin].
      pose proof (Hhi c0 Hc0) as Hle. rewrite Heq in Hle.
      apply SFleb_neg_Infinity in Hle. rewrite Heq, <- Hle. exact Hc0.
    + intros c Hc. split; [apply Hlo | apply Hhi]; exact Hc.
  - intros Hex. split; [apply fold_min_Exists_nan | apply fold_max_Exists_nan];
      exact Hex.
Qed.

End BoundingBox.

(** ** Errors *)

Section Errors.

Variable Math_exp : number -> number.

Lemma bind_Throw {A B} (r : result A) (k : A -> result B) e :
  bind r k = Throw e -> r = Throw e \/ exists a, r = Ok a /\ k a = Throw e.
Proof.
  destruct r as [a|e']; simpl; intros H.
  - right. exists a. auto.
  - left. apply Throw_inj in H. subst e'. reflexivity.
Qed.

Lemma offsetOf_Throw m n e : Header.offsetOf m n = Throw e -> engineError e.
Proof.
  unfold Header.offsetOf. destruct (m !! str n); intros H.
  - destruct (Ok_not_Throw _ _ H).
  - apply Throw_inj in H. subst e. left. reflexivity.
Qed.

Lemma getFloat32_Throw view off e : getFloat32 view off = Throw e -> engineError e.
Proof.
  unfold getFloat32.
  destruct ((off <? 0) || (byteLength view <? off + 4)); intros H.
  - apply Throw_inj in H. subst e. right. reflexivity.
  - destruct (take 4 (drop (Z.to_nat off) view)) as [|b0 [|b1 [|b2 [|b3 [|]]]]];
      try (apply Throw_inj in H; subst e; right; reflexivity).
    destruct (Ok_not_Throw _ _ H).
Qed.

Lemma getUint8_Throw view off e : getUint8 view off = Throw e -> engineError e.
Proof.
  unfold getUint8.
  destruct ((off <? 0) || (byteLength view <? off + 1)); intros H.
  - apply Throw_inj in H. subst e. right. reflexivity.
  - destruct (view !! Z.to_nat off).
    + destruct (Ok_not_Throw _ _ H).
    + apply Throw_inj in H. subst e. right. reflexivity.
Qed.

Lemma readFloat_Throw view m off n e :
  PlyLoader.readFloat view m off n = Throw e -> engineError e.
Proof.
  unfold PlyLoader.readFloat. intros H.
  apply bind_Throw in H as [H|(o & _ & H)];
    [eapply offsetOf_Throw, H | eapply getFloat32_Throw, H].
Qed.

Lemma readByte_Throw view m off n e :
  PlyLoader.readByte view m off n = Throw e -> engineError e.
Proof.
  unfold PlyLoader.readByte. intros H.
  apply bind_Throw in H as [H|(o & _ & H)];
    [eapply offsetOf_Throw, H | eapply getUint8_Throw, H].
Qed.

Ltac throw_cases H :=
  repeat (apply bind_Throw in H as [H|(? & _ & H)];
          [first [eapply readFloat_Throw, H | eapply readByte_Throw, H]|]).

Lemma readPoint_Throw view m stride sh sp i e :
  PlyLoader.readPoint Math_exp view m stride sh sp i = Throw e -> engineError e.
Proof.
  unfold PlyLoader.readPoint. intros H. throw_cases H.
  apply bind_Throw in H as [H|(c & _ & H)].
  - unfold PlyLoader.readColor in H. destruct sh; throw_cases H;
      destruct (Ok_not_Throw _ _ H).
  - apply bind_Throw in H as [H|([s r] & _ & H)]; [|destruct (Ok_not_Throw _ _ H)].
    unfold PlyLoader.readSplat in H. destruct sp; throw_cases H;
      destruct (Ok_not_Throw _ _ H).
Qed.

End Errors.

Section LoaderErrors.

Variable Math_exp : number -> number.

Lemma readPoints_Throw view m stride sh sp n : forall i e,
  PlyLoader.readPoints Math_exp view m stride sh sp n i = Throw e -> engineError e.
Proof.
  induction n as [|n IH]; intros i e H.
  - destruct (Ok_not_Throw _ _ H).
  - cbn [PlyLoader.readPoints] in H.
    apply bind_Throw in H as [H|(p & _ & H)]; [eapply readPoint_Throw, H|].
    apply bind_Throw in H as [H|(ps & _ & H)]; [eapply IH, H|].
    destruct (Ok_not_Throw _ _ H).
Qed.

Lemma newFloat32Array_Throw len e : newFloat32Array len = Throw e -> engineError e.
Proof.
  unfold newFloat32Array. destruct len as [n|]; intros H.
  - destruct ((n <? 0) || (9007199254740991 <? n)).
    + apply Throw_inj in H. subst e. right. reflexivity.
    + destruct (Ok_not_Throw _ _ H).
  - destruct (Ok_not_Throw _ _ H).
Qed.

Lemma newDataView_Throw buffer off e : newDataView buffer off = Throw e -> engineError e.
Proof.
  unfold newDataView. destruct ((off <? 0) || (byteLength buffer <? off)); intros H.
  - apply Throw_inj in H. subst e. right. reflexivity.
  - destruct (Ok_not_Throw _ _ H).
Qed.

(** The decoding pass throws none of the loader's own errors. *)
Lemma decodeBody_Throw buffer headerEnd h sh sp e :
  PlyLoader.decodeBody Math_exp buffer headerEnd h sh sp = Throw e -> engineError e.
Proof.
  unfold PlyLoader.decodeBody. intros H.
  apply bind_Throw in H as [H|(? & _ & H)]; [eapply newFloat32Array_Throw, H|].
  apply bind_Throw in H as [H|(? & _ & H)]; [eapply newFloat32Array_Throw, H|].
  apply bind_Throw in H as [H|(? & _ & H)]; [eapply newFloat32Array_Throw, H|].
  apply bind_Throw in H as [H|(? & _ & H)].
  { destruct sp; [|destruct (Ok_not_Throw _ _ H)].
    apply bind_Throw in H as [H|(? & _ & H)]; [eapply newFloat32Array_Throw, H|].
    destruct (Ok_not_Throw _ _ H). }
  apply bind_Throw in H as [H|(? & _ & H)].
  { destruct sp; [|destruct (Ok_not_Throw _ _ H)].
    apply bind_Throw in H as [H|(? & _ & H)]; [eapply newFloat32Array_Throw, H|].
    destruct (Ok_not_Throw _ _ H). }
  apply bind_Throw in H as [H|(? & _ & H)]; [eapply newDataView_Throw, H|].
  apply bind_Throw in H as [H|(? & _ & H)]; [|destruct (Ok_not_Throw _ _ H)].
  rewrite decodeLoop_read_store in H.
  apply bind_Throw in H as [H|(? & _ & H)]; [eapply readPoints_Throw, H|].
  destruct (Ok_not_Throw _ _ H).
Qed.

Lemma engineError_not_Error e m : engineError e -> e <> Error m.
Proof. intros [-> | ->]; discriminate. Qed.

(** C3 (as amended): once the header has passed the earlier checks (binary
    format, a point count other than 0, x, y and z present), the parser
    fails with the missing-colour error exactly when neither colour scheme
    is fully present; a header with both schemes passes the check.  No other
    error the loader throws can come after that check, and the message lists
    the names of the declared properties, in order, separated by ", ". *)
Theorem missing_color_iff_no_scheme buffer h :
  PlyLoader.headerOf buffer = Ok h ->
  Header.isBinary h = true ->
  Header.pointCount h <> Some 0 ->
  Header.hasPosition h = true ->
  (PlyLoader.parsePly Math_exp buffer
     = Throw (Error (PlyLoader.msgMissingColor (Header.properties h)))
   <-> Header.hasClassicColor h = false /\ Header.hasSHColor h = false)
  /\ (forall m, PlyLoader.parsePly Math_exp buffer = Throw (Error m) ->
        m = PlyLoader.msgMissingColor (Header.properties h))
  /\ PlyLoader.msgMissingColor (Header.properties h)
     = str "PLY file must contain color properties. Found: "
         ++ join (str ", ") (map Header.name (Header.properties h)).
Proof.
  intros Hhdr Hbin Hpc Hpos.
  unfold PlyLoader.headerOf in Hhdr.
  destruct (PlyLoader.headerText buffer) as [text|e0] eqn:Htext;
    [|destruct (Throw_not_Ok _ _ Hhdr)].
  cbn [bind] in Hhdr.
  assert (Hparse : PlyLoader.parsePly Math_exp buffer
            = if negb (Header.hasClassicColor h) && negb (Header.hasSHColor h)
              then Throw (Error (PlyLoader.msgMissingColor (Header.properties h)))
              else PlyLoader.decodeBody Math_exp buffer
                     (PlyLoader.headerEndOf text) h
                     (Header.hasSHColor h) (Header.hasSplat h)).
  { unfold PlyLoader.parsePly. rewrite Htext. cbn [bind]. rewrite Hhdr.
    cbn [bind]. rewrite Hbin, Hpos.
    cbn [negb]. rewrite bool_decide_eq_false_2 by exact Hpc. reflexivity. }
  rewrite Hparse.
  split; [|split; [|reflexivity]].
  - destruct (Header.hasClassicColor h), (Header.hasSHColor h); cbn [negb andb];
      split; try (intros [? ?]; discriminate); try (intros _; auto; fail);
      intros H; exfalso; apply decodeBody_Throw in H;
      eapply engineError_not_Error; eauto.
  - intros m H.
    destruct (negb (Header.hasClassicColor h) && negb (Header.hasSHColor h)).
    + apply Throw_inj in H. injection H. auto.
    + exfalso. apply decodeBody_Throw in H.
      eapply engineError_not_Error; eauto.
Qed.

End LoaderErrors.

(** ** A header without its end marker *)

Section ShortHeader.

Variable Math_exp : number -> number.

Lemma startsWith_length p : forall s, startsWith s p = true -> (length p <= length s)%nat.
Proof.
  induction p as [|a p IH]; intros s H; [simpl; lia|].
  destruct s as [|b s]; [discriminate H|].
  cbn [startsWith] in H. apply andb_true_iff in H as [_ H].
  apply IH in H. simpl. lia.
Qed.

Lemma split_lengths sep s :
  Forall (fun l => (length l <= length s)%nat) (split sep s).
Proof.
  induction s as [|c s IH]; [constructor; [simpl; lia | constructor]|].
  cbn [split]. destruct (N.eqb c sep).
  - constructor; [simpl; lia|].
    eapply Forall_impl; [exact IH|]. cbn beta. intros l Hl. simpl. lia.
  - destruct (split sep s) as [|l ls]; [constructor; [simpl; lia | constructor]|].
    apply Forall_cons in IH as [Hl Hls]. constructor; [simpl; lia|].
    eapply Forall_impl; [exact Hls|]. cbn beta. intros l' Hl'. simpl. lia.
Qed.

(** A line of at most ten characters can declare a property, and nothing
    else. *)
Lemma line_short h l :
  (length l <= 10)%nat ->
  Header.line h l = Throw TypeError
  \/ exists h', Header.line h l = Ok h' /\ Header.isBinary h' = Header.isBinary h.
Proof.
  intros Hl. unfold Header.line.
  destruct (startsWith l (str "element vertex")) eqn:E1.
  { apply startsWith_length in E1. simpl in E1. lia. }
  destruct (startsWith l (str "property")) eqn:E2.
  { destruct (split 32 l !! 2%nat); [right; eexists; split; reflexivity | left; reflexivity]. }
  destruct (startsWith l (str "format binary_little_endian")) eqn:E3.
  { apply startsWith_length in E3. simpl in E3. lia. }
  right. eexists. split; reflexivity.
Qed.

Lemma lines_short ls : forall h,
  Forall (fun l => (length l <= 10)%nat) ls ->
  Header.lines h ls = Throw TypeError
  \/ exists h', Header.lines h ls = Ok h' /\ Header.isBinary h' = Header.isBinary h.
Proof.
  induction ls as [|l ls IH]; intros h Hall.
  - right. exists h. split; reflexivity.
  - apply Forall_cons in Hall as [Hl Hall]. cbn [Header.lines].
    destruct (line_short h l Hl) as [-> | (h1 & -> & Hb1)]; [left; reflexivity|].
    cbn [bind]. destruct (IH h1 Hall) as [-> | (h' & -> & Hb')]; [left; reflexivity|].
    right. exists h'. split; [reflexivity | congruence].
Qed.

(** Without the marker in the header text the parser fails: with the
    unsupported-encoding error, unless a ten-character prefix declares a
    property with no name. *)
Lemma parsePly_no_marker buffer text :
  PlyLoader.headerText buffer = Ok text ->
  indexOf text (str "end_header") = -1 ->
  PlyLoader.parsePly Math_exp buffer = Throw TypeError
  \/ PlyLoader.parsePly Math_exp buffer
     = Throw (Error PlyLoader.msgUnsupportedEncoding).
Proof.
  intros Htext Hidx. unfold PlyLoader.parsePly. rewrite Htext. cbn [bind].
  unfold PlyLoader.headerLines, PlyLoader.headerEndOf. rewrite Hidx.
  change (-1 + 10 + 1) with 10.
  destruct (lines_short (split 10 (substring0 text 10)) Header.init)
    as [-> | (h & -> & Hb)].
  - eapply Forall_impl; [apply split_lengths|]. cbn beta. intros l Hl.
    unfold substring0 in Hl. rewrite length_take in Hl.
    change (Z.to_nat 10) with 10%nat in Hl. lia.
  - left. reflexivity.
  - right. cbn [bind]. rewrite Hb. reflexivity.
Qed.

Lemma headerText_Throw buffer e :
  PlyLoader.headerText buffer = Throw e ->
  e = RangeError /\ byteLength buffer < 10240.
Proof.
  unfold PlyLoader.headerText, newUint8Array, PlyLoader.headerWindow.
  change (1024 * 10) with 10240.
  destruct (Z.ltb_spec (byteLength buffer) 10240) as [Hlen|Hlen]; cbn [bind]; intros H.
  - apply Throw_inj in H. auto.
  - destruct (Ok_not_Throw _ _ H).
Qed.

Lemma headerText_Ok buffer text :
  PlyLoader.headerText buffer = Ok text ->
  text = TextDecoder.decode (take (Z.to_nat 10240) buffer)
  /\ 10240 <= byteLength buffer.
Proof.
  unfold PlyLoader.headerText, newUint8Array, PlyLoader.headerWindow.
  change (1024 * 10) with 10240.
  destruct (Z.ltb_spec (byteLength buffer) 10240) as [Hlen|Hlen]; cbn [bind]; intros H.
  - destruct (Throw_not_Ok _ _ H).
  - apply Ok_inj in H. auto.
Qed.

End ShortHeader.

(** ** The decoder keeps ASCII text where it is *)

Section Utf8.

Lemma lor_lower x y : 0 <= x -> 0 <= y -> x <= Z.lor x y /\ y <= Z.lor x y.
Proof.
  intros Hx Hy. split.
  - pose proof (Z.sub_lor_l_same_r y x) as H. rewrite Z.lor_comm in H.
    assert (0 <= Z.land y (Z.lnot x)) by (apply Z.land_nonneg; auto). lia.
  - pose proof (Z.sub_lor_l_same_r x y) as H.
    assert (0 <= Z.land x (Z.lnot y)) by (apply Z.land_nonneg; auto). lia.
Qed.

Lemma land_mask b k : 0 <= k -> Z.land b (Z.ones k) = b mod 2 ^ k.
Proof. apply Z.land_ones. Qed.

Lemma byte_range (b : byte) : 0 <= Z.of_N (Byte.to_N b) <= 255.
Proof. pose proof (Byte.to_N_bounded b). lia. Qed.

(** What [start] does with a byte. *)
Lemma start_cases b :
  0 <= b <= 255 ->
  (b <= 127 /\ TextDecoder.start b = ([b], TextDecoder.initial))
  \/ (128 <= b /\ TextDecoder.start b = ([TextDecoder.replacement], TextDecoder.initial))
  \/ (128 <= b /\ exists st, TextDecoder.start b = ([], st) /\ TextDecoder.openSequence st).
Proof.
  intros Hb. unfold TextDecoder.start.
  destruct (Z.leb_spec b 127); [left; auto|]. right.
  destruct (Z.leb_spec 194 b), (Z.leb_spec b 223); cbn [andb].
  1: { right. split; [lia|]. eexists. split; [reflexivity|].
       unfold TextDecoder.openSequence. cbn. change 31 with (Z.ones 5). rewrite land_mask by lia.
       change (2 ^ 5) with 32.
       repeat split; try lia; intros; Z.div_mod_to_equations; lia. }
  all: destruct (Z.leb_spec 224 b), (Z.leb_spec b 239); cbn [andb].
  all: try (right; split; [lia|]; eexists; split; [reflexivity|];
    unfold TextDecoder.openSequence; cbn; change 15 with (Z.ones 4); rewrite land_mask by lia;
    change (2 ^ 4) with 16;
    destruct (Z.eqb_spec b 224), (Z.eqb_spec b 237);
    repeat split; try lia; intros; Z.div_mod_to_equations; lia).
  all: destruct (Z.leb_spec 240 b), (Z.leb_spec b 244); cbn [andb].
  all: try (right; split; [lia|]; eexists; split; [reflexivity|];
    unfold TextDecoder.openSequence; cbn; change 7 with (Z.ones 3); rewrite land_mask by lia;
    change (2 ^ 3) with 8;
    destruct (Z.eqb_spec b 240), (Z.eqb_spec b 244);
    repeat split; try lia; intros; Z.div_mod_to_equations; lia).
  all: left; split; [lia | reflexivity].
Qed.

Lemma step_initial b : TextDecoder.step TextDecoder.initial b = TextDecoder.start b.
Proof. reflexivity. Qed.

(** What [step] does with a byte while a sequence is open. *)
Lemma step_cases st b :
  TextDecoder.openSequence st -> 0 <= b <= 255 ->
  TextDecoder.step st b
    = (TextDecoder.replacement :: fst (TextDecoder.start b), snd (TextDecoder.start b))
  \/ (exists cp, 128 <= cp /\ TextDecoder.step st b = ([cp], TextDecoder.initial))
  \/ (exists st', TextDecoder.openSequence st' /\ TextDecoder.step st b = ([], st')).
Proof.
  intros (Hn & Hr & Hcp & Hlo & Hup & H1 & H2) Hb. unfold TextDecoder.step.
  destruct (Z.eqb_spec (TextDecoder.bytes_needed st) 0); [contradiction|].
  destruct (Z.ltb_spec b (TextDecoder.lower st)); cbn [orb].
  { left. destruct (TextDecoder.start b). reflexivity. }
  destruct (Z.ltb_spec (TextDecoder.upper st) b).
  { left. destruct (TextDecoder.start b). reflexivity. }
  right.
  set (cp := Z.lor (Z.shiftl (TextDecoder.code_point st) 6) (Z.land b 63)).
  assert (Hshift : Z.shiftl (TextDecoder.code_point st) 6
                   = TextDecoder.code_point st * 64).
  { rewrite Z.shiftl_mul_pow2 by lia. reflexivity. }
  assert (Hland : Z.land b 63 = b mod 64).
  { change 63 with (Z.ones 6). rewrite land_mask by lia. reflexivity. }
  assert (Hlow : TextDecoder.code_point st * 64 <= cp /\ b mod 64 <= cp).
  { rewrite <- Hshift, <- Hland. apply lor_lower.
    - rewrite Hshift. lia.
    - rewrite Hland. apply Z.mod_pos_bound. lia. }
  assert (Hb64 : 144 <= TextDecoder.lower st -> 16 <= b mod 64).
  { intros. Z.div_mod_to_equations. lia. }
  destruct (Z.eqb_spec (TextDecoder.bytes_seen st + 1) (TextDecoder.bytes_needed st)).
  - left. exists cp. split; [|reflexivity].
    assert (2 <= TextDecoder.code_point st) by (apply H1; lia). lia.
  - right. eexists. split; [|reflexivity].
    unfold TextDecoder.openSequence. cbn. fold cp.
    assert (Hcp2 : 2 <= cp) by (destruct H2 as [|]; [lia | lia | lia]).
    repeat split; try lia.
Qed.

Lemma utf16_nonascii cp :
  128 <= cp -> TextDecoder.nonAscii (TextDecoder.utf16 cp) /\ TextDecoder.utf16 cp <> [].
Proof.
  intros Hcp. unfold TextDecoder.utf16, TextDecoder.nonAscii.
  destruct (Z.ltb_spec cp 65536).
  - split; [|discriminate]. repeat constructor. lia.
  - split; [|discriminate].
    assert (0 <= Z.shiftr (cp - 65536) 10) by (apply Z.shiftr_nonneg; lia).
    assert (0 <= Z.land (cp - 65536) 1023) by (apply Z.land_nonneg; lia).
    repeat constructor; lia.
Qed.

Lemma utf16_ascii b : 0 <= b <= 127 -> TextDecoder.utf16 b = [Z.to_N b].
Proof.
  intros Hb. unfold TextDecoder.utf16.
  destruct (Z.ltb_spec b 65536); [reflexivity | lia].
Qed.

Lemma units_cons st b bs :
  TextDecoder.units st (b :: bs)
  = flat_map TextDecoder.utf16 (fst (TextDecoder.step st (Z.of_N (Byte.to_N b))))
    ++ TextDecoder.units (snd (TextDecoder.step st (Z.of_N (Byte.to_N b)))) bs.
Proof.
  unfold TextDecoder.units. cbn [TextDecoder.run].
  destruct (TextDecoder.step st (Z.of_N (Byte.to_N b))) as [out st'].
  rewrite flat_map_app. reflexivity.
Qed.

(** From an open sequence the decoder first emits at least one unit, none of
    them ASCII, and then goes on from the initial state on a suffix. *)
Lemma units_open bs : forall st,
  TextDecoder.openSequence st ->
  exists na bs1 bs2,
    bs = bs1 ++ bs2 /\ TextDecoder.nonAscii na /\ na <> []
    /\ TextDecoder.units st bs = na ++ TextDecoder.units TextDecoder.initial bs2.
Proof.
  induction bs as [|b bs IH]; intros st Hst.
  - exists [65533%N], [], []. split; [reflexivity|].
    split; [repeat constructor; lia|]. split; [discriminate|].
    unfold TextDecoder.units. cbn [TextDecoder.run].
    destruct Hst as (Hn & _).
    destruct (Z.eqb_spec (TextDecoder.bytes_needed st) 0); [contradiction|].
    reflexivity.
  - rewrite units_cons.
    destruct (step_cases st _ Hst (byte_range b)) as [E | [(cp & Hcp & E) | (st' & Hst' & E)]];
      rewrite E; cbn [fst snd].
    + exists [65533%N], [], (b :: bs). split; [reflexivity|].
      split; [repeat constructor; lia|]. split; [discriminate|].
      rewrite (units_cons TextDecoder.initial).
      change (TextDecoder.step TextDecoder.initial (Z.of_N (Byte.to_N b)))
        with (TextDecoder.start (Z.of_N (Byte.to_N b))).
      cbn [flat_map]. change (TextDecoder.utf16 TextDecoder.replacement) with [65533%N].
      reflexivity.
    + destruct (utf16_nonascii cp Hcp) as [Hna Hne].
      exists (TextDecoder.utf16 cp), [b], bs. split; [reflexivity|].
      split; [exact Hna|]. split; [exact Hne|].
      cbn [flat_map]. rewrite app_nil_r. reflexivity.
    + destruct (IH st' Hst') as (na & bs1 & bs2 & -> & Hna & Hne & Hu).
      exists na, (b :: bs1), bs2. split; [reflexivity|].
      split; [exact Hna|]. split; [exact Hne|]. exact Hu.
Qed.

(** The same from the initial state, on a byte that is not ASCII. *)
Lemma units_initial_high b bs :
  128 <= Z.of_N (Byte.to_N b) ->
  exists na bs1 bs2,
    bs = bs1 ++ bs2 /\ TextDecoder.nonAscii na /\ na <> []
    /\ TextDecoder.units TextDecoder.initial (b :: bs) = na ++ TextDecoder.units TextDecoder.initial bs2.
Proof.
  intros Hb. rewrite units_cons.
  change (TextDecoder.step TextDecoder.initial (Z.of_N (Byte.to_N b)))
    with (TextDecoder.start (Z.of_N (Byte.to_N b))).
  destruct (start_cases _ (byte_range b)) as [[H _] | [[_ E] | [_ (st & E & Hst)]]];
    [lia | |]; rewrite E; cbn [fst snd].
  - exists [65533%N], [], bs. split; [reflexivity|].
    split; [repeat constructor; lia|]. split; [discriminate|]. reflexivity.
  - destruct (units_open bs st Hst) as (na & bs1 & bs2 & Hbs & Hna & Hne & Hu).
    exists na, bs1, bs2. auto.
Qed.

Lemma units_initial_ascii b bs :
  Z.of_N (Byte.to_N b) <= 127 ->
  TextDecoder.units TextDecoder.initial (b :: bs) = Byte.to_N b :: TextDecoder.units TextDecoder.initial bs.
Proof.
  intros Hb. rewrite units_cons.
  change (TextDecoder.step TextDecoder.initial (Z.of_N (Byte.to_N b)))
    with (TextDecoder.start (Z.of_N (Byte.to_N b))).
  destruct (start_cases _ (byte_range b)) as [[_ E] | [[H _] | [H _]]]; [|lia|lia].
  rewrite E. cbn [fst snd flat_map]. rewrite utf16_ascii by (pose proof (byte_range b); lia).
  rewrite N2Z.id. reflexivity.
Qed.

Lemma occurs_cons u s p :
  occurs (u :: s) p = startsWith (u :: s) p || occurs s p.
Proof. reflexivity. Qed.

Lemma occurs_app_r s1 s2 p : occurs s2 p = true -> occurs (s1 ++ s2) p = true.
Proof.
  intros H. induction s1 as [|u s1 IH]; [exact H|].
  cbn [app]. rewrite occurs_cons, IH. apply orb_true_r.
Qed.

Lemma occurs_skip_nonascii na R c p :
  TextDecoder.nonAscii na -> (c < 128)%N -> occurs (na ++ R) (c :: p) = occurs R (c :: p).
Proof.
  intros Hna Hc. induction Hna as [|u na Hu _ IH]; [reflexivity|].
  cbn [app]. rewrite occurs_cons, IH. cbn [startsWith].
  destruct (N.eqb_spec c u); [lia | reflexivity].
Qed.

Lemma startsWith_units p : forall bs,
  Forall (fun c => (c < 128)%N) p ->
  startsWith (TextDecoder.units TextDecoder.initial bs) p = true ->
  startsWith (map Byte.to_N bs) p = true.
Proof.
  induction p as [|c p IH]; intros bs Hp H; [destruct (map to_N bs); reflexivity|].
  apply Forall_cons in Hp as [Hc Hp].
  destruct bs as [|b bs]; [discriminate H|].
  destruct (Z.le_gt_cases (Z.of_N (Byte.to_N b)) 127) as [Hb|Hb].
  - rewrite units_initial_ascii in H by exact Hb.
    cbn [map startsWith] in *. apply andb_true_iff in H as [-> H].
    apply IH; assumption.
  - destruct (units_initial_high b bs ltac:(lia))
      as (na & bs1 & bs2 & _ & Hna & Hne & Hu).
    rewrite Hu in H. destruct Hna as [|u na Hu' _]; [contradiction|].
    cbn [app startsWith] in H.
    destruct (N.eqb_spec c u); [lia | discriminate H].
Qed.

Lemma occurs_units n : forall bs c p,
  (length bs <= n)%nat ->
  Forall (fun c => (c < 128)%N) (c :: p) ->
  occurs (TextDecoder.units TextDecoder.initial bs) (c :: p) = true ->
  occurs (map Byte.to_N bs) (c :: p) = true.
Proof.
  induction n as [|n IH]; intros bs c p Hlen Hp H.
  - destruct bs; [discriminate H | simpl in Hlen; lia].
  - destruct bs as [|b bs]; [discriminate H|].
    destruct (Z.le_gt_cases (Z.of_N (Byte.to_N b)) 127) as [Hb|Hb].
    + cbn [map]. rewrite occurs_cons.
      pose proof (startsWith_units (c :: p) (b :: bs) Hp) as Hstart.
      rewrite units_initial_ascii in H, Hstart by exact Hb.
      rewrite occurs_cons in H. apply orb_true_iff in H as [H|H].
      * cbn [map] in Hstart. rewrite (Hstart H). reflexivity.
      * rewrite (IH bs c p) by (simpl in Hlen; auto with lia). apply orb_true_r.
    + destruct (units_initial_high b bs ltac:(lia))
        as (na & bs1 & bs2 & -> & Hna & _ & Hu).
      rewrite Hu in H. apply Forall_cons in Hp as Hp'. destruct Hp' as [Hc _].
      rewrite occurs_skip_nonascii in H by assumption.
      change (b :: bs1 ++ bs2) with ((b :: bs1) ++ bs2). rewrite map_app.
      apply occurs_app_r. apply IH; [|exact Hp | exact H].
      simpl in Hlen. rewrite length_app in Hlen. lia.
Qed.

Lemma decode_units bs p :
  occurs (TextDecoder.decode bs) p = true ->
  occurs (TextDecoder.units TextDecoder.initial bs) p = true.
Proof.
  unfold TextDecoder.decode, TextDecoder.units, TextDecoder.stripBOM.
  destruct (TextDecoder.run TextDecoder.initial bs) as [|cp cps]; [auto|].
  destruct (Z.eq_dec cp 65279) as [->|Hne].
  - intros H. cbn [flat_map].
    change (TextDecoder.utf16 65279) with [65279%N]. cbn [app].
    rewrite occurs_cons, H. apply orb_true_r.
  - destruct cp as [|[q|q|]|q]; auto.
    repeat (destruct q as [q|q|]; auto); congruence.
Qed.

Lemma indexOf_from_absent p s : forall i,
  occurs s p = false -> indexOf_from s p i = -1.
Proof.
  induction s as [|u s IH]; intros i H.
  - cbn [occurs indexOf_from] in *. apply orb_false_iff in H as [-> _]. reflexivity.
  - rewrite occurs_cons in H. apply orb_false_iff in H as [H1 H2].
    cbn [indexOf_from]. rewrite H1. apply IH, H2.
Qed.

(** An ASCII text that does not occur in the bytes does not occur in the
    decoded text either. *)
Lemma decode_absent bs c p :
  Forall (fun c => (c < 128)%N) (c :: p) ->
  occurs (map Byte.to_N bs) (c :: p) = false ->
  indexOf (TextDecoder.decode bs) (c :: p) = -1.
Proof.
  intros Hp H. apply indexOf_from_absent.
  destruct (occurs (TextDecoder.decode bs) (c :: p)) eqn:E; [|reflexivity].
  apply decode_units in E. apply (occurs_units (length bs)) in E; [|lia|exact Hp].
  congruence.
Qed.

End Utf8.

Section MissingMarker.

Variable Math_exp : number -> number.
Variable typeErrorMessage rangeErrorMessage : jsstring.

Lemma kindOf_never_header e : PlyLoader.kindOf e <> Some PlyLoader.HeaderTooLargeOrMissing.
Proof.
  unfold PlyLoader.kindOf. destruct e as [m| |]; try discriminate.
  repeat (match goal with |- context [if ?b then _ else _] => destruct b end;
          try discriminate).
Qed.

Lemma noMarker_indexOf buffer text :
  PlyLoader.noMarker buffer ->
  PlyLoader.headerText buffer = Ok text ->
  indexOf text (str "end_header") = -1.
Proof.
  intros Hno Htext. apply headerText_Ok in Htext as [-> _].
  unfold PlyLoader.noMarker, PlyLoader.marker, PlyLoader.headerWindow in Hno.
  apply decode_absent; [|exact Hno].
  repeat constructor.
Qed.

(** C2 (as amended): a file whose first 10 KiB hold no [end_header] never
    parses.  The loader has no error of its own for this: the failure is the
    unsupported-encoding error, unless the engine raises an error first,
    and the load handler is then left without a dataset. *)
Theorem missing_marker_fails buffer s :
  PlyLoader.noMarker buffer ->
  (exists e,
     PlyLoader.parsePly Math_exp buffer = Throw e
     /\ (e = Error PlyLoader.msgUnsupportedEncoding \/ engineError e)
     /\ PlyLoader.kindOf e <> Some PlyLoader.HeaderTooLargeOrMissing)
  /\ (byteLength buffer < 10240 ->
      PlyLoader.parsePly Math_exp buffer = Throw RangeError)
  /\ App.plyData
       (App.handleLoad Math_exp typeErrorMessage rangeErrorMessage s
          (Readable buffer))
     = None.
Proof.
  intros Hno.
  assert (Hthrow : exists e,
            PlyLoader.parsePly Math_exp buffer = Throw e
            /\ (e = Error PlyLoader.msgUnsupportedEncoding \/ engineError e)).
  { destruct (PlyLoader.headerText buffer) as [text|e] eqn:Htext.
    - pose proof (noMarker_indexOf _ _ Hno Htext) as Hidx.
      destruct (parsePly_no_marker Math_exp _ _ Htext Hidx) as [H|H];
        rewrite H; eexists; (split; [reflexivity|]);
        [right; left; reflexivity | left; reflexivity].
    - exists e. unfold PlyLoader.parsePly. rewrite Htext. split; [reflexivity|].
      apply headerText_Throw in Htext as [-> _]. right. right. reflexivity. }
  destruct Hthrow as (e & He & Hkind).
  split; [exists e; split; [exact He|]; split; [exact Hkind | apply kindOf_never_header]|].
  split.
  - intros Hlen. unfold PlyLoader.parsePly.
    destruct (PlyLoader.headerText buffer) as [text|e'] eqn:Htext.
    + apply headerText_Ok in Htext as [_ Hge]. lia.
    + apply headerText_Throw in Htext as [-> _]. reflexivity.
  - unfold App.handleLoad. cbn [PlyLoader.loadPly]. rewrite He. reflexivity.
Qed.

End MissingMarker.

(** ** The properties on the sample files *)

(** C2, as stated, fails: ten KiB of zero bytes hold no [end_header], and
    the parser fails with the unsupported-encoding error, not with a
    header error. *)
Lemma zeros_fail_as_unsupported_encoding :
  PlyLoader.noMarker Samples.fileZeros
  /\ PlyLoader.parsePly Samples.exp0 Samples.fileZeros
     = Throw (Error PlyLoader.msgUnsupportedEncoding)
  /\ PlyLoader.kindOf (Error PlyLoader.msgUnsupportedEncoding)
     = Some PlyLoader.UnsupportedEncoding.
Proof. repeat split; vm_compute; reflexivity. Qed.

Lemma missing_marker_witness :
  PlyLoader.noMarker Samples.fileZeros
  /\ App.plyData
       (App.handleLoad Samples.exp0 [] []
          (App.setPlyData (Some Samples.data246) App.initialState)
          (Readable Samples.fileZeros))
     = None.
Proof.
  split.
  - vm_compute. reflexivity.
  - apply (missing_marker_fails Samples.exp0 [] [] Samples.fileZeros
             (App.setPlyData (Some Samples.data246) App.initialState)).
    vm_compute. reflexivity.
Defined.

(** C3, as stated, fails: a header with both colour schemes parses. *)
Lemma both_schemes_do_not_fail :
  PlyLoader.headerOf (Samples.fileBoth x01 x02 x03) = Ok Samples.headerBoth
  /\ Header.hasClassicColor Samples.headerBoth = true
  /\ Header.hasSHColor Samples.headerBoth = true
  /\ PlyLoader.parsePly Samples.exp0 (Samples.fileBoth x01 x02 x03)
     = Ok Samples.dataBoth.
Proof. repeat split; vm_compute; reflexivity. Qed.

Lemma missing_color_witness :
  PlyLoader.headerOf Samples.fileNoColor = Ok Samples.headerNoColor
  /\ PlyLoader.parsePly Samples.exp0 Samples.fileNoColor
     = Throw (Error (PlyLoader.msgMissingColor
                       (Header.properties Samples.headerNoColor))).
Proof.
  split.
  - vm_compute. reflexivity.
  - apply (missing_color_iff_no_scheme Samples.exp0 Samples.fileNoColor
             Samples.headerNoColor);
      try (vm_compute; reflexivity).
    + vm_compute. discriminate.
    + split; vm_compute; reflexivity.
Defined.

(** C4, as stated, fails: the first entry stored for the raw quaternion
    (3, 0, 0, 4) is [rot_3 / L = 0.8], not [rot_0 / L = 0.6]. *)
Lemma quaternion_3004_is_reordered :
  PlyLoader.rawFloat Samples.fileQuat 0 "rot_0" = Ok (of_Z 3)
  /\ PlyLoader.rawFloat Samples.fileQuat 0 "rot_3" = Ok (of_Z 4)
  /\ PlyLoader.parsePly Samples.exp0 Samples.fileQuat = Ok Samples.dataQuat
  /\ rotations Samples.dataQuat
     = Some [Math_fround (div (of_Z 4) (of_Z 5));
             Math_fround (div (of_Z 3) (of_Z 5)); zero; zero]
  /\ Math_fround (div (of_Z 4) (of_Z 5)) <> Math_fround (div (of_Z 3) (of_Z 5)).
Proof.
  repeat split; try (vm_compute; reflexivity).
  vm_compute. discriminate.
Qed.

Lemma rotations_witness :
  PlyLoader.parsePly Samples.exp0 Samples.fileQuat = Ok Samples.dataQuat
  /\ exists q0 q1 q2 q3,
       PlyLoader.rawFloat Samples.fileQuat 0 "rot_0" = Ok q0
       /\ PlyLoader.rawFloat Samples.fileQuat 0 "rot_1" = Ok q1
       /\ PlyLoader.rawFloat Samples.fileQuat 0 "rot_2" = Ok q2
       /\ PlyLoader.rawFloat Samples.fileQuat 0 "rot_3" = Ok q3
       /\ let L := Math_sqrt (add (add (add (mul q0 q0) (mul q1 q1)) (mul q2 q2))
                                 (mul q3 q3)) in
          default [] (rotations Samples.dataQuat) !! 0%nat
            = Some (Math_fround (div q3 L))
          /\ default [] (rotations Samples.dataQuat) !! 1%nat
             = Some (Math_fround (div q0 L))
          /\ default [] (rotations Samples.dataQuat) !! 2%nat
             = Some (Math_fround (div q1 L))
          /\ default [] (rotations Samples.dataQuat) !! 3%nat
             = Some (Math_fround (div q2 L)).
Proof.
  split.
  - vm_compute. reflexivity.
  - apply (proj1 (rotations_normalized_rot3_first Samples.exp0)
             Samples.fileQuat Samples.dataQuat
             (default [] (rotations Samples.dataQuat)) 0%nat).
    + vm_compute. reflexivity.
    + reflexivity.
    + vm_compute. lia.
Defined.

Lemma elevations_witness :
  PlyLoader.parsePly Samples.exp0 Samples.file246 = Ok Samples.data246
  /\ exists ys,
       length ys = PlyLoader.iterations (pointCount Samples.data246)
       /\ (forall (i : nat) y, ys !! i = Some y ->
             PlyLoader.rawFloat Samples.file246 (Z.of_nat i) "y" = Ok y)
       /\ let lo := PlyLoader.runningMin ys Infinity in
          let hi := PlyLoader.runningMax ys neg_Infinity in
          (forall y, y ∈ ys -> y <> NaN -> leb lo y = true /\ leb y hi = true)
          /\ (forall y, y ∈ ys -> y <> NaN -> lo ∈ ys /\ hi ∈ ys)
          /\ (ltb (S754_finite false 4722366482869645 (-72)) (sub hi lo) = true ->
              forall (i : nat) y, ys !! i = Some y ->
                elevations Samples.data246 !! i
                = Some (Math_fround (div (sub y lo) (sub hi lo))))
          /\ (ltb (S754_finite false 4722366482869645 (-72)) (sub hi lo) = false ->
              forall (i : nat), (i < length ys)%nat ->
                elevations Samples.data246 !! i = Some half).
Proof.
  assert (H : PlyLoader.parsePly Samples.exp0 Samples.file246 = Ok Samples.data246)
    by (vm_compute; reflexivity).
  split; [exact H|].
  exact (proj1 (proj2 (elevations_normalized Samples.exp0))
           Samples.file246 Samples.data246 H).
Defined.

(** C6, as stated for every parsed input, fails on a file with a NaN
    coordinate: of the x values 1, NaN and -1 the box keeps NaN as both
    [min] and [max], which is not below or above any of them. *)
Lemma nan_coordinate_gives_nan_box :
  PlyLoader.parsePly Samples.exp0 Samples.fileNaNx = Ok Samples.dataNaNx
  /\ pointCount Samples.dataNaNx = Some 3
  /\ PlyLoader.axis 0 (positions Samples.dataNaNx) 3 = [one; NaN; neg one]
  /\ THREE.getComponent 0 (THREE.min (boundingBox Samples.dataNaNx)) = NaN
  /\ THREE.getComponent 0 (THREE.max (boundingBox Samples.dataNaNx)) = NaN
  /\ ~ PlyLoader.isExtent
         (THREE.getComponent 0 (THREE.min (boundingBox Samples.dataNaNx)))
         (THREE.getComponent 0 (THREE.max (boundingBox Samples.dataNaNx)))
         (PlyLoader.axis 0 (positions Samples.dataNaNx) 3).
Proof.
  repeat split; try (vm_compute; reflexivity).
  intros (_ & _ & H).
  destruct (H one) as [Hle _].
  - vm_compute. left.
  - vm_compute in Hle. discriminate Hle.
Qed.

Lemma boundingBox_witness :
  PlyLoader.parsePly Samples.exp0 Samples.file246 = Ok Samples.data246
  /\ PlyLoader.isExtent (of_Z 2) (of_Z 6)
       (PlyLoader.axis 1 (positions Samples.data246) 3).
Proof.
  split.
  - vm_compute. reflexivity.
  - apply (boundingBox_is_extent Samples.exp0 Samples.file246 Samples.data246 3 1).
    + vm_compute. reflexivity.
    + reflexivity.
    + lia.
    + lia.
    + vm_compute. repeat constructor; discriminate.
Defined.




(* ===================================================================== *)
(** * Further properties of the code *)
(* ===================================================================== *)

(** ** The header loop *)

Ltac eval_str :=
  repeat match goal with
  | |- context [str ?s] =>
      let v := eval vm_compute in (str s) in change (str s) with v
  end.

Section HeaderLoop.

Lemma line_cases h l h' :
  Header.line h l = Ok h' ->
  (Header.isVertexLine l = true
   /\ h' = {| Header.pointCount := parseInt_opt (split 32 l !! 2%nat);
              Header.isBinary := Header.isBinary h;
              Header.properties := Header.properties h;
              Header.currentOffset := Header.currentOffset h |})
  \/ (Header.isVertexLine l = false
      /\ startsWith l (str "property") = true
      /\ exists nm,
           split 32 l !! 2%nat = Some nm
           /\ h' = {| Header.pointCount := Header.pointCount h;
                      Header.isBinary := Header.isBinary h;
                      Header.properties := Header.properties h ++
                        [{| Header.name := trim nm;
                            Header.type := split 32 l !! 1%nat;
                            Header.offset := Header.currentOffset h |}];
                      Header.currentOffset :=
                        Header.currentOffset h
                        + Header.typeSize (split 32 l !! 1%nat) |})
  \/ (Header.isVertexLine l = false
      /\ startsWith l (str "property") = false
      /\ Header.isFormatLine l = true
      /\ h' = {| Header.pointCount := Header.pointCount h;
                 Header.isBinary := true;
                 Header.properties := Header.properties h;
                 Header.currentOffset := Header.currentOffset h |})
  \/ (Header.isVertexLine l = false
      /\ startsWith l (str "property") = false
      /\ Header.isFormatLine l = false
      /\ h' = h).
Proof.
  unfold Header.line, Header.isVertexLine, Header.isFormatLine.
  destruct (startsWith l (str "element vertex")).
  { intros H. apply Ok_inj in H. left. split; [reflexivity | congruence]. }
  destruct (startsWith l (str "property")).
  { destruct (split 32 l !! 2%nat) as [nm|]; intros H.
    - apply Ok_inj in H. right; left. split; [reflexivity|]. split; [reflexivity|].
      exists nm. split; [reflexivity | congruence].
    - destruct (Throw_not_Ok _ _ H). }
  destruct (startsWith l (str "format binary_little_endian")).
  { intros H. apply Ok_inj in H. right; right; left. repeat split; congruence. }
  intros H. apply Ok_inj in H. right; right; right. repeat split; congruence.
Qed.

Lemma lines_cons h l ls h' :
  Header.lines h (l :: ls) = Ok h' ->
  exists h1, Header.line h l = Ok h1 /\ Header.lines h1 ls = Ok h'.
Proof.
  cbn [Header.lines]. intros H. apply bind_Ok in H. exact H.
Qed.

(** An invariant of the loop holds at its end. *)
Lemma lines_invariant (I : Header.t -> Prop) :
  (forall h l h', I h -> Header.line h l = Ok h' -> I h') ->
  forall ls h h', I h -> Header.lines h ls = Ok h' -> I h'.
Proof.
  intros Hstep ls. induction ls as [|l ls IH]; intros h h' Hh Hl.
  - cbn [Header.lines] in Hl. apply Ok_inj in Hl. subst. exact Hh.
  - apply lines_cons in Hl as (h1 & H1 & H2). eauto.
Qed.

Lemma format_line_exclusive l :
  Header.isFormatLine l = true ->
  Header.isVertexLine l = false /\ startsWith l (str "property") = false.
Proof.
  unfold Header.isFormatLine, Header.isVertexLine. eval_str.
  destruct l as [|c l]; [discriminate|].
  cbn [startsWith].
  destruct (N.eqb_spec 102 c) as [<-|]; [|discriminate].
  intros _. split; reflexivity.
Qed.

(** [isBinary] is set by a format line and by nothing else, and is never
    cleared. *)
Lemma lines_isBinary ls : forall h h',
  Header.lines h ls = Ok h' ->
  Header.isBinary h' = Header.isBinary h || existsb Header.isFormatLine ls.
Proof.
  induction ls as [|l ls IH]; intros h h' Hl.
  - cbn [Header.lines] in Hl. apply Ok_inj in Hl. subst.
    cbn [existsb]. rewrite orb_false_r. reflexivity.
  - apply lines_cons in Hl as (h1 & H1 & H2).
    rewrite (IH _ _ H2). cbn [existsb].
    apply line_cases in H1
      as [(Hv & ->)|[(Hv & Hp & nm & _ & ->)|[(Hv & Hp & Hf & ->)|(Hv & Hp & Hf & ->)]]];
      cbn [Header.isBinary].
    + destruct (Header.isFormatLine l) eqn:Hf.
      * apply format_line_exclusive in Hf as [Hf _]. congruence.
      * reflexivity.
    + destruct (Header.isFormatLine l) eqn:Hf.
      * apply format_line_exclusive in Hf as [_ Hf]. congruence.
      * reflexivity.
    + rewrite Hf. rewrite orb_true_r. reflexivity.
    + rewrite Hf. reflexivity.
Qed.

(** [pointCount] is what the last vertex line gave, 0 when there is none. *)
Lemma lines_pointCount_none ls : forall h h',
  Header.lines h ls = Ok h' ->
  existsb Header.isVertexLine ls = false ->
  Header.pointCount h' = Header.pointCount h.
Proof.
  induction ls as [|l ls IH]; intros h h' Hl Hex.
  - cbn [Header.lines] in Hl. apply Ok_inj in Hl. subst. reflexivity.
  - apply lines_cons in Hl as (h1 & H1 & H2).
    cbn [existsb] in Hex. apply orb_false_iff in Hex as [Hv Hex].
    rewrite (IH _ _ H2 Hex).
    apply line_cases in H1
      as [(Hv' & ->)|[(_ & _ & nm & _ & ->)|[(_ & _ & _ & ->)|(_ & _ & _ & ->)]]];
      [congruence | reflexivity..].
Qed.

Lemma line_Throw h l e : Header.line h l = Throw e -> e = TypeError.
Proof.
  unfold Header.line.
  destruct (startsWith l (str "element vertex")).
  { intros H. destruct (Ok_not_Throw _ _ H). }
  destruct (startsWith l (str "property")).
  { destruct (split 32 l !! 2%nat); intros H.
    - destruct (Ok_not_Throw _ _ H).
    - apply Throw_inj in H. congruence. }
  destruct (startsWith l (str "format binary_little_endian"));
    intros H; destruct (Ok_not_Throw _ _ H).
Qed.

Lemma lines_Throw ls : forall h e, Header.lines h ls = Throw e -> e = TypeError.
Proof.
  induction ls as [|l ls IH]; intros h e H; cbn [Header.lines] in H.
  - destruct (Ok_not_Throw _ _ H).
  - apply bind_Throw in H as [H|(h1 & _ & H)].
    + eapply line_Throw, H.
    + eapply IH, H.
Qed.

Lemma typeSize_range ty : 1 <= Header.typeSize ty <= 8.
Proof.
  unfold Header.typeSize.
  destruct (Header.typeIs ty "float" || Header.typeIs ty "int32"); [lia|].
  destruct (Header.typeIs ty "uchar"); [lia|].
  destruct (Header.typeIs ty "double"); lia.
Qed.

Lemma sizes_app ps qs : Header.sizes (ps ++ qs) = Header.sizes ps + Header.sizes qs.
Proof.
  induction ps as [|p ps IH]; cbn [Header.sizes foldr app].
  - unfold Header.sizes. cbn [foldr]. lia.
  - fold (Header.sizes (ps ++ qs)). fold (Header.sizes ps). rewrite IH. lia.
Qed.

Lemma packed_app ps : forall start p,
  Header.packed start ps ->
  Header.offset p = start + Header.sizes ps ->
  Header.packed start (ps ++ [p]).
Proof.
  induction ps as [|q ps IH]; intros start p Hp Ho; cbn [app Header.packed].
  - unfold Header.sizes in Ho. cbn [foldr] in Ho. split; [lia | exact I].
  - destruct Hp as [Hq Hp]. split; [exact Hq|].
    apply IH; [exact Hp|].
    rewrite Ho. unfold Header.sizes. cbn [foldr]. lia.
Qed.

Lemma packed_within ps : forall start p,
  Header.packed start ps -> p ∈ ps ->
  start <= Header.offset p
  /\ Header.offset p + Header.typeSize (Header.type p) <= start + Header.sizes ps.
Proof.
  induction ps as [|q ps IH]; intros start p Hp Hin.
  - apply elem_of_nil in Hin. destruct Hin.
  - destruct Hp as [Hq Hp].
    assert (Hs : 0 <= Header.sizes ps).
    { clear. induction ps as [|r ps IH]; unfold Header.sizes; cbn [foldr]; [lia|].
      fold (Header.sizes ps). pose proof (typeSize_range (Header.type r)). lia. }
    pose proof (typeSize_range (Header.type q)) as Hr.
    unfold Header.sizes. cbn [foldr]. fold (Header.sizes ps).
    apply elem_of_cons in Hin as [->|Hin].
    + lia.
    + destruct (IH _ _ Hp Hin). lia.
Qed.

End HeaderLoop.

Section HeaderLayout.

(** X1: the header loop lays the properties out one after the other. *)
Theorem header_offsets_packed ls h :
  Header.lines Header.init ls = Ok h ->
  Header.packed 0 (Header.properties h)
  /\ Header.currentOffset h = Header.sizes (Header.properties h)
  /\ forall p, p ∈ Header.properties h ->
        0 <= Header.offset p
        /\ Header.offset p + Header.typeSize (Header.type p)
           <= Header.currentOffset h.
Proof.
  intros Hl.
  assert (HI : Header.packed 0 (Header.properties h)
               /\ Header.currentOffset h = Header.sizes (Header.properties h)).
  { revert Hl.
    apply (lines_invariant
             (fun h => Header.packed 0 (Header.properties h)
                       /\ Header.currentOffset h = Header.sizes (Header.properties h))).
    - intros h0 l h1 [Hp Hc] H1.
      apply line_cases in H1
        as [(_ & ->)|[(_ & _ & nm & _ & ->)|[(_ & _ & _ & ->)|(_ & _ & _ & ->)]]];
        cbn [Header.properties Header.currentOffset]; try (split; assumption).
      split.
      + apply packed_app; [exact Hp|]. cbn [Header.offset]. lia.
      + rewrite sizes_app, Hc. unfold Header.sizes at 3. cbn [foldr Header.type]. lia.
    - split; [exact I | reflexivity]. }
  destruct HI as [Hp Hc]. split; [exact Hp|]. split; [exact Hc|].
  intros p Hin. destruct (packed_within _ _ _ Hp Hin). lia.
Qed.

End HeaderLayout.

Section HeaderChecks.

Variable Math_exp : number -> number.

(** X2: a file shorter than the 10 KiB window fails with a RangeError; for
    any other file the header text is read, [isBinary] is true after the
    loop exactly when a line of the header starts with
    [format binary_little_endian], and with no such line the load fails
    with the unsupported-encoding error (or the TypeError of a property line
    with no name).  A file that parses has such a line. *)
Theorem binary_format_line_required buffer :
  (byteLength buffer < 10240 ->
   PlyLoader.parsePly Math_exp buffer = Throw RangeError)
  /\ (10240 <= byteLength buffer ->
      exists text, PlyLoader.headerText buffer = Ok text)
  /\ (forall text,
        PlyLoader.headerText buffer = Ok text ->
        (forall h,
           Header.lines Header.init (PlyLoader.headerLines text) = Ok h ->
           Header.isBinary h
           = existsb Header.isFormatLine (PlyLoader.headerLines text))
        /\ (existsb Header.isFormatLine (PlyLoader.headerLines text) = false ->
            PlyLoader.parsePly Math_exp buffer = Throw TypeError
            \/ PlyLoader.parsePly Math_exp buffer
               = Throw (Error PlyLoader.msgUnsupportedEncoding)))
  /\ (forall data,
        PlyLoader.parsePly Math_exp buffer = Ok data ->
        exists text,
          PlyLoader.headerText buffer = Ok text
          /\ existsb Header.isFormatLine (PlyLoader.headerLines text) = true).
Proof.
  assert (Hbin : forall text h,
            Header.lines Header.init (PlyLoader.headerLines text) = Ok h ->
            Header.isBinary h
            = existsb Header.isFormatLine (PlyLoader.headerLines text)).
  { intros text h Hl. rewrite (lines_isBinary _ _ _ Hl). reflexivity. }
  split; [|split; [|split]].
  - intros Hlen.
    unfold PlyLoader.parsePly, PlyLoader.headerText, newUint8Array,
      PlyLoader.headerWindow.
    change (1024 * 10) with 10240.
    destruct (Z.ltb_spec (byteLength buffer) 10240); [|lia]. reflexivity.
  - intros Hlen.
    unfold PlyLoader.headerText, newUint8Array, PlyLoader.headerWindow.
    change (1024 * 10) with 10240.
    destruct (Z.ltb_spec (byteLength buffer) 10240); [lia|].
    eexists. reflexivity.
  - intros text Htext. split; [apply Hbin|].
    intros Hno. unfold PlyLoader.parsePly. rewrite Htext. cbn [bind].
    destruct (Header.lines Header.init (PlyLoader.headerLines text)) as [h|e] eqn:Hl.
    + cbn [bind]. rewrite (Hbin text h Hl), Hno. right. reflexivity.
    + cbn [bind]. left. apply lines_Throw in Hl. subst. reflexivity.
  - intros data Hparse.
    apply parsePly_Ok in Hparse as (text & h & Htext & Hl & Hb & _).
    exists text. split; [exact Htext|].
    rewrite <- (Hbin text h Hl). exact Hb.
Qed.


End HeaderChecks.

Section PropertyMap.

Lemma propMap_snoc ps p :
  Header.propMap (ps ++ [p]) = <[Header.name p := p]> (Header.propMap ps).
Proof. unfold Header.propMap. rewrite foldl_app. reflexivity. Qed.

Lemma propMap_lookup_Some ps : forall n p,
  Header.propMap ps !! n = Some p -> p ∈ ps /\ Header.name p = n.
Proof.
  induction ps as [|q ps IH] using rev_ind; intros n p H.
  - unfold Header.propMap in H. cbn [foldl] in H.
    rewrite lookup_empty in H. discriminate H.
  - rewrite propMap_snoc in H.
    destruct (decide (Header.name q = n)) as [<-|Hne].
    + rewrite lookup_insert_eq in H. apply Some_inj in H. subst q.
      split; [|reflexivity]. apply elem_of_app. right. apply list_elem_of_singleton.
      reflexivity.
    + rewrite lookup_insert_ne in H by exact Hne.
      destruct (IH _ _ H) as [Hin Hn]. split; [|exact Hn].
      apply elem_of_app. left. exact Hin.
Qed.

Lemma propMap_declared ps n :
  is_Some (Header.propMap ps !! n) <-> Header.declared ps n.
Proof.
  split.
  - intros [p Hp]. exists p. eapply propMap_lookup_Some, Hp.
  - intros (p & Hin & Hn). revert Hin.
    induction ps as [|q ps IH] using rev_ind; intros Hin.
    + apply elem_of_nil in Hin. destruct Hin.
    + rewrite propMap_snoc.
      destruct (decide (Header.name q = n)) as [Heq|Hne].
      * rewrite <- Heq, lookup_insert_eq. eexists. reflexivity.
      * rewrite lookup_insert_ne by exact Hne. apply IH.
        apply elem_of_app in Hin as [Hin|Hin]; [exact Hin|].
        apply list_elem_of_singleton in Hin. subst q. congruence.
Qed.

Lemma propMap_last ps p qs :
  Forall (fun q => Header.name q <> Header.name p) qs ->
  Header.propMap (ps ++ p :: qs) !! Header.name p = Some p.
Proof.
  induction qs as [|q qs IH] using rev_ind; intros Hq.
  - rewrite propMap_snoc, lookup_insert_eq. reflexivity.
  - rewrite Forall_app, Forall_singleton in Hq. destruct Hq as [Hqs Hq].
    replace (ps ++ p :: qs ++ [q]) with ((ps ++ p :: qs) ++ [q])
      by (rewrite <- app_assoc; reflexivity).
    rewrite propMap_snoc, lookup_insert_ne by exact Hq. apply IH, Hqs.
Qed.

Lemma every_has_spec m names :
  Header.every_has m names = true
  <-> Forall (fun n => is_Some (m !! str n)) names.
Proof.
  unfold Header.every_has.
  induction names as [|n names IH]; cbn [forallb].
  - split; [constructor | reflexivity].
  - rewrite andb_true_iff, Forall_cons, IH, bool_decide_eq_true. reflexivity.
Qed.

(** X4: the feature tests look the names up among the declared properties,
    and a name declared twice stands for its last declaration. *)
Theorem property_lookup_by_name ps :
  (forall names,
     Header.every_has (Header.propMap ps) names = true
     <-> Forall (fun n => Header.declared ps (str n)) names)
  /\ (forall n o, Header.offsetOf (Header.propMap ps) n = Ok o ->
        exists p, p ∈ ps /\ Header.name p = str n /\ Header.offset p = o)
  /\ (forall n, Header.offsetOf (Header.propMap ps) n = Throw TypeError
        <-> ~ Header.declared ps (str n))
  /\ (forall before p after n,
        ps = before ++ p :: after ->
        Header.name p = str n ->
        Forall (fun q => Header.name q <> str n) after ->
        Header.offsetOf (Header.propMap ps) n = Ok (Header.offset p)).
Proof.
  split; [|split; [|split]].
  - intros names. rewrite every_has_spec. apply Forall_iff. intros n.
    apply propMap_declared.
  - intros n o H. unfold Header.offsetOf in H.
    destruct (Header.propMap ps !! str n) as [p|] eqn:Hp.
    + apply Ok_inj in H. apply propMap_lookup_Some in Hp as [Hin Hn].
      exists p. auto.
    + destruct (Throw_not_Ok _ _ H).
  - intros n. unfold Header.offsetOf.
    pose proof (propMap_declared ps (str n)) as Hd.
    destruct (Header.propMap ps !! str n) as [p|] eqn:Hp.
    + split; [intros H; destruct (Ok_not_Throw _ _ H)|].
      intros Hn. destruct Hn. apply Hd. eexists. reflexivity.
    + split; [|reflexivity]. intros _ Hdecl. apply Hd in Hdecl as [p Hp'].
      discriminate Hp'.
  - intros before p after n -> Hn Hafter. unfold Header.offsetOf.
    rewrite <- Hn, propMap_last; [reflexivity|].
    rewrite Hn. exact Hafter.
Qed.

End PropertyMap.

(** ** What a parsed dataset holds *)

Section LoaderData.

Variable Math_exp : number -> number.

Lemma normalizedElevations_length ys :
  length (PlyLoader.normalizedElevations ys) = length ys.
Proof.
  unfold PlyLoader.normalizedElevations. cbv zeta.
  destruct (ltb _ _); apply length_map.
Qed.

Lemma points_shape view m stride sh sp ps :
  (forall t p, ps !! t = Some p ->
     PlyLoader.readPoint Math_exp view m stride sh sp (Z.of_nat t) = Ok p) ->
  Forall (fun p => length (PlyLoader.p_position p) = 3%nat) ps
  /\ Forall (fun p => length (PlyLoader.p_color p) = 3%nat) ps
  /\ Forall (fun p => length (PlyLoader.p_scale p) = (if sp then 3 else 0)%nat) ps
  /\ Forall (fun p => length (PlyLoader.p_rotation p) = (if sp then 4 else 0)%nat) ps.
Proof.
  intros Hread. repeat split; apply Forall_lookup; intros t p Ht;
    try reflexivity; apply Hread in Ht;
    apply readPoint_inv in Ht as (_ & _ & _ & Hc & Hs).
  - eapply readColor_length, Hc.
  - apply readSplat_length in Hs as [Hs _]. exact Hs.
  - apply readSplat_length in Hs as [_ Hs]. exact Hs.
Qed.

(** X5: the arrays of a parsed dataset have 3, 3, 1, 3 and 4 entries per
    point, and the splat arrays are there exactly when the header declares
    the three scales and the four rotation components. *)
Theorem decoded_array_lengths buffer data :
  PlyLoader.parsePly Math_exp buffer = Ok data ->
  let n := PlyLoader.iterations (pointCount data) in
  length (positions data) = (3 * n)%nat
  /\ length (colors data) = (3 * n)%nat
  /\ length (elevations data) = n
  /\ (forall ss, scales data = Some ss -> length ss = (3 * n)%nat)
  /\ (forall rs, rotations data = Some rs -> length rs = (4 * n)%nat)
  /\ (forall h, PlyLoader.headerOf buffer = Ok h ->
        (is_Some (scales data) <-> Header.hasSplat h = true)
        /\ (is_Some (rotations data) <-> Header.hasSplat h = true)).
Proof.
  intros Hparse n. subst n.
  apply parsePly_points in Hparse
    as (text & h & ps & Htext & Hh & _ & Hlen & Hread & Hpos & Hcol & Hele
        & Hsc & Hrot & _).
  destruct (points_shape _ _ _ _ _ _ Hread) as (Fp & Fc & Fs & Fr).
  rewrite <- Hlen.
  split; [rewrite Hpos; apply written_length, Fp|].
  split; [rewrite Hcol; apply written_length, Fc|].
  split; [rewrite Hele, normalizedElevations_length; apply length_map|].
  split; [|split].
  - intros ss Hss. rewrite Hsc in Hss.
    destruct (Header.hasSplat h); [|discriminate Hss].
    apply Some_inj in Hss. subst ss. apply written_length, Fs.
  - intros rs Hrs. rewrite Hrot in Hrs.
    destruct (Header.hasSplat h); [|discriminate Hrs].
    apply Some_inj in Hrs. subst rs. apply written_length, Fr.
  - intros h' Hh'. rewrite (headerOf_eq _ _ _ Htext Hh) in Hh'.
    apply Ok_inj in Hh'. subst h'. rewrite Hsc, Hrot.
    destruct (Header.hasSplat h); split; split; intros H;
      try reflexivity; try (eexists; reflexivity);
      try discriminate H; destruct H as [? H]; discriminate H.
Qed.

(** X6: the positions are the x, y and z values of the records, bit for
    bit. *)
Theorem positions_are_raw_floats buffer data (i : nat) :
  PlyLoader.parsePly Math_exp buffer = Ok data ->
  (i < PlyLoader.iterations (pointCount data))%nat ->
  exists x y z,
    PlyLoader.rawFloat buffer (Z.of_nat i) "x" = Ok x
    /\ PlyLoader.rawFloat buffer (Z.of_nat i) "y" = Ok y
    /\ PlyLoader.rawFloat buffer (Z.of_nat i) "z" = Ok z
    /\ positions data !! (3 * i)%nat = Some x
    /\ positions data !! (3 * i + 1)%nat = Some y
    /\ positions data !! (3 * i + 2)%nat = Some z.
Proof.
  intros Hparse Hi.
  apply parsePly_points in Hparse
    as (text & h & ps & Htext & Hh & _ & Hlen & Hread & Hpos & _).
  destruct (points_shape _ _ _ _ _ _ Hread) as (Fp & _).
  rewrite <- Hlen in Hi. destruct (lookup_lt_is_Some_2 ps i Hi) as [p Hp].
  pose proof (Hread _ _ Hp) as Hpt.
  apply readPoint_inv in Hpt as (Hx & Hy & Hz & _).
  exists (PlyLoader.p_x p), (PlyLoader.p_y p), (PlyLoader.p_z p).
  rewrite !(rawFloat_read buffer text h) by assumption.
  split; [exact Hx|]. split; [exact Hy|]. split; [exact Hz|].
  pose proof (written_lookup PlyLoader.p_position 3 ps Fp i p) as Hl.
  rewrite Hpos.
  repeat split.
  - rewrite <- (Nat.add_0_r (3 * i)). rewrite (Hl 0%nat Hp) by lia.
    unfold PlyLoader.p_position.
    cbn [lookup list_lookup fmap option_fmap option_map].
    rewrite (readFloat_fround _ _ _ _ _ Hx). reflexivity.
  - rewrite (Hl 1%nat Hp) by lia. unfold PlyLoader.p_position.
    cbn [lookup list_lookup fmap option_fmap option_map].
    rewrite (readFloat_fround _ _ _ _ _ Hy). reflexivity.
  - rewrite (Hl 2%nat Hp) by lia. unfold PlyLoader.p_position.
    cbn [lookup list_lookup fmap option_fmap option_map].
    rewrite (readFloat_fround _ _ _ _ _ Hz). reflexivity.
Qed.

Lemma readColor_classic dataView propMap off c :
  PlyLoader.readColor Math_exp dataView propMap false off = Ok c ->
  exists r g b,
    PlyLoader.readByte dataView propMap off "red" = Ok r
    /\ PlyLoader.readByte dataView propMap off "green" = Ok g
    /\ PlyLoader.readByte dataView propMap off "blue" = Ok b
    /\ c = [div r (of_Z 255); div g (of_Z 255); div b (of_Z 255)].
Proof.
  unfold PlyLoader.readColor. intros H.
  apply bind_Ok in H as (r & Hr & H). apply bind_Ok in H as (g & Hg & H).
  apply bind_Ok in H as (b & Hb & H). apply Ok_inj in H. subst c.
  exists r, g, b. auto.
Qed.

Lemma getUint8_Ok view off v :
  getUint8 view off = Ok v ->
  exists k, 0 <= k <= 255 /\ v = of_Z k
            /\ 0 <= off /\ off + 1 <= byteLength view.
Proof.
  unfold getUint8.
  destruct ((off <? 0) || (byteLength view <? off + 1)) eqn:Hb; intros H.
  - destruct (Throw_not_Ok _ _ H).
  - apply orb_false_iff in Hb as [H0 H1].
    destruct (view !! Z.to_nat off) as [b|]; [|destruct (Throw_not_Ok _ _ H)].
    apply Ok_inj in H. exists (byteZ b).
    split; [apply byte_range|]. split; [congruence | lia].
Qed.


Lemma readByte_Ok view m off n v :
  PlyLoader.readByte view m off n = Ok v ->
  exists k, 0 <= k <= 255 /\ v = of_Z k.
Proof.
  unfold PlyLoader.readByte. intros H. apply bind_Ok in H as (o & _ & H).
  apply getUint8_Ok in H as (k & Hk & -> & _). exists k. auto.
Qed.

Lemma rawByte_read buffer text h i n :
  PlyLoader.headerText buffer = Ok text ->
  Header.lines Header.init (PlyLoader.headerLines text) = Ok h ->
  PlyLoader.rawByte buffer i n
  = PlyLoader.readByte (drop (Z.to_nat (PlyLoader.headerEndOf text)) buffer)
      (Header.propMap (Header.properties h)) (i * Header.currentOffset h) n.
Proof.
  intros Htext Hh. unfold PlyLoader.rawByte. rewrite Htext. cbn [bind].
  rewrite Hh. reflexivity.
Qed.

(** X7: without the SH scheme every colour channel is the byte of the
    record divided by 255, rounded to binary32. *)
Theorem classic_colors_are_bytes_over_255 buffer data h (i : nat) :
  PlyLoader.parsePly Math_exp buffer = Ok data ->
  PlyLoader.headerOf buffer = Ok h ->
  Header.hasSHColor h = false ->
  (i < PlyLoader.iterations (pointCount data))%nat ->
  exists r g b,
    (0 <= r <= 255 /\ 0 <= g <= 255 /\ 0 <= b <= 255)
    /\ PlyLoader.rawByte buffer (Z.of_nat i) "red" = Ok (of_Z r)
    /\ PlyLoader.rawByte buffer (Z.of_nat i) "green" = Ok (of_Z g)
    /\ PlyLoader.rawByte buffer (Z.of_nat i) "blue" = Ok (of_Z b)
    /\ colors data !! (3 * i)%nat
       = Some (Math_fround (div (of_Z r) (of_Z 255)))
    /\ colors data !! (3 * i + 1)%nat
       = Some (Math_fround (div (of_Z g) (of_Z 255)))
    /\ colors data !! (3 * i + 2)%nat
       = Some (Math_fround (div (of_Z b) (of_Z 255))).
Proof.
  intros Hparse Hhdr Hsh Hi.
  apply parsePly_points in Hparse
    as (text & h' & ps & Htext & Hh & _ & Hlen & Hread & _ & Hcol & _).
  rewrite (headerOf_eq _ _ _ Htext Hh) in Hhdr. apply Ok_inj in Hhdr. subst h'.
  destruct (points_shape _ _ _ _ _ _ Hread) as (_ & Fc & _).
  rewrite <- Hlen in Hi. destruct (lookup_lt_is_Some_2 ps i Hi) as [p Hp].
  pose proof (Hread _ _ Hp) as Hpt. rewrite Hsh in Hpt.
  apply readPoint_inv in Hpt as (_ & _ & _ & Hc & _).
  apply readColor_classic in Hc as (r & g & b & Hr & Hg & Hb & Hc).
  destruct (readByte_Ok _ _ _ _ _ Hr) as (kr & Hkr & ->).
  destruct (readByte_Ok _ _ _ _ _ Hg) as (kg & Hkg & ->).
  destruct (readByte_Ok _ _ _ _ _ Hb) as (kb & Hkb & ->).
  exists kr, kg, kb. split; [auto|].
  rewrite !(rawByte_read buffer text h) by assumption.
  split; [exact Hr|]. split; [exact Hg|]. split; [exact Hb|].
  pose proof (written_lookup PlyLoader.p_color 3 ps Fc i p) as Hl.
  rewrite Hcol. repeat split.
  - rewrite <- (Nat.add_0_r (3 * i)). rewrite (Hl 0%nat Hp) by lia.
    rewrite Hc. reflexivity.
  - rewrite (Hl 1%nat Hp) by lia. rewrite Hc. reflexivity.
  - rewrite (Hl 2%nat Hp) by lia. rewrite Hc. reflexivity.
Qed.

(** X8: the scales are the exponentials of the stored log-scales, rounded
    to binary32. *)
Theorem scales_are_exponentials buffer data ss (i : nat) :
  PlyLoader.parsePly Math_exp buffer = Ok data ->
  scales data = Some ss ->
  (i < PlyLoader.iterations (pointCount data))%nat ->
  exists s0 s1 s2,
    PlyLoader.rawFloat buffer (Z.of_nat i) "scale_0" = Ok s0
    /\ PlyLoader.rawFloat buffer (Z.of_nat i) "scale_1" = Ok s1
    /\ PlyLoader.rawFloat buffer (Z.of_nat i) "scale_2" = Ok s2
    /\ ss !! (3 * i)%nat = Some (Math_fround (Math_exp s0))
    /\ ss !! (3 * i + 1)%nat = Some (Math_fround (Math_exp s1))
    /\ ss !! (3 * i + 2)%nat = Some (Math_fround (Math_exp s2)).
Proof.
  intros Hparse Hss Hi.
  apply parsePly_points in Hparse
    as (text & h & ps & Htext & Hh & _ & Hlen & Hread & _ & _ & _ & Hsc & _).
  rewrite Hss in Hsc. destruct (Header.hasSplat h) eqn:Hsplat; [|discriminate Hsc].
  apply Some_inj in Hsc. subst ss.
  destruct (points_shape _ _ _ _ _ _ Hread) as (_ & _ & Fs & _).
  rewrite <- Hlen in Hi. destruct (lookup_lt_is_Some_2 ps i Hi) as [p Hp].
  pose proof (Hread _ _ Hp) as Hpt.
  apply readPoint_inv in Hpt as (_ & _ & _ & _ & Hs).
  apply readSplat_true in Hs
    as (s0 & s1 & s2 & qx & qy & qz & qw & H0 & H1 & H2 & _ & _ & _ & _ & Hs & _).
  exists s0, s1, s2.
  rewrite !(rawFloat_read buffer text h) by assumption.
  split; [exact H0|]. split; [exact H1|]. split; [exact H2|].
  pose proof (written_lookup PlyLoader.p_scale 3 ps Fs i p) as Hl.
  repeat split.
  - rewrite <- (Nat.add_0_r (3 * i)). rewrite (Hl 0%nat Hp) by lia.
    rewrite Hs. reflexivity.
  - rewrite (Hl 1%nat Hp) by lia. rewrite Hs. reflexivity.
  - rewrite (Hl 2%nat Hp) by lia. rewrite Hs. reflexivity.
Qed.


End LoaderData.

(** ** Point counts that are not counts, and short files *)

Section OddCounts.

Variable Math_exp : number -> number.
Variable typeErrorMessage rangeErrorMessage : jsstring.

Lemma indexOf_from_lower p s : forall i, -1 <= i -> -1 <= indexOf_from s p i.
Proof.
  induction s as [|c s IH]; intros i Hi; cbn [indexOf_from];
    destruct (startsWith _ p); try lia.
  apply IH. lia.
Qed.

Lemma headerEndOf_lower text : 10 <= PlyLoader.headerEndOf text.
Proof.
  unfold PlyLoader.headerEndOf, indexOf.
  pose proof (indexOf_from_lower (str "end_header") text 0). lia.
Qed.

Lemma parsePly_checked buffer text h :
  PlyLoader.headerText buffer = Ok text ->
  Header.lines Header.init (PlyLoader.headerLines text) = Ok h ->
  Header.isBinary h = true ->
  Header.pointCount h <> Some 0 ->
  Header.hasPosition h = true ->
  Header.hasClassicColor h = true \/ Header.hasSHColor h = true ->
  PlyLoader.parsePly Math_exp buffer
  = PlyLoader.decodeBody Math_exp buffer (PlyLoader.headerEndOf text) h
      (Header.hasSHColor h) (Header.hasSplat h).
Proof.
  intros Htext Hl Hb Hpc Hpos Hcol.
  unfold PlyLoader.parsePly. rewrite Htext. cbn [bind]. rewrite Hl. cbn [bind].
  rewrite Hb. cbn [negb]. rewrite bool_decide_eq_false_2 by exact Hpc.
  rewrite Hpos. cbn [negb].
  destruct Hcol as [-> | ->]; cbn [negb andb]; [reflexivity|].
  rewrite andb_false_r. reflexivity.
Qed.

(** X10: a count that [parseInt] cannot read is NaN, which passes the
    test against 0.  When the other header checks pass, the file loads with
    no points if [headerEnd] does not exceed its length; if [headerEnd] lies
    past the end of the file (a file of 10240 bytes that ends with
    [end_header]), [new DataView] throws a RangeError. *)
Theorem nan_point_count_loads_empty buffer text h :
  PlyLoader.headerText buffer = Ok text ->
  Header.lines Header.init (PlyLoader.headerLines text) = Ok h ->
  Header.isBinary h = true ->
  Header.pointCount h = None ->
  Header.hasPosition h = true ->
  Header.hasClassicColor h = true \/ Header.hasSHColor h = true ->
  (PlyLoader.headerEndOf text <= byteLength buffer ->
   PlyLoader.parsePly Math_exp buffer
   = Ok {| positions := []; colors := []; elevations := [];
           scales := if Header.hasSplat h then Some [] else None;
           rotations := if Header.hasSplat h then Some [] else None;
           boundingBox := THREE.emptyBox;
           pointCount := None |})
  /\ (byteLength buffer < PlyLoader.headerEndOf text ->
      PlyLoader.parsePly Math_exp buffer = Throw RangeError).
Proof.
  intros Htext Hl Hb Hpc Hpos Hcol.
  rewrite (parsePly_checked _ _ _ Htext Hl Hb) by (assumption || congruence).
  unfold PlyLoader.decodeBody. rewrite Hpc.
  cbn [PlyLoader.times fmap option_fmap option_map newFloat32Array bind].
  pose proof (headerEndOf_lower text) as Hlow.
  split.
  - intros Hend.
    assert (Hview : newDataView buffer (PlyLoader.headerEndOf text)
                    = Ok (drop (Z.to_nat (PlyLoader.headerEndOf text)) buffer)).
    { unfold newDataView.
      destruct (Z.ltb_spec (PlyLoader.headerEndOf text) 0); [lia|].
      destruct (Z.ltb_spec (byteLength buffer) (PlyLoader.headerEndOf text)); [lia|].
      reflexivity. }
    assert (Hrange : ltb PlyLoader.epsilon (sub neg_Infinity Infinity) = false)
      by (vm_compute; reflexivity).
    destruct (Header.hasSplat h);
      cbn [bind newFloat32Array]; rewrite Hview;
      cbn [bind PlyLoader.iterations PlyLoader.decodeLoop];
      unfold PlyLoader.normalizeElevations;
      cbn [PlyLoader.maxY PlyLoader.minY PlyLoader.d_elevations
           PlyLoader.d_positions
           PlyLoader.d_colors PlyLoader.d_scales PlyLoader.d_rotations
           PlyLoader.d_boundingBox];
      rewrite Hrange; reflexivity.
  - intros Hend.
    assert (Hview : newDataView buffer (PlyLoader.headerEndOf text)
                    = Throw RangeError).
    { unfold newDataView.
      destruct (Z.ltb_spec (PlyLoader.headerEndOf text) 0); [lia|].
      destruct (Z.ltb_spec (byteLength buffer) (PlyLoader.headerEndOf text)); [|lia].
      reflexivity. }
    destruct (Header.hasSplat h);
      cbn [bind newFloat32Array]; rewrite Hview; reflexivity.
Qed.

(** X11: a negative count makes [new Float32Array] throw a RangeError. *)
Theorem negative_point_count_RangeError buffer text h n :
  PlyLoader.headerText buffer = Ok text ->
  Header.lines Header.init (PlyLoader.headerLines text) = Ok h ->
  Header.isBinary h = true ->
  Header.pointCount h = Some n ->
  n < 0 ->
  Header.hasPosition h = true ->
  Header.hasClassicColor h = true \/ Header.hasSHColor h = true ->
  PlyLoader.parsePly Math_exp buffer = Throw RangeError.
Proof.
  intros Htext Hl Hb Hpc Hn Hpos Hcol.
  rewrite (parsePly_checked _ _ _ Htext Hl Hb)
    by (assumption || (rewrite Hpc; intros [=]; lia)).
  unfold PlyLoader.decodeBody. rewrite Hpc.
  cbn [PlyLoader.times fmap option_fmap option_map]. unfold newFloat32Array at 1.
  destruct (Z.ltb_spec (n * 3) 0); [|lia]. reflexivity.
Qed.

(** X12: a file shorter than the 10 KiB header window fails with a
    RangeError, whatever it holds. *)
Theorem short_file_RangeError buffer s :
  byteLength buffer < 10240 ->
  PlyLoader.parsePly Math_exp buffer = Throw RangeError
  /\ App.plyData
       (App.handleLoad Math_exp typeErrorMessage rangeErrorMessage s
          (Readable buffer)) = None
  /\ App.error
       (App.handleLoad Math_exp typeErrorMessage rangeErrorMessage s
          (Readable buffer))
     = Some (match rangeErrorMessage with
             | [] => App.msgUnknown
             | m => m
             end).
Proof.
  intros Hlen.
  assert (Hparse : PlyLoader.parsePly Math_exp buffer = Throw RangeError).
  { unfold PlyLoader.parsePly, PlyLoader.headerText, newUint8Array,
      PlyLoader.headerWindow.
    change (1024 * 10) with 10240.
    destruct (Z.ltb_spec (byteLength buffer) 10240); [|lia]. reflexivity. }
  split; [exact Hparse|].
  unfold App.handleLoad. cbn [PlyLoader.loadPly]. rewrite Hparse.
  split; [reflexivity|]. destruct rangeErrorMessage; reflexivity.
Qed.

End OddCounts.

(** ** The application state around a load *)

Section LoadState.

Variable Math_exp : number -> number.
Variable typeErrorMessage rangeErrorMessage : jsstring.

Local Abbreviation handleLoad :=
  (App.handleLoad Math_exp typeErrorMessage rangeErrorMessage).

Lemma messageOrUnknown_nonempty e :
  App.messageOrUnknown typeErrorMessage rangeErrorMessage e <> [].
Proof.
  unfold App.messageOrUnknown.
  destruct (App.message typeErrorMessage rangeErrorMessage e); [|discriminate].
  unfold App.msgUnknown. eval_str. discriminate.
Qed.

(** X13: once a load has settled the application holds either a dataset and
    no error, or an error text that is not empty and no dataset; the
    loading flag is down and the progress is back at 0. *)
Theorem load_settles_with_dataset_or_error s source :
  ((exists data,
      PlyLoader.loadPly Math_exp source = Ok data
      /\ App.plyData (handleLoad s source) = Some data
      /\ App.error (handleLoad s source) = None
      /\ Types.pointCount (App.stats (handleLoad s source)) = pointCount data)
   \/ (exists e m,
         PlyLoader.loadPly Math_exp source = Throw e
         /\ App.plyData (handleLoad s source) = None
         /\ App.error (handleLoad s source) = Some m
         /\ m <> []
         /\ (forall t, e = Error t -> t <> [] -> m = t)
         /\ Types.pointCount (App.stats (handleLoad s source)) = Some 0))
  /\ App.isLoading (handleLoad s source) = false
  /\ App.loadingProgress (handleLoad s source) = zero
  /\ (source = Unreadable ->
      App.error (handleLoad s source) = Some PlyLoader.msgReadFailure).
Proof.
  split; [|split; [|split]].
  - unfold App.handleLoad.
    destruct (PlyLoader.loadPly Math_exp source) as [data|e].
    + left. exists data. unfold App.loaded.
      destruct (scales data), (rotations data); repeat split.
    + right. exists e, (App.messageOrUnknown typeErrorMessage rangeErrorMessage e).
      split; [reflexivity|]. split; [reflexivity|]. split; [reflexivity|].
      split; [apply messageOrUnknown_nonempty|]. split; [|reflexivity].
      intros t -> Ht. unfold App.messageOrUnknown. cbn [App.message].
      destruct t; [congruence | reflexivity].
  - unfold App.handleLoad.
    destruct (PlyLoader.loadPly Math_exp source) as [data|e]; [|reflexivity].
    unfold App.loaded. destruct (scales data), (rotations data); reflexivity.
  - unfold App.handleLoad.
    destruct (PlyLoader.loadPly Math_exp source) as [data|e]; [|reflexivity].
    unfold App.loaded. destruct (scales data), (rotations data); reflexivity.
  - intros ->. reflexivity.
Qed.

(** X14: a load never touches the appearance, the helpers or the frame
    rate. *)
Theorem load_keeps_view_settings s source :
  App.appearance (handleLoad s source) = App.appearance s
  /\ App.helpers (handleLoad s source) = App.helpers s
  /\ Types.fps (App.stats (handleLoad s source)) = Types.fps (App.stats s).
Proof.
  unfold App.handleLoad.
  destruct (PlyLoader.loadPly Math_exp source) as [data|e]; [|repeat split].
  unfold App.loaded. destruct (scales data), (rotations data); repeat split.
Qed.

(** X15: after any load the render mode is Splat exactly when splat data is
    available, and that is exactly when the header of the loaded file
    declares the scales and the rotation. *)
Theorem splat_mode_iff_splat_data s source :
  (App.renderMode (handleLoad s source) = Types.SPLAT
   <-> App.splatDataAvailable (handleLoad s source) = true)
  /\ (App.renderMode (handleLoad s source) <> Types.COLORMAP)
  /\ (forall buffer data h,
        source = Readable buffer ->
        PlyLoader.parsePly Math_exp buffer = Ok data ->
        PlyLoader.headerOf buffer = Ok h ->
        (App.splatDataAvailable (handleLoad s source) = true
         <-> Header.hasSplat h = true)).
Proof.
  split; [|split].
  - unfold App.handleLoad.
    destruct (PlyLoader.loadPly Math_exp source) as [data|e].
    + unfold App.loaded.
      destruct (scales data), (rotations data); cbn; split; congruence.
    + cbn. split; congruence.
  - unfold App.handleLoad.
    destruct (PlyLoader.loadPly Math_exp source) as [data|e].
    + unfold App.loaded.
      destruct (scales data), (rotations data); cbn; congruence.
    + cbn. congruence.
  - intros buffer data h -> Hparse Hhdr.
    unfold App.handleLoad. cbn [PlyLoader.loadPly]. rewrite Hparse.
    apply parsePly_points in Hparse
      as (text & h' & ps & Htext & Hh & _ & _ & _ & _ & _ & _ & Hsc & Hrot & _).
    rewrite (headerOf_eq _ _ _ Htext Hh) in Hhdr. apply Ok_inj in Hhdr. subst h'.
    unfold App.loaded. rewrite Hsc, Hrot.
    destruct (Header.hasSplat h); cbn; split; congruence.
Qed.

Lemma resetControls_fixed s0 data :
  App.plyData s0 = Some data ->
  App.crop s0
  = {| Types.min := THREE.min (boundingBox data);
       Types.max := THREE.max (boundingBox data);
       Types.enabled := false |} ->
  App.transformations s0 = App.defaultTransformations ->
  App.resetControls s0 = s0.
Proof.
  destruct s0. cbn [App.plyData App.crop App.transformations].
  intros -> -> ->. reflexivity.
Qed.

(** X16: a load leaves the controls reset: the crop box is the bounding box
    of the dataset and is off, the transformations are the default ones,
    and [resetControls] changes nothing.  With no dataset [resetControls]
    leaves the crop box alone. *)
Theorem resetControls_after_load s source data :
  PlyLoader.loadPly Math_exp source = Ok data ->
  App.crop (handleLoad s source)
  = {| Types.min := THREE.min (boundingBox data);
       Types.max := THREE.max (boundingBox data);
       Types.enabled := false |}
  /\ App.transformations (handleLoad s source) = App.defaultTransformations
  /\ App.resetControls (handleLoad s source) = handleLoad s source
  /\ (forall s', App.plyData s' = None ->
        App.crop (App.resetControls s') = App.crop s'
        /\ App.transformations (App.resetControls s')
           = App.defaultTransformations).
Proof.
  intros Hload.
  assert (Hd : App.plyData (handleLoad s source) = Some data).
  { unfold App.handleLoad. rewrite Hload. unfold App.loaded.
    destruct (scales data), (rotations data); reflexivity. }
  assert (Hc : App.crop (handleLoad s source)
               = {| Types.min := THREE.min (boundingBox data);
                    Types.max := THREE.max (boundingBox data);
                    Types.enabled := false |}).
  { unfold App.handleLoad. rewrite Hload. unfold App.loaded.
    destruct (scales data), (rotations data); reflexivity. }
  assert (Ht : App.transformations (handleLoad s source)
               = App.defaultTransformations).
  { unfold App.handleLoad. rewrite Hload. unfold App.loaded.
    destruct (scales data), (rotations data); reflexivity. }
  split; [exact Hc|]. split; [exact Ht|]. split.
  - exact (resetControls_fixed _ _ Hd Hc Ht).
  - intros s' Hs'. unfold App.resetControls. rewrite Hs'. split; reflexivity.
Qed.

End LoadState.

(** ** The shaders: which fragments are drawn *)

Section Fragments.
Import GLSL Shader.

Variable exp : float -> float.

Lemma zero_not_gt_half : fgt (lit 0) (micro 500000) = false.
Proof. vm_compute. reflexivity. Qed.

Lemma vertex_discard_cropped u a old :
  cropDiscard u (position a) = lit 1 -> v_discard (vertexMain u a old) = lit 1.
Proof.
  intros Hc. unfold vertexMain.
  destruct (u_render_mode u =? 2); cbv iota zeta; cbn [v_discard]; [|exact Hc].
  rewrite Hc. destruct (fle _ _); reflexivity.
Qed.

(** X17: a point outside the crop box is discarded in every render mode. *)
Theorem cropped_point_discarded_in_every_mode u a old gl_PointCoord :
  u_crop_enabled u = true ->
  outsideCrop u (position a) ->
  v_discard (vertexMain u a old) = lit 1
  /\ shadePoint exp u a old gl_PointCoord = Discarded.
Proof.
  intros Hen Hout.
  assert (Hv : v_discard (vertexMain u a old) = lit 1).
  { apply vertex_discard_cropped. apply cropDiscard_outside. auto. }
  split; [exact Hv|].
  unfold shadePoint, fragmentMain. rewrite Hv, one_gt_half. reflexivity.
Qed.

(** X18: the fragment never depends on a varying the vertex shader left
    unwritten. *)
Theorem shading_ignores_unwritten_varyings u a old old' gl_PointCoord :
  shadePoint exp u a old gl_PointCoord = shadePoint exp u a old' gl_PointCoord.
Proof.
  unfold shadePoint, vertexMain.
  destruct (u_render_mode u =? 2) eqn:Hmode; cbv iota zeta; [reflexivity|].
  unfold fragmentMain. cbn [v_discard v_color]. rewrite Hmode. reflexivity.
Qed.

(** X19: in the two point modes a fragment is dropped exactly when its point
    is cropped or the fragment lies outside the unit circle of the sprite;
    a fragment that is drawn carries the colour of its point (its own in
    mode 0, the colormap of its elevation in mode 1) and the opacity
    scaled by [exp (-4 r^2)]. *)
Theorem point_mode_fragment u a old gl_PointCoord :
  u_render_mode u <> 2 ->
  let cxy := {| x2 := fsub (fmul (lit 2) (x2 gl_PointCoord)) (lit 1);
                y2 := fsub (fmul (lit 2) (y2 gl_PointCoord)) (lit 1) |} in
  let r_squared := dot2 cxy cxy in
  let c := if u_render_mode u =? 0 then color a else viridis (elevation a) in
  (shadePoint exp u a old gl_PointCoord = Discarded
   <-> (u_crop_enabled u = true /\ outsideCrop u (position a))
       \/ fgt r_squared (lit 1) = true)
  /\ (shadePoint exp u a old gl_PointCoord <> Discarded ->
      shadePoint exp u a old gl_PointCoord
      = FragColor {| x4 := x c; y4 := y c; z4 := z c;
                     w4 := fmul (u_opacity u)
                             (exp (fmul (fneg (lit 4)) r_squared)) |}).
Proof.
  intros Hmode cxy r_squared c.
  assert (Hm : (u_render_mode u =? 2) = false) by (apply Z.eqb_neq; exact Hmode).
  unfold shadePoint, vertexMain. rewrite Hm. cbv iota.
  rewrite orb_false_r. fold c.
  unfold fragmentMain. cbn [v_discard v_color]. rewrite Hm.
  fold cxy. fold r_squared.
  pose proof (cropDiscard_outside u (position a)) as Hcrop.
  destruct (cropDiscard_values u (position a)) as [Hc|Hc]; rewrite Hc.
  - rewrite one_gt_half. split.
    + split; [intros _; left; apply Hcrop, Hc | reflexivity].
    + intros H. destruct H. reflexivity.
  - rewrite zero_not_gt_half.
    assert (Hin : ~ (u_crop_enabled u = true /\ outsideCrop u (position a))).
    { intros H. apply Hcrop in H. rewrite Hc in H.
      symmetry in H. exact (lit_1_not_0 H). }
    destruct (fgt r_squared (lit 1)).
    + split; [split; [intros _; right; reflexivity | reflexivity]|].
      intros H. destruct H. reflexivity.
    + split; [|reflexivity].
      split; [intros H; discriminate H|].
      intros [H|H]; [destruct (Hin H) | discriminate H].
Qed.

Lemma not_le_zero d :
  fle d (lit 0) = false -> fgt d (lit 0) = true \/ d = S754_nan.
Proof.
  unfold fle, fgt, SFleb, SFltb. rewrite (SFcompare_swap d (lit 0)).
  destruct (SFcompare d (lit 0)) as [[| |]|] eqn:Hc; intros H;
    try discriminate H.
  - left. reflexivity.
  - right. apply SFcompare_None in Hc as [Hc|Hc]; [exact Hc | discriminate Hc].
Qed.

(** X20: in splat mode a fragment that is drawn belongs to a point inside
    the crop box whose determinant fails the test [d <= 0.0], that is, is
    above 0 or NaN, and it has the colour of its point, never the
    colormap. *)
Theorem splat_fragment_drawn_only_if u a old gl_PointCoord rgba :
  u_render_mode u = 2 ->
  shadePoint exp u a old gl_PointCoord = FragColor rgba ->
  ~ (u_crop_enabled u = true /\ outsideCrop u (position a))
  /\ fle (determinant (projectedCovariance u a (camPos u a))) (lit 0) = false
  /\ (fgt (determinant (projectedCovariance u a (camPos u a))) (lit 0) = true
      \/ determinant (projectedCovariance u a (camPos u a)) = S754_nan)
  /\ x4 rgba = x (color a) /\ y4 rgba = y (color a) /\ z4 rgba = z (color a).
Proof.
  intros Hmode Hdraw.
  destruct (fle (determinant (projectedCovariance u a (camPos u a))) (lit 0))
    eqn:Hdet.
  { assert (Hv : v_discard (vertexMain u a old) = lit 1).
    { unfold vertexMain. rewrite Hmode.
      change (2 =? 2) with true. cbv iota zeta. cbn [v_discard].
      rewrite Hdet. reflexivity. }
    unfold shadePoint, fragmentMain in Hdraw. rewrite Hv, one_gt_half in Hdraw.
    discriminate Hdraw. }
  assert (Hnot : ~ (u_crop_enabled u = true /\ outsideCrop u (position a))).
  { intros H. apply cropDiscard_outside in H.
    pose proof (vertex_discard_cropped u a old H) as Hv.
    unfold shadePoint, fragmentMain in Hdraw. rewrite Hv, one_gt_half in Hdraw.
    discriminate Hdraw. }
  split; [exact Hnot|]. split; [reflexivity|].
  split; [apply not_le_zero, Hdet|].
  assert (Hcol : v_color (vertexMain u a old) = color a).
  { unfold vertexMain. rewrite Hmode.
    change (2 =? 2) with true. change (2 =? 0) with false. cbv iota zeta.
    reflexivity. }
  unfold shadePoint, fragmentMain in Hdraw. rewrite Hmode, Hcol in Hdraw.
  change (2 =? 2) with true in Hdraw. cbv iota zeta in Hdraw.
  repeat match type of Hdraw with
         | (if ?b then _ else _) = _ => destruct b; [discriminate Hdraw|]
         end.
  injection Hdraw as <-. repeat split.
Qed.

End Fragments.

(** ** The frame counters *)

Section FrameRate.

Lemma frames_not_due nows : forall c,
  Forall (fun t => Fps.due t c = false) nows ->
  Fps.frames nows c
  = {| Fps.frameCount := Fps.frameCount c + Z.of_nat (length nows);
       Fps.lastTime := Fps.lastTime c; Fps.fps := Fps.fps c |}.
Proof.
  induction nows as [|t nows IH]; intros c Hall.
  - cbn [Fps.frames fold_left length Z.of_nat]. rewrite Z.add_0_r.
    destruct c; reflexivity.
  - apply Forall_cons in Hall as [Ht Hall].
    unfold Fps.frames. cbn [fold_left]. fold (Fps.frames nows (Fps.loop t c)).
    unfold Fps.due in Ht. unfold Fps.loop at 1. cbv zeta. rewrite Ht.
    rewrite IH.
    + cbn [Fps.frameCount Fps.lastTime Fps.fps length]. f_equal. lia.
    + cbn [Fps.lastTime]. unfold Fps.due in *. cbn [Fps.lastTime]. exact Hall.
Qed.

Lemma frames_app nows nows' c :
  Fps.frames (nows ++ nows') c = Fps.frames nows' (Fps.frames nows c).
Proof. unfold Fps.frames. apply fold_left_app. Qed.

(** X21: the rate the hook reports is the number of frames since its last
    report: frames less than a second after it only count, and the first
    later one publishes the count, this frame included, and starts
    again. *)
Theorem fps_is_frames_since_last_report c nows now :
  Forall (fun t => Fps.due t c = false) nows ->
  Fps.due now c = true ->
  Fps.frames nows c
  = {| Fps.frameCount := Fps.frameCount c + Z.of_nat (length nows);
       Fps.lastTime := Fps.lastTime c; Fps.fps := Fps.fps c |}
  /\ Fps.frames (nows ++ [now]) c
     = {| Fps.frameCount := 0; Fps.lastTime := now;
          Fps.fps := Fps.frameCount c + Z.of_nat (length nows) + 1 |}.
Proof.
  intros Hall Hdue. pose proof (frames_not_due nows c Hall) as H.
  split; [exact H|].
  rewrite frames_app, H. unfold Fps.frames. cbn [fold_left].
  unfold Fps.loop. cbv zeta. cbn [Fps.lastTime Fps.frameCount Fps.fps].
  unfold Fps.due in Hdue. rewrite Hdue. reflexivity.
Qed.

Lemma animate_not_due t c s :
  Fps.due t c = false ->
  Fps.animate t (c, s)
  = ({| Fps.frameCount := Fps.frameCount c + 1;
        Fps.lastTime := Fps.lastTime c; Fps.fps := Fps.fps c |}, s).
Proof.
  unfold Fps.due, Fps.animate. cbv beta iota zeta. intros ->. reflexivity.
Qed.

Lemma animation_not_due nows : forall c s,
  Forall (fun t => Fps.due t c = false) nows ->
  Fps.animation nows (c, s)
  = ({| Fps.frameCount := Fps.frameCount c + Z.of_nat (length nows);
        Fps.lastTime := Fps.lastTime c; Fps.fps := Fps.fps c |}, s).
Proof.
  induction nows as [|t nows IH]; intros c s Hall.
  - cbn [Fps.animation fold_left length Z.of_nat]. rewrite Z.add_0_r.
    destruct c; reflexivity.
  - apply Forall_cons in Hall as [Ht Hall].
    unfold Fps.animation. cbn [fold_left].
    rewrite (animate_not_due _ _ _ Ht).
    fold (Fps.animation nows
            ({| Fps.frameCount := Fps.frameCount c + 1;
                Fps.lastTime := Fps.lastTime c; Fps.fps := Fps.fps c |}, s)).
    rewrite IH.
    + cbn [Fps.frameCount Fps.lastTime Fps.fps length]. do 2 f_equal. lia.
    + unfold Fps.due in *. cbn [Fps.lastTime]. exact Hall.
Qed.

(** X22: the viewer reports the same count to the application, which stores
    it as the frame rate and changes nothing else; frames less than a second
    after the last report leave the application state alone. *)
Theorem animate_reports_frame_count c s nows now :
  Forall (fun t => Fps.due t c = false) nows ->
  Fps.due now c = true ->
  snd (Fps.animation nows (c, s)) = s
  /\ Fps.animation (nows ++ [now]) (c, s)
     = ({| Fps.frameCount := 0; Fps.lastTime := now; Fps.fps := Fps.fps c |},
        App.handleFpsUpdate (Fps.frameCount c + Z.of_nat (length nows) + 1) s)
  /\ Types.fps (App.stats (snd (Fps.animation (nows ++ [now]) (c, s))))
     = of_Z (Fps.frameCount c + Z.of_nat (length nows) + 1)
  /\ Types.pointCount (App.stats (snd (Fps.animation (nows ++ [now]) (c, s))))
     = Types.pointCount (App.stats s)
  /\ App.plyData (snd (Fps.animation (nows ++ [now]) (c, s))) = App.plyData s
  /\ App.renderMode (snd (Fps.animation (nows ++ [now]) (c, s)))
     = App.renderMode s.
Proof.
  intros Hall Hdue. pose proof (animation_not_due nows c s Hall) as H.
  split; [rewrite H; reflexivity|].
  assert (Hlast : Fps.animation (nows ++ [now]) (c, s)
            = ({| Fps.frameCount := 0; Fps.lastTime := now; Fps.fps := Fps.fps c |},
               App.handleFpsUpdate
                 (Fps.frameCount c + Z.of_nat (length nows) + 1) s)).
  { unfold Fps.animation. rewrite fold_left_app.
    fold (Fps.animation nows (c, s)). rewrite H. cbn [fold_left].
    unfold Fps.animate. cbv beta iota zeta. cbn [Fps.lastTime Fps.frameCount Fps.fps].
    unfold Fps.due in Hdue. rewrite Hdue. reflexivity. }
  split; [exact Hlast|]. rewrite Hlast. repeat split.
Qed.

End FrameRate.

(** ** The properties on the sample files *)

Lemma header_offsets_witness :
  Header.lines Header.init (PlyLoader.headerLines (Samples.textOf Samples.file246))
  = Ok (Samples.headerOf Samples.file246)
  /\ Header.currentOffset (Samples.headerOf Samples.file246)
     = Header.sizes (Header.properties (Samples.headerOf Samples.file246)).
Proof.
  assert (H : Header.lines Header.init
                (PlyLoader.headerLines (Samples.textOf Samples.file246))
              = Ok (Samples.headerOf Samples.file246))
    by (vm_compute; reflexivity).
  split; [exact H|].
  exact (proj1 (proj2 (header_offsets_packed _ _ H))).
Defined.

Lemma binary_format_witness :
  (byteLength Samples.fileSmall < 10240
   /\ PlyLoader.parsePly Samples.exp0 Samples.fileSmall = Throw RangeError)
  /\ PlyLoader.headerText Samples.fileAscii = Ok (Samples.textOf Samples.fileAscii)
  /\ existsb Header.isFormatLine
       (PlyLoader.headerLines (Samples.textOf Samples.fileAscii)) = false
  /\ (PlyLoader.parsePly Samples.exp0 Samples.fileAscii = Throw TypeError
      \/ PlyLoader.parsePly Samples.exp0 Samples.fileAscii
         = Throw (Error PlyLoader.msgUnsupportedEncoding))
  /\ exists text,
       PlyLoader.headerText Samples.file246 = Ok text
       /\ existsb Header.isFormatLine (PlyLoader.headerLines text) = true.
Proof.
  assert (Hs : byteLength Samples.fileSmall < 10240) by (vm_compute; reflexivity).
  assert (Ht : PlyLoader.headerText Samples.fileAscii
               = Ok (Samples.textOf Samples.fileAscii))
    by (vm_compute; reflexivity).
  assert (Hn : existsb Header.isFormatLine
                 (PlyLoader.headerLines (Samples.textOf Samples.fileAscii))
               = false) by (vm_compute; reflexivity).
  assert (Hp : PlyLoader.parsePly Samples.exp0 Samples.file246
               = Ok Samples.data246) by (vm_compute; reflexivity).
  split; [split; [exact Hs|]|split; [exact Ht|split; [exact Hn|split]]].
  - exact (proj1 (binary_format_line_required Samples.exp0 Samples.fileSmall) Hs).
  - exact (proj2 (proj1 (proj2 (proj2
             (binary_format_line_required Samples.exp0 Samples.fileAscii)))
             _ Ht) Hn).
  - exact (proj2 (proj2 (proj2
             (binary_format_line_required Samples.exp0 Samples.file246)))
             _ Hp).
Defined.


Lemma decoded_array_lengths_witness :
  PlyLoader.parsePly Samples.exp0 Samples.fileQuat = Ok Samples.dataQuat
  /\ length (positions Samples.dataQuat) = 3%nat.
Proof.
  assert (H : PlyLoader.parsePly Samples.exp0 Samples.fileQuat = Ok Samples.dataQuat)
    by (vm_compute; reflexivity).
  split; [exact H|].
  exact (proj1 (decoded_array_lengths Samples.exp0 _ _ H)).
Defined.

Lemma positions_witness :
  PlyLoader.parsePly Samples.exp0 Samples.file246 = Ok Samples.data246
  /\ exists x y z,
       PlyLoader.rawFloat Samples.file246 1 "x" = Ok x
       /\ PlyLoader.rawFloat Samples.file246 1 "y" = Ok y
       /\ PlyLoader.rawFloat Samples.file246 1 "z" = Ok z
       /\ positions Samples.data246 !! 3%nat = Some x
       /\ positions Samples.data246 !! 4%nat = Some y
       /\ positions Samples.data246 !! 5%nat = Some z.
Proof.
  assert (H : PlyLoader.parsePly Samples.exp0 Samples.file246 = Ok Samples.data246)
    by (vm_compute; reflexivity).
  split; [exact H|].
  apply (positions_are_raw_floats Samples.exp0 _ _ 1%nat H).
  vm_compute. lia.
Defined.

Lemma classic_colors_witness :
  PlyLoader.parsePly Samples.exp0 Samples.file246 = Ok Samples.data246
  /\ exists r g b,
       (0 <= r <= 255 /\ 0 <= g <= 255 /\ 0 <= b <= 255)
       /\ PlyLoader.rawByte Samples.file246 0 "red" = Ok (of_Z r)
       /\ PlyLoader.rawByte Samples.file246 0 "green" = Ok (of_Z g)
       /\ PlyLoader.rawByte Samples.file246 0 "blue" = Ok (of_Z b)
       /\ colors Samples.data246 !! 0%nat
          = Some (Math_fround (div (of_Z r) (of_Z 255)))
       /\ colors Samples.data246 !! 1%nat
          = Some (Math_fround (div (of_Z g) (of_Z 255)))
       /\ colors Samples.data246 !! 2%nat
          = Some (Math_fround (div (of_Z b) (of_Z 255))).
Proof.
  assert (H : PlyLoader.parsePly Samples.exp0 Samples.file246 = Ok Samples.data246)
    by (vm_compute; reflexivity).
  split; [exact H|].
  apply (classic_colors_are_bytes_over_255 Samples.exp0 _ _
           (Samples.headerOf Samples.file246) 0%nat H).
  - vm_compute. reflexivity.
  - vm_compute. reflexivity.
  - vm_compute. lia.
Defined.

Lemma scales_witness :
  PlyLoader.parsePly Samples.exp0 Samples.fileQuat = Ok Samples.dataQuat
  /\ exists s0 s1 s2,
       PlyLoader.rawFloat Samples.fileQuat 0 "scale_0" = Ok s0
       /\ PlyLoader.rawFloat Samples.fileQuat 0 "scale_1" = Ok s1
       /\ PlyLoader.rawFloat Samples.fileQuat 0 "scale_2" = Ok s2
       /\ default [] (scales Samples.dataQuat) !! 0%nat
          = Some (Math_fround (Samples.exp0 s0))
       /\ default [] (scales Samples.dataQuat) !! 1%nat
          = Some (Math_fround (Samples.exp0 s1))
       /\ default [] (scales Samples.dataQuat) !! 2%nat
          = Some (Math_fround (Samples.exp0 s2)).
Proof.
  assert (H : PlyLoader.parsePly Samples.exp0 Samples.fileQuat = Ok Samples.dataQuat)
    by (vm_compute; reflexivity).
  split; [exact H|].
  apply (scales_are_exponentials Samples.exp0 _ _
           (default [] (scales Samples.dataQuat)) 0%nat H).
  - reflexivity.
  - vm_compute. lia.
Defined.


Lemma nan_point_count_witness :
  (Header.pointCount (Samples.headerOf Samples.fileNaNCount) = None
   /\ PlyLoader.parsePly Samples.exp0 Samples.fileNaNCount
      = Ok {| positions := []; colors := []; elevations := [];
              scales := None; rotations := None;
              boundingBox := THREE.emptyBox; pointCount := None |})
  /\ (Header.pointCount (Samples.headerOf Samples.fileEndsAtMarker) = None
      /\ byteLength Samples.fileEndsAtMarker = 10240
      /\ PlyLoader.headerEndOf (Samples.textOf Samples.fileEndsAtMarker) = 10241
      /\ PlyLoader.parsePly Samples.exp0 Samples.fileEndsAtMarker
         = Throw RangeError).
Proof.
  split.
  - split; [vm_compute; reflexivity|].
    apply (proj1 (nan_point_count_loads_empty Samples.exp0 Samples.fileNaNCount
             (Samples.textOf Samples.fileNaNCount)
             (Samples.headerOf Samples.fileNaNCount)
             ltac:(vm_compute; reflexivity) ltac:(vm_compute; reflexivity)
             ltac:(vm_compute; reflexivity) ltac:(vm_compute; reflexivity)
             ltac:(vm_compute; reflexivity)
             ltac:(left; vm_compute; reflexivity))).
    vm_compute. discriminate.
  - split; [vm_compute; reflexivity|]. split; [vm_compute; reflexivity|].
    split; [vm_compute; reflexivity|].
    apply (proj2 (nan_point_count_loads_empty Samples.exp0
             Samples.fileEndsAtMarker
             (Samples.textOf Samples.fileEndsAtMarker)
             (Samples.headerOf Samples.fileEndsAtMarker)
             ltac:(vm_compute; reflexivity) ltac:(vm_compute; reflexivity)
             ltac:(vm_compute; reflexivity) ltac:(vm_compute; reflexivity)
             ltac:(vm_compute; reflexivity)
             ltac:(left; vm_compute; reflexivity))).
    vm_compute. reflexivity.
Defined.

Lemma negative_point_count_witness :
  Header.pointCount (Samples.headerOf Samples.fileNegative) = Some (-1)
  /\ PlyLoader.parsePly Samples.exp0 Samples.fileNegative = Throw RangeError.
Proof.
  split; [vm_compute; reflexivity|].
  apply (negative_point_count_RangeError Samples.exp0 Samples.fileNegative
           (Samples.textOf Samples.fileNegative)
           (Samples.headerOf Samples.fileNegative) (-1));
    try (vm_compute; reflexivity).
  left. vm_compute. reflexivity.
Defined.

Lemma short_file_witness :
  byteLength Samples.fileSmall < 10240
  /\ PlyLoader.parsePly Samples.exp0 Samples.fileSmall = Throw RangeError.
Proof.
  assert (H : byteLength Samples.fileSmall < 10240) by (vm_compute; reflexivity).
  split; [exact H|].
  exact (proj1 (short_file_RangeError Samples.exp0 [] [] Samples.fileSmall
                  App.initialState H)).
Defined.

Lemma resetControls_witness :
  PlyLoader.loadPly Samples.exp0 (Readable Samples.fileQuat) = Ok Samples.dataQuat
  /\ App.resetControls
       (App.handleLoad Samples.exp0 [] [] App.initialState
          (Readable Samples.fileQuat))
     = App.handleLoad Samples.exp0 [] [] App.initialState
         (Readable Samples.fileQuat).
Proof.
  assert (H : PlyLoader.loadPly Samples.exp0 (Readable Samples.fileQuat)
              = Ok Samples.dataQuat) by (vm_compute; reflexivity).
  split; [exact H|].
  exact (proj1 (proj2 (proj2 (resetControls_after_load Samples.exp0 [] []
                                App.initialState _ _ H)))).
Defined.

Lemma cropped_point_witness :
  Shader.shadePoint ShaderSamples.exp1
    (ShaderSamples.uniforms 2 true (ShaderSamples.v3 0 0 (-9)) (ShaderSamples.v3 1 1 (-1)))
    (ShaderSamples.point (ShaderSamples.v3 2 0 (-5)) (ShaderSamples.v3 1 1 1))
    ShaderSamples.blank ShaderSamples.centre
  = Shader.Discarded.
Proof.
  apply (cropped_point_discarded_in_every_mode ShaderSamples.exp1).
  - reflexivity.
  - right. left. vm_compute. reflexivity.
Defined.

Lemma point_mode_witness :
  Shader.shadePoint ShaderSamples.exp1
    (ShaderSamples.uniforms 1 false (ShaderSamples.v3 0 0 0) (ShaderSamples.v3 0 0 0))
    (ShaderSamples.point (ShaderSamples.v3 0 0 (-5)) (ShaderSamples.v3 1 1 1))
    ShaderSamples.blank ShaderSamples.centre
  <> Shader.Discarded.
Proof.
  intros H.
  apply (proj1 (point_mode_fragment ShaderSamples.exp1
                  (ShaderSamples.uniforms 1 false (ShaderSamples.v3 0 0 0)
                     (ShaderSamples.v3 0 0 0))
                  (ShaderSamples.point (ShaderSamples.v3 0 0 (-5))
                     (ShaderSamples.v3 1 1 1))
                  ShaderSamples.blank ShaderSamples.centre
                  ltac:(vm_compute; discriminate))) in H.
  destruct H as [[H _]|H]; vm_compute in H; discriminate H.
Defined.

Lemma splat_fragment_witness :
  exists rgba,
    Shader.shadePoint ShaderSamples.exp1
      (ShaderSamples.uniforms 2 false (ShaderSamples.v3 0 0 0) (ShaderSamples.v3 0 0 0))
      (ShaderSamples.point (ShaderSamples.v3 0 0 (-5)) (ShaderSamples.v3 1 1 1))
      ShaderSamples.blank ShaderSamples.centre
    = Shader.FragColor rgba
    /\ GLSL.x4 rgba = GLSL.lit 1.
Proof.
  assert (H : { rgba |
            Shader.shadePoint ShaderSamples.exp1
              (ShaderSamples.uniforms 2 false (ShaderSamples.v3 0 0 0)
                 (ShaderSamples.v3 0 0 0))
              (ShaderSamples.point (ShaderSamples.v3 0 0 (-5))
                 (ShaderSamples.v3 1 1 1))
              ShaderSamples.blank ShaderSamples.centre
            = Shader.FragColor rgba }).
  { eexists. vm_compute. reflexivity. }
  destruct H as [rgba H]. exists rgba. split; [exact H|].
  exact (proj1 (proj2 (proj2 (proj2 (splat_fragment_drawn_only_if ShaderSamples.exp1
           (ShaderSamples.uniforms 2 false (ShaderSamples.v3 0 0 0)
              (ShaderSamples.v3 0 0 0))
           (ShaderSamples.point (ShaderSamples.v3 0 0 (-5))
              (ShaderSamples.v3 1 1 1))
           ShaderSamples.blank ShaderSamples.centre rgba eq_refl H))))).
Defined.

Lemma fps_witness :
  Fps.frames [of_Z 16; of_Z 500; of_Z 1000]
    {| Fps.frameCount := 0; Fps.lastTime := zero; Fps.fps := 0 |}
  = {| Fps.frameCount := 0; Fps.lastTime := of_Z 1000; Fps.fps := 3 |}.
Proof.
  apply (proj2 (fps_is_frames_since_last_report
                  {| Fps.frameCount := 0; Fps.lastTime := zero; Fps.fps := 0 |}
                  [of_Z 16; of_Z 500] (of_Z 1000)
                  ltac:(repeat constructor) ltac:(vm_compute; reflexivity))).
Defined.

Lemma animate_witness :
  Types.fps
    (App.stats
       (snd (Fps.animation [of_Z 16; of_Z 500; of_Z 1000]
               ({| Fps.frameCount := 0; Fps.lastTime := zero; Fps.fps := 0 |},
                App.initialState))))
  = of_Z 3.
Proof.
  apply (proj1 (proj2 (proj2 (animate_reports_frame_count
                  {| Fps.frameCount := 0; Fps.lastTime := zero; Fps.fps := 0 |}
                  App.initialState
                  [of_Z 16; of_Z 500] (of_Z 1000)
                  ltac:(repeat constructor) ltac:(vm_compute; reflexivity))))).
Defined.

(** ** Binary32 values among the Numbers *)

Section Float32Order.

Lemma compare_iter_xO k : forall m1 m2,
  Pos.compare (Pos.iter xO m1 k) (Pos.iter xO m2 k) = Pos.compare m1 m2.
Proof.
  induction k as [|k IH] using Pos.peano_ind; intros m1 m2.
  - reflexivity.
  - rewrite !Pos.iter_succ. cbn [Pos.compare Pos.compare_cont]. apply IH.
Qed.

Lemma digits2_pos_mono m1 m2 :
  (m1 < m2)%positive -> Zpos (digits2_pos m1) <= Zpos (digits2_pos m2).
Proof.
  intros Hlt.
  pose proof (digits2_pos_bounds m1) as [H1 _].
  pose proof (digits2_pos_bounds m2) as [_ H2].
  assert (Hp : 2 ^ (Zpos (digits2_pos m1) - 1) < 2 ^ Zpos (digits2_pos m2)) by lia.
  apply Z.pow_lt_mono_r_iff in Hp; lia.
Qed.

(** The images in binary64 of two binary32 values of one sign are in the
    order of the values. *)
Lemma magnitude_image s1 m1 e1 s2 m2 e2 :
  is_float32 (S754_finite s1 m1 e1) ->
  is_float32 (S754_finite s2 m2 e2) ->
  let d1 := Zpos (digits2_pos m1) in
  let d2 := Zpos (digits2_pos m2) in
  match Z.compare (d1 + e1 - 53) (d2 + e2 - 53) with
  | Lt => Lt
  | Gt => Gt
  | Eq => Pos.compare_cont Eq (Pos.iter xO m1 (Z.to_pos (53 - d1)))
            (Pos.iter xO m2 (Z.to_pos (53 - d2)))
  end
  = match Z.compare e1 e2 with
    | Lt => Lt
    | Gt => Gt
    | Eq => Pos.compare_cont Eq m1 m2
    end.
Proof.
  intros H1 H2 d1 d2.
  destruct (of_float32_finite _ _ _ H1) as (_ & K1 & F1 & B1).
  destruct (of_float32_finite _ _ _ H2) as (_ & K2 & F2 & B2).
  fold d1 in K1, F1. fold d2 in K2, F2.
  unfold fexp, emin in F1, F2.
  change (Pos.compare_cont Eq) with Pos.compare.
  destruct (Z.compare_spec e1 e2) as [He|He|He].
  - subst e2.
    destruct (Pos.compare_spec m1 m2) as [Hm|Hm|Hm].
    + subst m2. subst d2. rewrite Z.compare_refl. apply Pos.compare_refl.
    + pose proof (digits2_pos_mono _ _ Hm) as Hd. fold d1 d2 in Hd.
      destruct (Z.compare_spec (d1 + e1 - 53) (d2 + e1 - 53)) as [Hc|Hc|Hc];
        [|reflexivity|lia].
      assert (d1 = d2) as Heq by lia. rewrite Heq.
      rewrite compare_iter_xO. apply Pos.compare_lt_iff, Hm.
    + pose proof (digits2_pos_mono _ _ Hm) as Hd. fold d1 d2 in Hd.
      destruct (Z.compare_spec (d1 + e1 - 53) (d2 + e1 - 53)) as [Hc|Hc|Hc];
        [|lia|reflexivity].
      assert (d1 = d2) as Heq by lia. rewrite Heq.
      rewrite compare_iter_xO. apply Pos.compare_gt_iff, Hm.
  - destruct (Z.compare_spec (d1 + e1 - 53) (d2 + e2 - 53)); [lia|reflexivity|lia].
  - destruct (Z.compare_spec (d1 + e1 - 53) (d2 + e2 - 53)); [lia|lia|reflexivity].
Qed.

Lemma of_float32_compare a b :
  is_float32 a -> is_float32 b ->
  SFcompare (of_float32 a) (of_float32 b) = SFcompare a b.
Proof.
  intros Ha Hb.
  destruct a as [sa|sa| |sa ma ea]; destruct b as [sb|sb| |sb mb eb];
    try reflexivity.
  - destruct (of_float32_finite _ _ _ Hb) as (-> & _). reflexivity.
  - destruct (of_float32_finite _ _ _ Hb) as (-> & _). reflexivity.
  - destruct (of_float32_finite _ _ _ Ha) as (-> & _). reflexivity.
  - destruct (of_float32_finite _ _ _ Ha) as (-> & _). reflexivity.
  - destruct (of_float32_finite _ _ _ Ha) as (-> & _). reflexivity.
  - pose proof (magnitude_image _ _ _ _ _ _ Ha Hb) as Hm. cbv zeta in Hm.
    destruct (of_float32_finite _ _ _ Ha) as (-> & _).
    destruct (of_float32_finite _ _ _ Hb) as (-> & _).
    cbn [SFcompare]. destruct sa, sb; try reflexivity.
    + f_equal.
      destruct (Z.compare (Zpos (digits2_pos ma) + ea - 53)
                  (Zpos (digits2_pos mb) + eb - 53));
        destruct (Z.compare ea eb);
        try reflexivity; try discriminate Hm;
        try (rewrite Hm; reflexivity); rewrite <- Hm; reflexivity.
    + f_equal. exact Hm.
Qed.

Lemma of_float32_leb a b :
  is_float32 a -> is_float32 b ->
  SFleb (of_float32 a) (of_float32 b) = SFleb a b.
Proof. intros Ha Hb. unfold SFleb. rewrite of_float32_compare; auto. Qed.

End Float32Order.

(** ** From the loaded file to the crop test *)

Section FreshCropBox.
Import GLSL Shader.

Variable Math_exp : number -> number.
Variable typeErrorMessage rangeErrorMessage : jsstring.

(** A Number that holds a binary32 value. *)
Local Abbreviation image c := (exists f, is_float32 f /\ c = of_float32 f).

Lemma getFloat32_image view off v : getFloat32 view off = Ok v -> image v.
Proof.
  unfold getFloat32.
  destruct ((off <? 0) || (byteLength view <? off + 4)).
  { intros H. destruct (Throw_not_Ok _ _ H). }
  destruct (take 4 (drop (Z.to_nat off) view)) as [|b0 [|b1 [|b2 [|b3 [|]]]]];
    intros H; try (destruct (Throw_not_Ok _ _ H)).
  apply Ok_inj in H. subst v. eexists. split; [apply float32_of_bits_valid|].
  reflexivity.
Qed.

Lemma readFloat_image view m off n v :
  PlyLoader.readFloat view m off n = Ok v -> image v.
Proof.
  unfold PlyLoader.readFloat. intros H. apply bind_Ok in H as (o & _ & H).
  eapply getFloat32_image, H.
Qed.

Lemma axis_inside lo c hi :
  image lo -> image c -> image hi ->
  leb lo c = true -> leb c hi = true ->
  flt (Viewer.glFloat c) (Viewer.glFloat lo) = false
  /\ fgt (Viewer.glFloat c) (Viewer.glFloat hi) = false.
Proof.
  intros (flo & Vlo & ->) (fc & Vc & ->) (fhi & Vhi & ->) Hlo Hhi.
  unfold Viewer.glFloat. rewrite !float32_roundtrip by assumption.
  unfold leb in Hlo, Hhi. rewrite of_float32_leb in Hlo, Hhi by assumption.
  unfold flt, fgt. split; apply SFleb_not_gt; assumption.
Qed.

Lemma box_bounds k ps c :
  let cs := map (fun p => THREE.getComponent k (PlyLoader.p_vector p)) ps in
  Forall (fun c => c <> NaN) cs ->
  c ∈ cs ->
  let lo := THREE.getComponent k (THREE.min (PlyLoader.boxOf ps)) in
  let hi := THREE.getComponent k (THREE.max (PlyLoader.boxOf ps)) in
  leb lo c = true /\ leb c hi = true /\ lo ∈ cs /\ hi ∈ cs.
Proof.
  intros cs Hnn Hc lo hi. subst lo hi.
  unfold PlyLoader.boxOf. rewrite boxOf_min, boxOf_max. fold cs.
  replace (THREE.getComponent k (THREE.min THREE.emptyBox)) with Infinity
    by (destruct k as [|[|k]]; reflexivity).
  replace (THREE.getComponent k (THREE.max THREE.emptyBox)) with neg_Infinity
    by (destruct k as [|[|k]]; reflexivity).
  destruct (fold_min_spec cs Infinity) as (_ & _ & Hlo & Hlo_in);
    [unfold Infinity; congruence | exact Hnn |].
  destruct (fold_max_spec cs neg_Infinity) as (_ & _ & Hhi & Hhi_in);
    [unfold neg_Infinity; congruence | exact Hnn |].
  split; [apply Hlo, Hc|]. split; [apply Hhi, Hc|]. split.
  - destruct Hlo_in as [Heq|Hin]; [|exact Hin].
    pose proof (Hlo c Hc) as Hle. rewrite Heq in Hle.
    apply SFleb_Infinity in Hle. rewrite Heq, <- Hle. exact Hc.
  - destruct Hhi_in as [Heq|Hin]; [|exact Hin].
    pose proof (Hhi c Hc) as Hle. rewrite Heq in Hle.
    apply SFleb_neg_Infinity in Hle. rewrite Heq, <- Hle. exact Hc.
Qed.

Lemma position_entries buffer data :
  PlyLoader.parsePly Math_exp buffer = Ok data ->
  exists ps,
    length ps = PlyLoader.iterations (pointCount data)
    /\ boundingBox data = PlyLoader.boxOf ps
    /\ forall t p (k : nat), ps !! t = Some p -> (k < 3)%nat ->
         positions data !! (3 * t + k)%nat
         = Some (THREE.getComponent k (PlyLoader.p_vector p))
         /\ image (THREE.getComponent k (PlyLoader.p_vector p)).
Proof.
  intros Hparse.
  apply parsePly_points in Hparse
    as (text & h & ps & Htext & Hh & _ & Hlen & Hread & Hpos & _ & _ & _ & _ & Hbox).
  exists ps. split; [exact Hlen|]. split; [exact Hbox|].
  intros t p k Hp Hk.
  pose proof (Hread _ _ Hp) as Hpt.
  apply readPoint_inv in Hpt as (Hx & Hy & Hz & _).
  assert (Fp : Forall (fun p => length (PlyLoader.p_position p) = 3%nat) ps)
    by (apply Forall_forall; reflexivity).
  rewrite Hpos, (written_lookup PlyLoader.p_position 3 ps Fp t p k Hp Hk).
  unfold PlyLoader.p_position.
  destruct k as [|[|[|k]]]; [| | |lia];
    cbn [lookup list_lookup fmap option_fmap option_map THREE.getComponent
         PlyLoader.p_vector THREE.x THREE.y THREE.z].
  - rewrite (readFloat_fround _ _ _ _ _ Hx).
    split; [reflexivity | eapply readFloat_image, Hx].
  - rewrite (readFloat_fround _ _ _ _ _ Hy).
    split; [reflexivity | eapply readFloat_image, Hy].
  - rewrite (readFloat_fround _ _ _ _ _ Hz).
    split; [reflexivity | eapply readFloat_image, Hz].
Qed.

Lemma fresh_crop_test buffer data s u (i : nat) :
  PlyLoader.parsePly Math_exp buffer = Ok data ->
  Forall (fun c => c <> NaN) (positions data) ->
  (i < PlyLoader.iterations (pointCount data))%nat ->
  let s' := App.handleLoad Math_exp typeErrorMessage rangeErrorMessage s
              (Readable buffer) in
  let crop := Controls.toggleCrop (App.crop s') in
  let u' := Viewer.updateUniforms (App.appearance s') (App.renderMode s') crop u in
  u_crop_enabled u' = true
  /\ cropDiscard u' (Viewer.positionOf (positions data) i) = lit 0.
Proof.
  intros Hparse Hnan Hi s' crop u'.
  assert (Hcrop : App.crop s'
            = {| Types.min := THREE.min (boundingBox data);
                 Types.max := THREE.max (boundingBox data);
                 Types.enabled := false |}).
  { subst s'. unfold App.handleLoad. cbn [PlyLoader.loadPly]. rewrite Hparse.
    unfold App.loaded. destruct (scales data), (rotations data); reflexivity. }
  assert (Hen : u_crop_enabled u' = true).
  { subst u' crop. cbn [Viewer.updateUniforms u_crop_enabled Controls.toggleCrop
                        Types.enabled]. rewrite Hcrop. reflexivity. }
  split; [exact Hen|].
  destruct (position_entries _ _ Hparse) as (ps & Hlen & Hbox & Hent).
  rewrite <- Hlen in Hi. destruct (lookup_lt_is_Some_2 ps i Hi) as [p Hp].
  assert (Haxis : forall k : nat, (k < 3)%nat ->
            let c := THREE.getComponent k (PlyLoader.p_vector p) in
            let lo := THREE.getComponent k (THREE.min (boundingBox data)) in
            let hi := THREE.getComponent k (THREE.max (boundingBox data)) in
            flt (Viewer.glFloat c) (Viewer.glFloat lo) = false
            /\ fgt (Viewer.glFloat c) (Viewer.glFloat hi) = false).
  { intros k Hk c lo hi. subst lo hi. rewrite Hbox.
    set (cs := map (fun p => THREE.getComponent k (PlyLoader.p_vector p)) ps).
    assert (Himg : forall c', c' ∈ cs -> c' <> NaN /\ image c').
    { intros c' Hc'. apply list_elem_of_fmap in Hc' as (q & -> & Hq).
      apply list_elem_of_lookup in Hq as [t Ht].
      destruct (Hent t q k Ht Hk) as [Hpos Him]. split; [|exact Him].
      rewrite Forall_forall in Hnan. apply Hnan.
      eapply list_elem_of_lookup_2, Hpos. }
    assert (Hc : c ∈ cs).
    { apply list_elem_of_fmap. exists p. split; [reflexivity|].
      eapply list_elem_of_lookup_2, Hp. }
    assert (Hnn : Forall (fun c => c <> NaN) cs).
    { apply Forall_forall. intros c' Hc'. apply Himg, Hc'. }
    destruct (box_bounds k ps c Hnn Hc) as (Hlo & Hhi & Hlo_in & Hhi_in).
    apply axis_inside; try assumption; apply Himg; assumption. }
  destruct (Hent i p 0%nat Hp ltac:(lia)) as [E0 _].
  destruct (Hent i p 1%nat Hp ltac:(lia)) as [E1 _].
  destruct (Hent i p 2%nat Hp ltac:(lia)) as [E2 _].
  rewrite Nat.add_0_r in E0.
  destruct (Haxis 0%nat ltac:(lia)) as [X1 X2].
  destruct (Haxis 1%nat ltac:(lia)) as [Y1 Y2].
  destruct (Haxis 2%nat ltac:(lia)) as [Z1 Z2].
  cbv zeta in X1, X2, Y1, Y2, Z1, Z2.
  cbn [THREE.getComponent] in X1, X2, Y1, Y2, Z1, Z2.
  unfold cropDiscard. rewrite Hen.
  subst u' crop.
  cbn [Viewer.updateUniforms u_crop_min u_crop_max Controls.toggleCrop
       Types.min Types.max Viewer.glVec3 Viewer.positionOf x y z].
  rewrite Hcrop. cbn [Types.min Types.max].
  rewrite E0, E1, E2. cbn [default THREE.getComponent].
  unfold id. rewrite X1, X2, Y1, Y2, Z1, Z2. reflexivity.
Qed.

(** X23: the crop box a load installs holds every point of the dataset
    (for a dataset whose positions hold no NaN): with cropping switched on
    right after the load, the crop test of the vertex shader flags none of
    them.  For a file without splat data, which is shown in mode 0,
    [v_discard] is then 0.0 for every point; in splat mode [v_discard] is
    1.0 exactly for the points whose determinant passes the test
    [d <= 0.0], and 0.0 for the others. *)
Theorem fresh_crop_box_keeps_every_point buffer data s u (i : nat) :
  PlyLoader.parsePly Math_exp buffer = Ok data ->
  Forall (fun c => c <> NaN) (positions data) ->
  (i < PlyLoader.iterations (pointCount data))%nat ->
  let s' := App.handleLoad Math_exp typeErrorMessage rangeErrorMessage s
              (Readable buffer) in
  let crop := Controls.toggleCrop (App.crop s') in
  let u' := Viewer.updateUniforms (App.appearance s') (App.renderMode s') crop u in
  u_crop_enabled u' = true
  /\ cropDiscard u' (Viewer.positionOf (positions data) i) = lit 0
  /\ (forall a old,
        position a = Viewer.positionOf (positions data) i ->
        scales data = None \/ rotations data = None ->
        u_render_mode u' = 0
        /\ v_discard (vertexMain u' a old) = lit 0)
  /\ (forall a old,
        position a = Viewer.positionOf (positions data) i ->
        u_render_mode u' = 2 ->
        v_discard (vertexMain u' a old)
        = if fle (determinant (projectedCovariance u' a (camPos u' a))) (lit 0)
          then lit 1 else lit 0).
Proof.
  intros Hparse Hnan Hi s' crop u'.
  destruct (fresh_crop_test buffer data s u i Hparse Hnan Hi) as [Hen Hcrop].
  fold s' in Hen, Hcrop. fold crop in Hen, Hcrop. fold u' in Hen, Hcrop.
  split; [exact Hen|]. split; [exact Hcrop|]. split.
  - intros a old Hpos Hnone.
    assert (Hmode : u_render_mode u' = 0).
    { subst u'. cbn [Viewer.updateUniforms u_render_mode].
      assert (Hr : App.renderMode s' = Types.ORIGINAL).
      { subst s'. unfold App.handleLoad. cbn [PlyLoader.loadPly]. rewrite Hparse.
        unfold App.loaded.
        destruct Hnone as [-> | ->]; [|destruct (scales data)]; reflexivity. }
      rewrite Hr. reflexivity. }
    split; [exact Hmode|].
    unfold vertexMain. rewrite Hmode. change (0 =? 2) with false.
    cbv iota. cbn [v_discard]. rewrite Hpos. exact Hcrop.
  - intros a old Hpos Hmode.
    unfold vertexMain. rewrite Hmode. change (2 =? 2) with true.
    cbv iota zeta. cbn [v_discard]. rewrite Hpos, Hcrop. reflexivity.
Qed.

End FreshCropBox.

(** ** Where the records start *)

Section HeaderEnd.

Lemma startsWith_app_long p : forall A B,
  (length p <= length A)%nat -> startsWith (A ++ B) p = startsWith A p.
Proof.
  induction p as [|c p IH]; intros A B Hlen.
  - destruct A, B; reflexivity.
  - destruct A as [|a A]; [cbn [length] in Hlen; lia|].
    cbn [app startsWith]. rewrite IH; [reflexivity|]. cbn [length] in Hlen. lia.
Qed.

Lemma indexOf_from_range p s : forall i r,
  indexOf_from s p i = r ->
  r = -1 \/ (i <= r /\ r - i + Z.of_nat (length p) <= Z.of_nat (length s)).
Proof.
  induction s as [|c s IH]; intros i r; cbn [indexOf_from].
  - destruct (startsWith [] p) eqn:Hs; intros <-; [|left; reflexivity].
    apply startsWith_length in Hs. right. lia.
  - destruct (startsWith (c :: s) p) eqn:Hs.
    + intros <-. apply startsWith_length in Hs. right. lia.
    + intros Hr. apply IH in Hr as [Hr|Hr]; [left; exact Hr | right].
      cbn [length]. lia.
Qed.

(** The first occurrence is found in the part of the string it lies
    in. *)
Lemma indexOf_from_prefix p A : forall B B' i r,
  0 <= i ->
  indexOf_from (A ++ B) p i = r ->
  i <= r ->
  r - i + Z.of_nat (length p) <= Z.of_nat (length A) ->
  indexOf_from (A ++ B') p i = r.
Proof.
  induction A as [|a A IH]; intros B B' i r Hi Hr Hle Hin.
  - cbn [length] in Hin. assert (length p = 0%nat) as Hp by lia.
    destruct p; [|discriminate Hp].
    cbn [app] in *. destruct B, B'; cbn [indexOf_from startsWith] in *; exact Hr.
  - assert (Hshort : (length p <= length (a :: A))%nat) by lia.
    cbn [app indexOf_from] in *.
    change (a :: A ++ B) with ((a :: A) ++ B) in Hr.
    change (a :: A ++ B') with ((a :: A) ++ B').
    rewrite startsWith_app_long in Hr |- * by exact Hshort.
    destruct (startsWith (a :: A) p); [exact Hr|].
    pose proof (indexOf_from_range _ _ _ _ Hr) as [Hneg|[Hlo Hhi]]; [lia|].
    cbn [length] in Hin.
    apply (IH B B' (i + 1) r); [lia | exact Hr | lia | lia].
Qed.

Lemma run_ascii b bs :
  Z.of_N (Byte.to_N b) <= 127 ->
  TextDecoder.run TextDecoder.initial (b :: bs)
  = Z.of_N (Byte.to_N b) :: TextDecoder.run TextDecoder.initial bs.
Proof.
  intros Hb. cbn [TextDecoder.run].
  change (TextDecoder.step TextDecoder.initial (Z.of_N (Byte.to_N b)))
    with (TextDecoder.start (Z.of_N (Byte.to_N b))).
  unfold TextDecoder.start.
  destruct (Z.leb_spec (Z.of_N (Byte.to_N b)) 127); [reflexivity | lia].
Qed.

Lemma stripBOM_ascii c cps :
  c <= 127 -> TextDecoder.stripBOM (c :: cps) = c :: cps.
Proof.
  intros Hc. unfold TextDecoder.stripBOM.
  destruct c as [|[q|q|]|q]; auto.
  repeat (destruct q as [q|q|]; auto); lia.
Qed.

Lemma units_ascii_prefix P : forall R,
  Forall (fun b => (Byte.to_N b < 128)%N) P ->
  TextDecoder.units TextDecoder.initial (P ++ R)
  = map Byte.to_N P ++ TextDecoder.units TextDecoder.initial R.
Proof.
  induction P as [|b P IH]; intros R HP; [reflexivity|].
  apply Forall_cons in HP as [Hb HP].
  cbn [app map]. rewrite units_initial_ascii by lia. rewrite IH by exact HP.
  reflexivity.
Qed.

Lemma decode_ascii_prefix P R :
  P <> [] ->
  Forall (fun b => (Byte.to_N b < 128)%N) P ->
  TextDecoder.decode (P ++ R)
  = map Byte.to_N P ++ TextDecoder.units TextDecoder.initial R.
Proof.
  intros Hne HP. rewrite <- units_ascii_prefix by exact HP.
  destruct P as [|b P]; [congruence|].
  apply Forall_cons in HP as [Hb _].
  unfold TextDecoder.decode, TextDecoder.units. cbn [app].
  rewrite run_ascii by lia. rewrite stripBOM_ascii by lia. reflexivity.
Qed.

(** X24: in a file whose bytes are ASCII up to the end of the first
    [end_header], the index the loader finds in the decoded text is the
    byte index of the marker, and the records are read from the byte that
    follows the one after the marker. *)
Theorem records_start_after_marker buffer text k :
  PlyLoader.headerText buffer = Ok text ->
  indexOf (map Byte.to_N (take (Z.to_nat 10240) buffer)) PlyLoader.marker = k ->
  0 <= k ->
  Forall (fun b => (Byte.to_N b < 128)%N) (take (Z.to_nat (k + 10)) buffer) ->
  indexOf text PlyLoader.marker = k
  /\ PlyLoader.headerEndOf text = k + 11
  /\ (k + 11 <= byteLength buffer ->
      newDataView buffer (PlyLoader.headerEndOf text)
      = Ok (drop (Z.to_nat (k + 11)) buffer)).
Proof.
  intros Htext Hk Hk0 Hascii.
  destruct (headerText_Ok _ _ Htext) as [-> Hlen].
  set (window := take (Z.to_nat 10240) buffer) in *.
  assert (Hm : length PlyLoader.marker = 10%nat) by reflexivity.
  unfold indexOf in Hk.
  destruct (indexOf_from_range _ _ _ _ Hk) as [Hneg|[_ Hin]]; [lia|].
  rewrite Hm, length_map in Hin.
  set (P := take (Z.to_nat (k + 10)) window).
  set (R := drop (Z.to_nat (k + 10)) window).
  assert (Hsplit : window = P ++ R) by (symmetry; apply take_drop).
  assert (Hw : Z.of_nat (length window) <= 10240).
  { subst window. rewrite length_take. lia. }
  assert (HP : P = take (Z.to_nat (k + 10)) buffer).
  { subst P window. rewrite take_take. f_equal. lia. }
  assert (HlenP : Z.of_nat (length P) = k + 10).
  { subst P. rewrite length_take. lia. }
  assert (Hidx : indexOf (TextDecoder.decode window) PlyLoader.marker = k).
  { rewrite Hsplit.
    rewrite decode_ascii_prefix;
      [|intros HP0; rewrite HP0 in HlenP; cbn [length] in HlenP; lia
       |rewrite HP; exact Hascii].
    unfold indexOf.
    apply (indexOf_from_prefix _ _ (map Byte.to_N R)); [lia| |lia|].
    - rewrite <- map_app, <- Hsplit. exact Hk.
    - rewrite Hm, length_map. lia. }
  split; [exact Hidx|].
  assert (Hend : PlyLoader.headerEndOf (TextDecoder.decode window) = k + 11).
  { unfold PlyLoader.headerEndOf. fold PlyLoader.marker. rewrite Hidx. lia. }
  split; [exact Hend|].
  intros Hfit. rewrite Hend. unfold newDataView.
  destruct (Z.ltb_spec (k + 11) 0); [lia|].
  destruct (Z.ltb_spec (byteLength buffer) (k + 11)); [lia|]. reflexivity.
Qed.

End HeaderEnd.

Section UnitColours.

Variable Math_exp : number -> number.

Lemma byte_ratio_unit k :
  0 <= k <= 255 ->
  leb zero (Math_fround (div (of_Z k) (of_Z 255))) = true
  /\ leb (Math_fround (div (of_Z k) (of_Z 255))) one = true.
Proof.
  intros Hk.
  assert (Hall : forallb
            (fun n => leb zero (Math_fround (div (of_Z (Z.of_nat n)) (of_Z 255)))
                      && leb (Math_fround (div (of_Z (Z.of_nat n)) (of_Z 255))) one)
            (seq 0 256) = true) by (vm_compute; reflexivity).
  rewrite forallb_forall in Hall.
  specialize (Hall (Z.to_nat k)). rewrite Z2Nat.id in Hall by lia.
  apply andb_true_iff. apply Hall. apply in_seq. lia.
Qed.

Lemma written_Forall (Q : number -> Prop) vals ps :
  Forall (fun p => Forall Q (map Math_fround (vals p))) ps ->
  Forall Q (PlyLoader.written vals ps).
Proof.
  unfold PlyLoader.written. induction 1 as [|p ps Hp _ IH]; cbn [flat_map].
  - constructor.
  - apply Forall_app. split; assumption.
Qed.

(** X25: without the SH scheme every colour channel of a parsed dataset
    lies between 0 and 1. *)
Theorem classic_colors_in_unit_interval buffer data h :
  PlyLoader.parsePly Math_exp buffer = Ok data ->
  PlyLoader.headerOf buffer = Ok h ->
  Header.hasSHColor h = false ->
  Forall (fun c => leb zero c = true /\ leb c one = true) (colors data).
Proof.
  intros Hparse Hhdr Hsh.
  apply parsePly_points in Hparse
    as (text & h' & ps & Htext & Hh & _ & _ & Hread & _ & Hcol & _).
  rewrite (headerOf_eq _ _ _ Htext Hh) in Hhdr. apply Ok_inj in Hhdr. subst h'.
  rewrite Hcol. apply written_Forall. apply Forall_lookup. intros t p Hp.
  apply Hread in Hp. rewrite Hsh in Hp.
  apply readPoint_inv in Hp as (_ & _ & _ & Hc & _).
  apply readColor_classic in Hc as (r & g & b & Hr & Hg & Hb & ->).
  destruct (readByte_Ok _ _ _ _ _ Hr) as (kr & Hkr & ->).
  destruct (readByte_Ok _ _ _ _ _ Hg) as (kg & Hkg & ->).
  destruct (readByte_Ok _ _ _ _ _ Hb) as (kb & Hkb & ->).
  cbn [map]. repeat constructor; apply byte_ratio_unit; assumption.
Qed.

End UnitColours.

Section ShaderQuaternion.
Import GLSL.

Variable Math_exp : number -> number.

(** X26: the loader stores the quaternion with [rot_3] first and the vertex
    shader reads it as [vec4(a_rotation.yzw, a_rotation.x)]: the vector the
    shader normalises has the components of the file in the order of the
    file, [rot_0] as x and [rot_3] as w, each divided by the norm. *)
Theorem shader_quaternion_in_file_order buffer data rs (i : nat) :
  PlyLoader.parsePly Math_exp buffer = Ok data ->
  rotations data = Some rs ->
  (i < PlyLoader.iterations (pointCount data))%nat ->
  exists q0 q1 q2 q3,
    PlyLoader.rawFloat buffer (Z.of_nat i) "rot_0" = Ok q0
    /\ PlyLoader.rawFloat buffer (Z.of_nat i) "rot_1" = Ok q1
    /\ PlyLoader.rawFloat buffer (Z.of_nat i) "rot_2" = Ok q2
    /\ PlyLoader.rawFloat buffer (Z.of_nat i) "rot_3" = Ok q3
    /\ let L := Math_sqrt (add (add (add (mul q0 q0) (mul q1 q1)) (mul q2 q2))
                              (mul q3 q3)) in
       let a_rotation := Viewer.rotationOf rs i in
       {| x4 := y4 a_rotation; y4 := z4 a_rotation; z4 := w4 a_rotation;
          w4 := x4 a_rotation |}
       = {| x4 := Viewer.glFloat (Math_fround (div q0 L));
            y4 := Viewer.glFloat (Math_fround (div q1 L));
            z4 := Viewer.glFloat (Math_fround (div q2 L));
            w4 := Viewer.glFloat (Math_fround (div q3 L)) |}.
Proof.
  intros Hparse Hrs Hi.
  apply parsePly_points in Hparse
    as (text & h & ps & Htext & Hh & _ & Hlen & Hread & _ & _ & _ & _ & Hrot & _).
  rewrite Hrs in Hrot. destruct (Header.hasSplat h) eqn:Hsplat; [|discriminate Hrot].
  apply Some_inj in Hrot. subst rs.
  rewrite <- Hlen in Hi. destruct (lookup_lt_is_Some_2 ps i Hi) as [p Hp].
  assert (Hall : Forall (fun p => length (PlyLoader.p_rotation p) = 4%nat) ps).
  { apply Forall_lookup. intros t p' Ht. apply Hread in Ht.
    apply readPoint_inv in Ht as (_ & _ & _ & _ & Hs).
    apply readSplat_length in Hs as [_ Hs]. exact Hs. }
  pose proof (Hread _ _ Hp) as Hpt.
  apply readPoint_inv in Hpt as (_ & _ & _ & _ & Hs).
  apply readSplat_true in Hs
    as (s0 & s1 & s2 & qx & qy & qz & qw & _ & _ & _ & Hx & Hy & Hz & Hw & _ & Hr).
  exists qx, qy, qz, qw.
  rewrite !(rawFloat_read buffer text h) by assumption.
  split; [exact Hx|]. split; [exact Hy|]. split; [exact Hz|]. split; [exact Hw|].
  cbv zeta.
  pose proof (written_lookup PlyLoader.p_rotation 4 ps Hall i p) as Hl.
  rewrite Hr in Hl. unfold PlyLoader.normalizedRotation in Hl.
  unfold Viewer.rotationOf. cbn [x4 y4 z4 w4].
  rewrite <- (Nat.add_0_r (4 * i)) at 4.
  rewrite (Hl 0%nat Hp), (Hl 1%nat Hp), (Hl 2%nat Hp), (Hl 3%nat Hp) by lia.
  reflexivity.
Qed.

End ShaderQuaternion.

Section FailedLoad.

Variable Math_exp : number -> number.
Variable typeErrorMessage rangeErrorMessage : jsstring.

Local Abbreviation handleLoad :=
  (App.handleLoad Math_exp typeErrorMessage rangeErrorMessage).

(** X27: a load that fails clears the dataset but keeps the crop box and the
    transformations of the state it started from. *)
Theorem failed_load_keeps_controls s source e :
  PlyLoader.loadPly Math_exp source = Throw e ->
  App.crop (handleLoad s source) = App.crop s
  /\ App.transformations (handleLoad s source) = App.transformations s
  /\ App.resetControls (handleLoad s source)
     = App.setTransformations App.defaultTransformations (handleLoad s source).
Proof.
  intros Hload. unfold App.handleLoad. rewrite Hload. repeat split.
Qed.

(** X28: a load overwrites everything an earlier load of the same file
    wrote: loading a file twice leaves the state of loading it once. *)
Theorem load_twice_is_load_once s source :
  handleLoad (handleLoad s source) source = handleLoad s source.
Proof.
  unfold App.handleLoad.
  destruct (PlyLoader.loadPly Math_exp source) as [data|e]; destruct s.
  - unfold App.loaded. destruct (scales data), (rotations data);
      cbv [App.beginLoad App.endLoad App.setRenderMode App.setSplatDataAvailable
           App.setLoadingProgress App.setError App.setIsLoading App.setPlyData
           App.setStatsPointCount App.setCrop App.setTransformations
           App.plyData App.isLoading App.loadingProgress App.error
           App.splatDataAvailable App.transformations App.crop App.appearance
           App.helpers App.renderMode App.stats Types.fps Types.pointCount];
      reflexivity.
  - cbv [App.failed App.beginLoad App.endLoad App.setRenderMode
         App.setSplatDataAvailable
         App.setLoadingProgress App.setError App.setIsLoading App.setPlyData
         App.setStatsPointCount App.setCrop App.setTransformations
         App.plyData App.isLoading App.loadingProgress App.error
         App.splatDataAvailable App.transformations App.crop App.appearance
         App.helpers App.renderMode App.stats Types.fps Types.pointCount].
    reflexivity.
Qed.

End FailedLoad.

Lemma fresh_crop_box_witness :
  PlyLoader.parsePly Samples.exp0 Samples.file246 = Ok Samples.data246
  /\ Shader.cropDiscard
       (Viewer.updateUniforms
          (App.appearance
             (App.handleLoad Samples.exp0 [] [] App.initialState
                (Readable Samples.file246)))
          (App.renderMode
             (App.handleLoad Samples.exp0 [] [] App.initialState
                (Readable Samples.file246)))
          (Controls.toggleCrop
             (App.crop
                (App.handleLoad Samples.exp0 [] [] App.initialState
                   (Readable Samples.file246))))
          (ShaderSamples.uniforms 0 false (ShaderSamples.v3 0 0 0)
             (ShaderSamples.v3 0 0 0)))
       (Viewer.positionOf (positions Samples.data246) 1)
     = GLSL.lit 0
  /\ Shader.v_discard
       (Shader.vertexMain
          (Viewer.updateUniforms
             (App.appearance
                (App.handleLoad Samples.exp0 [] [] App.initialState
                   (Readable Samples.file246)))
             (App.renderMode
                (App.handleLoad Samples.exp0 [] [] App.initialState
                   (Readable Samples.file246)))
             (Controls.toggleCrop
                (App.crop
                   (App.handleLoad Samples.exp0 [] [] App.initialState
                      (Readable Samples.file246))))
             (ShaderSamples.uniforms 0 false (ShaderSamples.v3 0 0 0)
                (ShaderSamples.v3 0 0 0)))
          (ShaderSamples.point (Viewer.positionOf (positions Samples.data246) 1)
             (ShaderSamples.v3 1 1 1))
          ShaderSamples.blank)
     = GLSL.lit 0.
Proof.
  assert (H : PlyLoader.parsePly Samples.exp0 Samples.file246 = Ok Samples.data246)
    by (vm_compute; reflexivity).
  assert (Hn : Forall (fun c => c <> NaN) (positions Samples.data246))
    by (vm_compute; repeat constructor; discriminate).
  assert (Hi : (1 < PlyLoader.iterations (pointCount Samples.data246))%nat)
    by (vm_compute; lia).
  pose proof (fresh_crop_box_keeps_every_point Samples.exp0 [] [] Samples.file246
                Samples.data246 App.initialState
                (ShaderSamples.uniforms 0 false (ShaderSamples.v3 0 0 0)
                   (ShaderSamples.v3 0 0 0)) 1%nat H Hn Hi) as (_ & Hc & Hv & _).
  split; [exact H|]. split; [exact Hc|].
  exact (proj2 (Hv (ShaderSamples.point
                      (Viewer.positionOf (positions Samples.data246) 1)
                      (ShaderSamples.v3 1 1 1))
                   ShaderSamples.blank eq_refl (or_introl eq_refl))).
Defined.

Lemma records_start_witness :
  PlyLoader.headerText Samples.file246 = Ok (Samples.textOf Samples.file246)
  /\ PlyLoader.headerEndOf (Samples.textOf Samples.file246) = 164 + 11.
Proof.
  assert (H : PlyLoader.headerText Samples.file246
              = Ok (Samples.textOf Samples.file246)) by (vm_compute; reflexivity).
  split; [exact H|].
  apply (records_start_after_marker Samples.file246 _ 164 H).
  - vm_compute. reflexivity.
  - lia.
  - vm_compute. repeat constructor.
Defined.

Lemma unit_colors_witness :
  PlyLoader.parsePly Samples.exp0 Samples.file246 = Ok Samples.data246
  /\ Forall (fun c => leb zero c = true /\ leb c one = true)
       (colors Samples.data246).
Proof.
  assert (H : PlyLoader.parsePly Samples.exp0 Samples.file246 = Ok Samples.data246)
    by (vm_compute; reflexivity).
  split; [exact H|].
  apply (classic_colors_in_unit_interval Samples.exp0 _ _
           (Samples.headerOf Samples.file246) H);
    vm_compute; reflexivity.
Defined.

Lemma shader_quaternion_witness :
  PlyLoader.parsePly Samples.exp0 Samples.fileQuat = Ok Samples.dataQuat
  /\ exists q0 q1 q2 q3,
       PlyLoader.rawFloat Samples.fileQuat 0 "rot_0" = Ok q0
       /\ PlyLoader.rawFloat Samples.fileQuat 0 "rot_1" = Ok q1
       /\ PlyLoader.rawFloat Samples.fileQuat 0 "rot_2" = Ok q2
       /\ PlyLoader.rawFloat Samples.fileQuat 0 "rot_3" = Ok q3
       /\ let L := Math_sqrt (add (add (add (mul q0 q0) (mul q1 q1)) (mul q2 q2))
                                 (mul q3 q3)) in
          let a_rotation :=
            Viewer.rotationOf (default [] (rotations Samples.dataQuat)) 0 in
          {| GLSL.x4 := GLSL.y4 a_rotation; GLSL.y4 := GLSL.z4 a_rotation;
             GLSL.z4 := GLSL.w4 a_rotation; GLSL.w4 := GLSL.x4 a_rotation |}
          = {| GLSL.x4 := Viewer.glFloat (Math_fround (div q0 L));
               GLSL.y4 := Viewer.glFloat (Math_fround (div q1 L));
               GLSL.z4 := Viewer.glFloat (Math_fround (div q2 L));
               GLSL.w4 := Viewer.glFloat (Math_fround (div q3 L)) |}.
Proof.
  assert (H : PlyLoader.parsePly Samples.exp0 Samples.fileQuat = Ok Samples.dataQuat)
    by (vm_compute; reflexivity).
  split; [exact H|].
  apply (shader_quaternion_in_file_order Samples.exp0 _ _
           (default [] (rotations Samples.dataQuat)) 0%nat H).
  - reflexivity.
  - vm_compute. lia.
Defined.

Lemma failed_load_controls_witness :
  PlyLoader.loadPly Samples.exp0 (Readable Samples.fileZeros)
  = Throw (Error PlyLoader.msgUnsupportedEncoding)
  /\ App.crop
       (App.handleLoad Samples.exp0 [] []
          (App.handleLoad Samples.exp0 [] [] App.initialState
             (Readable Samples.file246))
          (Readable Samples.fileZeros))
     = App.crop
         (App.handleLoad Samples.exp0 [] [] App.initialState
            (Readable Samples.file246)).
Proof.
  assert (H : PlyLoader.loadPly Samples.exp0 (Readable Samples.fileZeros)
              = Throw (Error PlyLoader.msgUnsupportedEncoding))
    by (vm_compute; reflexivity).
  split; [exact H|].
  exact (proj1 (failed_load_keeps_controls Samples.exp0 [] [] _ _ _ H)).
Defined.

Section LoaderFailures.

Variable Math_exp : number -> number.

(** X29: every way the parser fails: with an error of the engine (a
    RangeError or a TypeError), or with one of the four messages of the
    loader, tested in this order: encoding, vertices, position, colour. *)
Theorem parse_failures_are_classified buffer e :
  PlyLoader.parsePly Math_exp buffer = Throw e ->
  engineError e
  \/ (exists h,
        PlyLoader.headerOf buffer = Ok h
        /\ ((Header.isBinary h = false
             /\ e = Error PlyLoader.msgUnsupportedEncoding)
            \/ (Header.isBinary h = true
                /\ Header.pointCount h = Some 0
                /\ e = Error PlyLoader.msgNoVertices)
            \/ (Header.isBinary h = true
                /\ Header.pointCount h <> Some 0
                /\ Header.hasPosition h = false
                /\ e = Error PlyLoader.msgMissingPosition)
            \/ (Header.isBinary h = true
                /\ Header.pointCount h <> Some 0
                /\ Header.hasPosition h = true
                /\ Header.hasClassicColor h = false
                /\ Header.hasSHColor h = false
                /\ e = Error (PlyLoader.msgMissingColor (Header.properties h))))).
Proof.
  unfold PlyLoader.parsePly.
  destruct (PlyLoader.headerText buffer) as [text|e0] eqn:Htext; cbn [bind].
  2:{ intros H. apply Throw_inj in H. subst e0.
      apply headerText_Throw in Htext as [-> _]. left. right. reflexivity. }
  destruct (Header.lines Header.init (PlyLoader.headerLines text)) as [h|e0] eqn:Hl;
    cbn [bind].
  2:{ intros H. apply Throw_inj in H. subst e0.
      apply lines_Throw in Hl. subst e. left. left. reflexivity. }
  pose proof (headerOf_eq _ _ _ Htext Hl) as Hh.
  destruct (Header.isBinary h) eqn:Hb; cbn [negb].
  2:{ intros H. apply Throw_inj in H. right. exists h. split; [exact Hh|].
      left. auto. }
  destruct (bool_decide (Header.pointCount h = Some 0)) eqn:Hpc.
  { apply bool_decide_eq_true in Hpc. intros H. apply Throw_inj in H.
    right. exists h. split; [exact Hh|]. right; left. auto. }
  apply bool_decide_eq_false in Hpc.
  destruct (Header.hasPosition h) eqn:Hpos; cbn [negb].
  2:{ intros H. apply Throw_inj in H. right. exists h. split; [exact Hh|].
      right; right; left. auto. }
  destruct (Header.hasClassicColor h) eqn:Hc; cbn [negb andb].
  { intros H. left. eapply decodeBody_Throw, H. }
  destruct (Header.hasSHColor h) eqn:Hs; cbn [negb].
  { intros H. left. eapply decodeBody_Throw, H. }
  intros H. apply Throw_inj in H. right. exists h. split; [exact Hh|].
  right; right; right. repeat split; auto.
Qed.

End LoaderFailures.

Section VertexLine.

Lemma lines_app ls : forall ls' h h',
  Header.lines h (ls ++ ls') = Ok h' ->
  exists h1, Header.lines h ls = Ok h1 /\ Header.lines h1 ls' = Ok h'.
Proof.
  induction ls as [|l ls IH]; intros ls' h h' H.
  - exists h. split; [reflexivity | exact H].
  - cbn [app] in H. apply lines_cons in H as (h1 & H1 & H2).
    apply IH in H2 as (h2 & H2 & H3). exists h2. split; [|exact H3].
    cbn [Header.lines]. rewrite H1. exact H2.
Qed.

(** X30: the point count is what [parseInt] reads in the third word of
    the last line that starts with [element vertex]; lines before it and
    lines of other kinds after it do not matter. *)
Theorem point_count_from_last_vertex_line before l after h :
  Header.lines Header.init (before ++ l :: after) = Ok h ->
  Header.isVertexLine l = true ->
  existsb Header.isVertexLine after = false ->
  Header.pointCount h = parseInt_opt (split 32 l !! 2%nat).
Proof.
  intros Hl Hv Hafter.
  apply lines_app in Hl as (h1 & _ & Hl).
  apply lines_cons in Hl as (h2 & H2 & Hl).
  rewrite (lines_pointCount_none _ _ _ Hl Hafter).
  apply line_cases in H2
    as [(_ & ->)|[(Hv' & _)|[(Hv' & _)|(Hv' & _)]]];
    [reflexivity | congruence..].
Qed.

End VertexLine.

Lemma parse_failures_witness :
  PlyLoader.parsePly Samples.exp0 Samples.fileAscii
  = Throw (Error PlyLoader.msgUnsupportedEncoding)
  /\ (engineError (Error PlyLoader.msgUnsupportedEncoding)
      \/ exists h,
           PlyLoader.headerOf Samples.fileAscii = Ok h
           /\ ((Header.isBinary h = false
                /\ Error PlyLoader.msgUnsupportedEncoding
                   = Error PlyLoader.msgUnsupportedEncoding)
               \/ (Header.isBinary h = true
                   /\ Header.pointCount h = Some 0
                   /\ Error PlyLoader.msgUnsupportedEncoding
                      = Error PlyLoader.msgNoVertices)
               \/ (Header.isBinary h = true
                   /\ Header.pointCount h <> Some 0
                   /\ Header.hasPosition h = false
                   /\ Error PlyLoader.msgUnsupportedEncoding
                      = Error PlyLoader.msgMissingPosition)
               \/ (Header.isBinary h = true
                   /\ Header.pointCount h <> Some 0
                   /\ Header.hasPosition h = true
                   /\ Header.hasClassicColor h = false
                   /\ Header.hasSHColor h = false
                   /\ Error PlyLoader.msgUnsupportedEncoding
                      = Error (PlyLoader.msgMissingColor (Header.properties h))))).
Proof.
  assert (H : PlyLoader.parsePly Samples.exp0 Samples.fileAscii
              = Throw (Error PlyLoader.msgUnsupportedEncoding))
    by (vm_compute; reflexivity).
  split; [exact H|].
  exact (parse_failures_are_classified Samples.exp0 _ _ H).
Defined.

Lemma point_count_witness :
  Header.lines Header.init
    ([str "ply"; str "element vertex 7"]
     ++ str "element vertex 12 points" :: [str "property float x"])
  = Ok {| Header.pointCount := Some 12; Header.isBinary := false;
          Header.properties :=
            [{| Header.name := str "x"; Header.type := Some (str "float");
                Header.offset := 0 |}];
          Header.currentOffset := 4 |}
  /\ parseInt_opt (split 32 (str "element vertex 12 points") !! 2%nat) = Some 12.
Proof.
  assert (H : Header.lines Header.init
                ([str "ply"; str "element vertex 7"]
                 ++ str "element vertex 12 points" :: [str "property float x"])
              = Ok {| Header.pointCount := Some 12; Header.isBinary := false;
                      Header.properties :=
                        [{| Header.name := str "x";
                            Header.type := Some (str "float");
                            Header.offset := 0 |}];
                      Header.currentOffset := 4 |})
    by (vm_compute; reflexivity).
  split; [exact H|].
  symmetry.
  apply (point_count_from_last_vertex_line _ _ _ _ H); vm_compute; reflexivity.
Defined.
